(** * PDF-Signer: annotation engine and export pipeline

    A shallow embedding of the annotation store ([PDFEditor]), the pointer
    interaction handlers ([PDFViewer]) and the signature crop
    ([SignatureCanvas.handleSave]), with the properties of the specification
    stated and proved over it.

    Conventions of the embedding.
    - A JavaScript [number] holding a coordinate or a size is an exact
      rational ([Q]); rounding of IEEE doubles is outside the model, and so
      is a division by a zero scale (the zoom stays within 0.5 and 3).  Page
      indices, raster dimensions and channel values are integers ([Z]).
    - A JavaScript string is a [string]; an [ascii] stands for a code unit
      below 256.
    - [T | null] is [option T]; the truthiness tests of the source
      ([if (draggingId)], [!signatureToPlace]) are written out with [truthy].
    - A React state cell is a record field; a handler is a function from the
      state in which it runs to the state after its setters have been applied.
    - [Math.random] is not modelled: a handler that calls [generateId] takes
      the generated identifier as an argument. *)

From Stdlib Require Import QArith Qabs ZArith List String Ascii Bool Lia Lqa.
From stdpp Require Import base list.
Import ListNotations.

Open Scope string_scope.
Open Scope Z_scope.

(** ** JavaScript primitives used by the sources *)

Module JS.

(** [Math.max], [Math.min], [Math.abs] on coordinates. *)
Definition Math_max (a b : Q) : Q := if Qle_bool a b then b else a.
Definition Math_min (a b : Q) : Q := if Qle_bool a b then a else b.
Definition Math_abs (a : Q) : Q := if Qle_bool 0 a then a else Qopp a.

(** [a > b] on coordinates. *)
Definition gt (a b : Q) : bool := negb (Qle_bool a b).

(** Truthiness of a string and of a [string | null]. *)
Definition truthy_string (s : string) : bool := negb (String.eqb s "").

Definition truthy (o : option string) : bool :=
  match o with
  | Some s => truthy_string s
  | None => false
  end.

(** Truthiness of an [object | null]. *)
Definition truthy_obj {A : Type} (o : option A) : bool :=
  match o with
  | Some _ => true
  | None => false
  end.

(** White space removed by [String.prototype.trim], among the code units
    below 256: TAB, LF, VT, FF, CR, SP and NBSP. *)
Definition isWhiteSpace (c : ascii) : bool :=
  let n := nat_of_ascii c in
  (Nat.eqb n 9 || Nat.eqb n 10 || Nat.eqb n 11 || Nat.eqb n 12
   || Nat.eqb n 13 || Nat.eqb n 32 || Nat.eqb n 160)%bool.

Fixpoint trimStart (s : string) : string :=
  match s with
  | EmptyString => EmptyString
  | String c s' => if isWhiteSpace c then trimStart s' else s
  end.

Fixpoint trimEnd (s : string) : string :=
  match s with
  | EmptyString => EmptyString
  | String c s' =>
      match trimEnd s' with
      | EmptyString => if isWhiteSpace c then EmptyString else String c EmptyString
      | t => String c t
      end
  end.

Definition trim (s : string) : string := trimEnd (trimStart s).

(** Every character of the string is white space. *)
Fixpoint blank (s : string) : bool :=
  match s with
  | EmptyString => true
  | String c s' => isWhiteSpace c && blank s'
  end.

End JS.

(** ** src/types/pdf-editor.ts *)

Inductive Tool : Type := select | sign | text | highlight.

Definition Tool_eqb (a b : Tool) : bool :=
  match a, b with
  | select, select | sign, sign | text, text | highlight, highlight => true
  | _, _ => false
  end.

Module SignatureData.
Record t : Type := mk
  { id : string; x : Q; y : Q; width : Q; height : Q;
    dataUrl : string; page : Z }.

(** [Omit<SignatureData, 'id'>] *)
Record omit_id : Type := mk_omit
  { x0 : Q; y0 : Q; width0 : Q; height0 : Q; dataUrl0 : string; page0 : Z }.

(** [Partial<SignatureData>]: an absent key is [None]. *)
Record partial : Type := mk_partial
  { id' : option string; x' : option Q; y' : option Q;
    width' : option Q; height' : option Q;
    dataUrl' : option string; page' : option Z }.

(** [{ ...signature, id }] *)
Definition with_id (s : omit_id) (i : string) : t :=
  mk i (x0 s) (y0 s) (width0 s) (height0 s) (dataUrl0 s) (page0 s).

(** [{ ...s, ...updates }] *)
Definition spread (s : t) (u : partial) : t :=
  mk (default (id s) (id' u)) (default (x s) (x' u)) (default (y s) (y' u))
     (default (width s) (width' u)) (default (height s) (height' u))
     (default (dataUrl s) (dataUrl' u)) (default (page s) (page' u)).
End SignatureData.

Module TextAnnotation.
Record t : Type := mk
  { id : string; x : Q; y : Q; text : string; fontSize : Q;
    color : string; page : Z }.

Record omit_id : Type := mk_omit
  { x0 : Q; y0 : Q; text0 : string; fontSize0 : Q; color0 : string;
    page0 : Z }.

Record partial : Type := mk_partial
  { id' : option string; x' : option Q; y' : option Q;
    text' : option string; fontSize' : option Q;
    color' : option string; page' : option Z }.

Definition with_id (s : omit_id) (i : string) : t :=
  mk i (x0 s) (y0 s) (text0 s) (fontSize0 s) (color0 s) (page0 s).

Definition spread (s : t) (u : partial) : t :=
  mk (default (id s) (id' u)) (default (x s) (x' u)) (default (y s) (y' u))
     (default (text s) (text' u)) (default (fontSize s) (fontSize' u))
     (default (color s) (color' u)) (default (page s) (page' u)).
End TextAnnotation.

Module HighlightAnnotation.
Record t : Type := mk
  { id : string; x : Q; y : Q; width : Q; height : Q; page : Z }.

Record omit_id : Type := mk_omit
  { x0 : Q; y0 : Q; width0 : Q; height0 : Q; page0 : Z }.

Definition with_id (s : omit_id) (i : string) : t :=
  mk i (x0 s) (y0 s) (width0 s) (height0 s) (page0 s).
End HighlightAnnotation.

Record Annotation : Type := mkAnnotation
  { signatures : list SignatureData.t;
    texts : list TextAnnotation.t;
    highlights : list HighlightAnnotation.t }.

(** ** PDFEditor: the annotation store and its session state *)

Record File : Type := mkFile
  { file_name : string; file_bytes : list Byte.byte }.

Record EditorState : Type := mkEditor
  { numPages : Z;
    currentPage : Z;
    scale : Q;
    activeTool : Tool;
    showSignatureModal : bool;
    signatureToPlace : option string;
    isProcessing : bool;
    annotations : Annotation }.

Definition setAnnotations (f : Annotation -> Annotation) (st : EditorState)
  : EditorState :=
  mkEditor (numPages st) (currentPage st) (scale st) (activeTool st)
    (showSignatureModal st) (signatureToPlace st) (isProcessing st)
    (f (annotations st)).

Definition setSignatureToPlace (v : option string) (st : EditorState)
  : EditorState :=
  mkEditor (numPages st) (currentPage st) (scale st) (activeTool st)
    (showSignatureModal st) v (isProcessing st) (annotations st).

Definition setIsProcessing (v : bool) (st : EditorState) : EditorState :=
  mkEditor (numPages st) (currentPage st) (scale st) (activeTool st)
    (showSignatureModal st) (signatureToPlace st) v (annotations st).

Definition setActiveTool (v : Tool) (st : EditorState) : EditorState :=
  mkEditor (numPages st) (currentPage st) (scale st) v
    (showSignatureModal st) (signatureToPlace st) (isProcessing st)
    (annotations st).

Definition setShowSignatureModal (v : bool) (st : EditorState) : EditorState :=
  mkEditor (numPages st) (currentPage st) (scale st) (activeTool st)
    v (signatureToPlace st) (isProcessing st) (annotations st).

Definition handleToolChange (tool : Tool) (st : EditorState) : EditorState :=
  let st1 := setActiveTool tool st in
  if Tool_eqb tool sign && negb (JS.truthy (signatureToPlace st))
  then setShowSignatureModal true st1
  else st1.

Definition handleSignatureSave (url : string) (st : EditorState) : EditorState :=
  setShowSignatureModal false (setSignatureToPlace (Some url) st).

(** [generated] is the value returned by [generateId()]. *)
Definition handleAddSignature (generated : string)
    (signature : SignatureData.omit_id) : EditorState -> EditorState :=
  setAnnotations (fun prev =>
    mkAnnotation
      (signatures prev ++ [SignatureData.with_id signature generated])
      (texts prev) (highlights prev)).

Definition handleAddText (generated : string)
    (t : TextAnnotation.omit_id) : EditorState -> EditorState :=
  let newText := TextAnnotation.with_id t generated in
  setAnnotations (fun prev =>
    mkAnnotation (signatures prev) (texts prev ++ [newText]) (highlights prev)).

Definition handleAddHighlight (generated : string)
    (h : HighlightAnnotation.omit_id) : EditorState -> EditorState :=
  setAnnotations (fun prev =>
    mkAnnotation (signatures prev) (texts prev)
      (highlights prev ++ [HighlightAnnotation.with_id h generated])).

Definition handleUpdateSignature (id : string)
    (updates : SignatureData.partial) : EditorState -> EditorState :=
  setAnnotations (fun prev =>
    mkAnnotation
      (List.map (fun s => if String.eqb (SignatureData.id s) id
                     then SignatureData.spread s updates else s)
         (signatures prev))
      (texts prev) (highlights prev)).

Definition handleUpdateText (id : string)
    (updates : TextAnnotation.partial) : EditorState -> EditorState :=
  setAnnotations (fun prev =>
    mkAnnotation (signatures prev)
      (List.map (fun t => if String.eqb (TextAnnotation.id t) id
                     then TextAnnotation.spread t updates else t)
         (texts prev))
      (highlights prev)).

Definition handleDeleteSignature (id : string) : EditorState -> EditorState :=
  setAnnotations (fun prev =>
    mkAnnotation
      (List.filter (fun s => negb (String.eqb (SignatureData.id s) id))
         (signatures prev))
      (texts prev) (highlights prev)).

Definition handleDeleteText (id : string) : EditorState -> EditorState :=
  setAnnotations (fun prev =>
    mkAnnotation (signatures prev)
      (List.filter (fun t => negb (String.eqb (TextAnnotation.id t) id))
         (texts prev))
      (highlights prev)).

Definition handleDeleteHighlight (id : string) : EditorState -> EditorState :=
  setAnnotations (fun prev =>
    mkAnnotation (signatures prev) (texts prev)
      (List.filter (fun h => negb (String.eqb (HighlightAnnotation.id h) id))
         (highlights prev))).

Definition handleReset : EditorState -> EditorState :=
  setAnnotations (fun _ => mkAnnotation [] [] []).

(** ** pdf-lib and the browser, as far as [handleDownload] uses them *)

Module PDFLib.

Record Color : Type := rgb { red : Q; green : Q; blue : Q }.

(** An embedded image: the PNG bytes it was decoded from. *)
Record PDFImage : Type := PngImage { png_bytes : list Byte.byte }.

(** What [page.drawImage], [page.drawText] and [page.drawRectangle]
    append to the content stream of a page. *)
Inductive DrawOp : Type :=
| drawImage (image : PDFImage) (x y width height : Q)
| drawText (txt : string) (x y size : Q) (color : Color)
| drawRectangle (x y width height : Q) (color : Color) (opacity : Q).

Record PDFPage : Type := mkPage
  { page_width : Q; page_height : Q; content : list DrawOp }.

Record PDFDocument : Type := mkDoc
  { pages : list PDFPage; embedded : list PDFImage }.

(** The calls that can reject or throw; [None] is the rejection.
    [encodeText] tells whether the font of the page (the standard
    Helvetica, the handler setting none) encodes a text: [drawText] throws
    when it does not. *)
Record Platform : Type := mkPlatform
  { arrayBuffer : File -> option (list Byte.byte);
    load : list Byte.byte -> option PDFDocument;
    fetch_arrayBuffer : string -> option (list Byte.byte);
    decodePng : list Byte.byte -> option PDFImage;
    encodeText : string -> bool;
    save : PDFDocument -> option (list Byte.byte) }.

(** The [try] block runs in a state-and-exception monad over the loaded
    document: page objects are mutated in place by the draw calls. *)
Definition Task (A : Type) : Type := PDFDocument -> option (A * PDFDocument).

Definition ret {A : Type} (a : A) : Task A := fun d => Some (a, d).

Definition bind {A B : Type} (m : Task A) (k : A -> Task B) : Task B :=
  fun d => match m d with
           | Some (a, d') => k a d'
           | None => None
           end.

(** [await] of a promise that may reject. *)
Definition await {A : Type} (r : option A) : Task A :=
  fun d => match r with
           | Some a => Some (a, d)
           | None => None
           end.

(** [for (const a of l) body] *)
Fixpoint for_of {A : Type} (l : list A) (body : A -> Task unit) : Task unit :=
  match l with
  | [] => ret tt
  | a :: l' => bind (body a) (fun _ => for_of l' body)
  end.

(** [pages[n]]: [undefined] outside the array. The handle is the index. *)
Definition page_at (n : Z) : Task (option (nat * PDFPage)) :=
  fun d =>
    let r := if n <? 0 then None
             else match pages d !! Z.to_nat n with
                  | Some p => Some (Z.to_nat n, p)
                  | None => None
                  end in
    Some (r, d).

Definition embedPng (P : Platform) (bytes : list Byte.byte) : Task PDFImage :=
  fun d => match decodePng P bytes with
           | Some img => Some (img, mkDoc (pages d) (embedded d ++ [img]))
           | None => None
           end.

Definition append_op (op : DrawOp) (p : PDFPage) : PDFPage :=
  mkPage (page_width p) (page_height p) (content p ++ [op]).

(** Whether a draw call goes through: [drawText] encodes its text in the
    font of the page and throws for a character the font cannot encode;
    [drawImage] and [drawRectangle] only check the types of their
    options. *)
Definition accepts (P : Platform) (op : DrawOp) : bool :=
  match op with
  | drawText txt _ _ _ _ => encodeText P txt
  | _ => true
  end.

(** A draw call on the page object with handle [i]: it throws before it
    writes anything, or appends its operation. *)
Definition draw (P : Platform) (i : nat) (op : DrawOp) : Task unit :=
  fun d =>
    if accepts P op
    then Some (tt, mkDoc (alter (append_op op) i (pages d)) (embedded d))
    else None.

End PDFLib.

Import PDFLib.

Notation "'let*' x ':=' m 'in' k" := (PDFLib.bind m (fun x => k))
  (at level 10, x pattern, m at level 100, k at level 200).

Definition bakeSignature (P : Platform) (signature : SignatureData.t)
  : Task unit :=
  let* page := page_at (SignatureData.page signature - 1) in
  match page with
  | None => ret tt
  | Some (i, pg) =>
      let height := page_height pg in
      let* imageBytes :=
        await (fetch_arrayBuffer P (SignatureData.dataUrl signature)) in
      let* pngImage := embedPng P imageBytes in
      draw P i (drawImage pngImage
                (SignatureData.x signature)
                (height - SignatureData.y signature
                 - SignatureData.height signature)%Q
                (SignatureData.width signature)
                (SignatureData.height signature))
  end.

Definition bakeText (P : Platform) (t : TextAnnotation.t) : Task unit :=
  if negb (JS.truthy_string (JS.trim (TextAnnotation.text t))) then ret tt
  else
    let* page := page_at (TextAnnotation.page t - 1) in
    match page with
    | None => ret tt
    | Some (i, pg) =>
        let height := page_height pg in
        draw P i (drawText (TextAnnotation.text t)
                  (TextAnnotation.x t)
                  (height - TextAnnotation.y t - TextAnnotation.fontSize t)%Q
                  (TextAnnotation.fontSize t)
                  (rgb (1 # 10) (1 # 10) (18 # 100)))
    end.

Definition bakeHighlight (P : Platform) (h : HighlightAnnotation.t)
  : Task unit :=
  let* page := page_at (HighlightAnnotation.page h - 1) in
  match page with
  | None => ret tt
  | Some (i, pg) =>
      let height := page_height pg in
      draw P i (drawRectangle
                (HighlightAnnotation.x h)
                (height - HighlightAnnotation.y h
                 - HighlightAnnotation.height h)%Q
                (HighlightAnnotation.width h)
                (HighlightAnnotation.height h)
                (rgb (98 # 100) (8 # 10) (8 # 100))
                (4 # 10))
  end.

(** The three loops of the [try] block, on the loaded document. *)
Definition bakeAnnotations (P : Platform) (a : Annotation) : Task unit :=
  let* _ := for_of (signatures a) (bakeSignature P) in
  let* _ := for_of (texts a) (bakeText P) in
  for_of (highlights a) (bakeHighlight P).

(** The [try] block up to [pdfDoc.save()]: the baked document and its
    bytes, or [None] when something threw. *)
Definition tryBake (P : Platform) (file : File) (a : Annotation)
  : option (PDFDocument * list Byte.byte) :=
  match arrayBuffer P file with
  | None => None
  | Some buf =>
      match load P buf with
      | None => None
      | Some pdfDoc =>
          match bakeAnnotations P a pdfDoc with
          | None => None
          | Some (_, baked) =>
              match save P baked with
              | None => None
              | Some pdfBytes => Some (baked, pdfBytes)
              end
          end
      end
  end.

Inductive Effect : Type :=
| toast (title description : string) (destructive : bool)
| console_error
| download (name : string) (bytes : list Byte.byte).

(** One run of [handleDownload]: the state in which the export is in
    flight, the state once the [finally] clause has run, and what the run
    did to the outside. *)
Record DownloadRun : Type := mkRun
  { pending : EditorState;
    settled : EditorState;
    effects : list Effect }.

Definition handleDownload (P : Platform) (file : File) (st : EditorState)
  : DownloadRun :=
  let st1 := setIsProcessing true st in
  let effs :=
    match tryBake P file (annotations st) with
    | Some (_, pdfBytes) =>
        [ download ("edited_" ++ file_name file) pdfBytes;
          toast "PDF downloaded" "Your edited PDF has been saved" false ]
    | None =>
        [ console_error;
          toast "Error" "Failed to process the PDF. Please try again." true ]
    end in
  mkRun st1 (setIsProcessing false st1) effs.

(** ** PDFViewer: pointer handlers over the shared state *)

Record Point : Type := mkPoint { px : Q; py : Q }.

Record Rect : Type := mkRect
  { rect_x : Q; rect_y : Q; rect_width : Q; rect_height : Q }.

Module DOMRect.
(** The fields of [getBoundingClientRect()] the viewer reads. *)
Record t : Type := mk { left : Q; top : Q }.
End DOMRect.

Record MouseEvent : Type := mkMouse { clientX : Q; clientY : Q }.

Inductive ResizeHandle : Type := nw | ne | sw | se.

Record Resizing : Type := mkResizing
  { resize_id : string;
    handle : ResizeHandle;
    startX : Q; startY : Q;
    startWidth : Q; startHeight : Q;
    startLeft : Q; startTop : Q }.

Record ViewerState : Type := mkViewer
  { editingTextId : option string;
    highlightStart : option Point;
    tempHighlight : option Rect;
    draggingId : option string;
    dragOffset : Point;
    resizing : option Resizing }.

(** The state cells of [PDFEditor] and of the [PDFViewer] it renders. *)
Record App : Type := mkApp { editor : EditorState; viewer : ViewerState }.

Definition onEditor (f : EditorState -> EditorState) (a : App) : App :=
  mkApp (f (editor a)) (viewer a).

Definition onViewer (f : ViewerState -> ViewerState) (a : App) : App :=
  mkApp (editor a) (f (viewer a)).

Definition setHighlightStart (p : option Point) (v : ViewerState) : ViewerState :=
  mkViewer (editingTextId v) p (tempHighlight v) (draggingId v)
    (dragOffset v) (resizing v).

Definition setTempHighlight (r : option Rect) (v : ViewerState) : ViewerState :=
  mkViewer (editingTextId v) (highlightStart v) r (draggingId v)
    (dragOffset v) (resizing v).

Definition setDraggingId (i : option string) (v : ViewerState) : ViewerState :=
  mkViewer (editingTextId v) (highlightStart v) (tempHighlight v) i
    (dragOffset v) (resizing v).

Definition setDragOffset (p : Point) (v : ViewerState) : ViewerState :=
  mkViewer (editingTextId v) (highlightStart v) (tempHighlight v)
    (draggingId v) p (resizing v).

Definition setResizing (r : option Resizing) (v : ViewerState) : ViewerState :=
  mkViewer (editingTextId v) (highlightStart v) (tempHighlight v)
    (draggingId v) (dragOffset v) r.

(** The callback props, bound as [PDFEditor] binds them. *)
Definition onAddSignature g s := onEditor (handleAddSignature g s).
Definition onAddText g t := onEditor (handleAddText g t).
Definition onAddHighlight g h := onEditor (handleAddHighlight g h).
Definition onUpdateSignature i u := onEditor (handleUpdateSignature i u).
Definition onUpdateText i u := onEditor (handleUpdateText i u).
Definition onDeleteSignature i := onEditor (handleDeleteSignature i).
Definition onDeleteText i := onEditor (handleDeleteText i).
Definition onDeleteHighlight i := onEditor (handleDeleteHighlight i).
Definition onSignaturePlaced := onEditor (setSignatureToPlace None).

(** [container] is [containerRef.current] with its bounding rectangle. *)
Definition getRelativePosition (container : option DOMRect.t) (scale : Q)
    (e : MouseEvent) : Point :=
  match container with
  | None => mkPoint 0 0
  | Some rect =>
      mkPoint ((clientX e - DOMRect.left rect) / scale)
              ((clientY e - DOMRect.top rect) / scale)
  end.

Definition handleClick (container : option DOMRect.t) (generated : string)
    (e : MouseEvent) (a : App) : App :=
  if JS.truthy (draggingId (viewer a)) || JS.truthy_obj (resizing (viewer a))
  then a
  else
    let p := getRelativePosition container (scale (editor a)) e in
    if Tool_eqb (activeTool (editor a)) sign
       && JS.truthy (signatureToPlace (editor a))
    then
      onSignaturePlaced
        (onAddSignature generated
           (SignatureData.mk_omit (px p) (py p) 150 60
              (default "" (signatureToPlace (editor a)))
              (currentPage (editor a)))
           a)
    else if Tool_eqb (activeTool (editor a)) text
    then
      let newText :=
        TextAnnotation.mk_omit (px p) (py p) "" 16 "#1a1a2e"
          (currentPage (editor a)) in
      onAddText generated newText a
    else a.

Definition handleMouseDown (container : option DOMRect.t) (e : MouseEvent)
    (a : App) : App :=
  if Tool_eqb (activeTool (editor a)) highlight
  then
    let p := getRelativePosition container (scale (editor a)) e in
    onViewer (fun v =>
      setTempHighlight (Some (mkRect (px p) (py p) 0 0))
        (setHighlightStart (Some p) v)) a
  else a.

(** The new geometry of a resize move, for the pointer at [p]. *)
Definition resizeGeometry (r : Resizing) (p : Point) : Rect :=
  let deltaX := (px p - startX r)%Q in
  let deltaY := (py p - startY r)%Q in
  match handle r with
  | se =>
      let newWidth := JS.Math_max 50 (startWidth r + deltaX) in
      let newHeight := JS.Math_max 30 (startHeight r + deltaY) in
      mkRect (startLeft r) (startTop r) newWidth newHeight
  | sw =>
      let newWidth := JS.Math_max 50 (startWidth r - deltaX) in
      let newHeight := JS.Math_max 30 (startHeight r + deltaY) in
      mkRect (startLeft r + (startWidth r - newWidth)) (startTop r)
        newWidth newHeight
  | ne =>
      let newWidth := JS.Math_max 50 (startWidth r + deltaX) in
      let newHeight := JS.Math_max 30 (startHeight r - deltaY) in
      mkRect (startLeft r) (startTop r + (startHeight r - newHeight))
        newWidth newHeight
  | nw =>
      let newWidth := JS.Math_max 50 (startWidth r - deltaX) in
      let newHeight := JS.Math_max 30 (startHeight r - deltaY) in
      mkRect (startLeft r + (startWidth r - newWidth))
        (startTop r + (startHeight r - newHeight)) newWidth newHeight
  end.

Definition findSignature (i : string) (l : list SignatureData.t)
  : option SignatureData.t :=
  List.find (fun s => String.eqb (SignatureData.id s) i) l.

Definition findText (i : string) (l : list TextAnnotation.t)
  : option TextAnnotation.t :=
  List.find (fun t => String.eqb (TextAnnotation.id t) i) l.

Definition handleMouseMove (container : option DOMRect.t) (e : MouseEvent)
    (a : App) : App :=
  let p := getRelativePosition container (scale (editor a)) e in
  let a1 :=
    match highlightStart (viewer a) with
    | Some hs =>
        if Tool_eqb (activeTool (editor a)) highlight
        then onViewer (setTempHighlight (Some
               (mkRect (JS.Math_min (px hs) (px p))
                       (JS.Math_min (py hs) (py p))
                       (JS.Math_abs (px p - px hs))
                       (JS.Math_abs (py p - py hs))))) a
        else a
    | None => a
    end in
  match resizing (viewer a) with
  | Some r =>
      match findSignature (resize_id r) (signatures (annotations (editor a))) with
      | None => a1
      | Some _ =>
          let g := resizeGeometry r p in
          onUpdateSignature (resize_id r)
            (SignatureData.mk_partial None (Some (rect_x g)) (Some (rect_y g))
               (Some (rect_width g)) (Some (rect_height g)) None None) a1
      end
  | None =>
      match draggingId (viewer a) with
      | Some i =>
          if JS.truthy_string i then
            let off := dragOffset (viewer a) in
            match findSignature i (signatures (annotations (editor a))),
                  findText i (texts (annotations (editor a))) with
            | Some _, _ =>
                onUpdateSignature i
                  (SignatureData.mk_partial None (Some (px p - px off)%Q)
                     (Some (py p - py off)%Q) None None None None) a1
            | None, Some _ =>
                onUpdateText i
                  (TextAnnotation.mk_partial None (Some (px p - px off)%Q)
                     (Some (py p - py off)%Q) None None None None) a1
            | None, None => a1
            end
          else a1
      | None => a1
      end
  end.

Definition handleMouseUp (generated : string) (a : App) : App :=
  let a1 :=
    match tempHighlight (viewer a) with
    | Some th =>
        if JS.gt (rect_width th) 10 && JS.gt (rect_height th) 5
        then onAddHighlight generated
               (HighlightAnnotation.mk_omit (rect_x th) (rect_y th)
                  (rect_width th) (rect_height th) (currentPage (editor a))) a
        else a
    | None => a
    end in
  onViewer (fun v =>
    setResizing None (setDraggingId None
      (setTempHighlight None (setHighlightStart None v)))) a1.

Definition startDrag (container : option DOMRect.t) (e : MouseEvent)
    (id : string) (itemX itemY : Q) (a : App) : App :=
  if Tool_eqb (activeTool (editor a)) highlight then a
  else
    let p := getRelativePosition container (scale (editor a)) e in
    onViewer (fun v =>
      setDragOffset (mkPoint (px p - itemX) (py p - itemY))
        (setDraggingId (Some id) v)) a.

Definition startResize (container : option DOMRect.t) (e : MouseEvent)
    (id : string) (h : ResizeHandle) (signature : SignatureData.t) (a : App)
  : App :=
  let p := getRelativePosition container (scale (editor a)) e in
  onViewer (setResizing (Some
    (mkResizing id h (px p) (py p)
       (SignatureData.width signature) (SignatureData.height signature)
       (SignatureData.x signature) (SignatureData.y signature)))) a.

(** *** Event dispatch, as the JSX binds the handlers

    A press reaches exactly one handler: [startResize] and [startDrag] stop
    the propagation.  Under the highlight tool a signature takes no pointer
    events and has no handles, so the press falls through to the container.
    Moves and releases bubble to the container; leaving the container runs
    the release handler. *)

Inductive Target : Type :=
| onContainer
| onSignature (s : SignatureData.t)
| onText (t : TextAnnotation.t)
| onHandle (s : SignatureData.t) (h : ResizeHandle).

Inductive Event : Type :=
| MouseDown (target : Target) (container : option DOMRect.t) (e : MouseEvent)
| MouseMove (container : option DOMRect.t) (e : MouseEvent)
| MouseUp (generated : string)
| MouseLeave (generated : string)
| Click (container : option DOMRect.t) (generated : string) (e : MouseEvent)
| ToolChange (tool : Tool).

Definition dispatch (ev : Event) (a : App) : App :=
  match ev with
  | MouseDown onContainer c e => handleMouseDown c e a
  | MouseDown (onSignature s) c e =>
      if Tool_eqb (activeTool (editor a)) highlight
      then handleMouseDown c e a
      else startDrag c e (SignatureData.id s) (SignatureData.x s)
             (SignatureData.y s) a
  | MouseDown (onText t) c e =>
      startDrag c e (TextAnnotation.id t) (TextAnnotation.x t)
        (TextAnnotation.y t) a
  | MouseDown (onHandle s h) c e =>
      if Tool_eqb (activeTool (editor a)) highlight
      then handleMouseDown c e a
      else startResize c e (SignatureData.id s) h s a
  | MouseMove c e => handleMouseMove c e a
  | MouseUp g => handleMouseUp g a
  | MouseLeave g => handleMouseUp g a
  | Click c g e => handleClick c g e a
  | ToolChange t => onEditor (handleToolChange t) a
  end.

Definition run (evs : list Event) (a : App) : App :=
  fold_left (fun st ev => dispatch ev st) evs a.

Definition idleViewer : ViewerState :=
  mkViewer None None None None (mkPoint 0 0) None.

(** The three gestures, as the handlers test them. *)
Definition dragActive (a : App) : bool := JS.truthy (draggingId (viewer a)).
Definition resizeActive (a : App) : bool := JS.truthy_obj (resizing (viewer a)).
Definition rubberBandActive (a : App) : bool :=
  JS.truthy_obj (highlightStart (viewer a))
  || JS.truthy_obj (tempHighlight (viewer a)).

Definition activeGestures (a : App) : nat :=
  (Nat.b2n (dragActive a) + Nat.b2n (resizeActive a)
   + Nat.b2n (rubberBandActive a))%nat.

Definition isPress (ev : Event) : bool :=
  match ev with
  | MouseDown _ _ _ => true
  | _ => false
  end.

Definition isRelease (ev : Event) : bool :=
  match ev with
  | MouseUp _ | MouseLeave _ => true
  | _ => false
  end.

(** States reached from [a0] by any sequence of events. *)
Inductive reachable (a0 : App) : App -> Prop :=
| reachable_start : reachable a0 a0
| reachable_step (a : App) (ev : Event) :
    reachable a0 a -> reachable a0 (dispatch ev a).

(** States reached from [a0] when every press arrives with no gesture
    active, that is, when a release separates two presses. *)
Inductive reachableReleased (a0 : App) : App -> Prop :=
| released_start : reachableReleased a0 a0
| released_step (a : App) (ev : Event) :
    reachableReleased a0 a ->
    (isPress ev = true -> activeGestures a = 0%nat) ->
    reachableReleased a0 (dispatch ev a).

(** ** SignatureCanvas: the crop of [handleSave] *)

Module SignatureCanvas.

(** [ImageData]: RGBA bytes in row-major order. *)
Record ImageData : Type := mkImageData
  { data : list Z; width : Z; height : Z }.

(** A canvas element: whether [getContext('2d')] answers, and what
    [getImageData(0, 0, canvas.width, canvas.height)] returns; for a canvas
    of width or height 0, for which the call throws, the raster only
    carries that size. *)
Record Canvas : Type := mkCanvas
  { context2d : bool; imageData : ImageData }.

Record RGBA : Type := mkRGBA { chR : Z; chG : Z; chB : Z; chA : Z }.

(** The cropped canvas handed to [onSave] (as its PNG data URL): the width
    and height the handler assigns to it, the source corner it copies
    from, the size the canvas takes, and its pixel rows. *)
Record Cropped : Type := mkCropped
  { croppedWidth : Z; croppedHeight : Z;
    sourceX : Z; sourceY : Z;
    canvasWidth : Z; canvasHeight : Z;
    rows : list (list RGBA) }.

Definition padding : Z := 20.

(** [data[i]]; [undefined] is [None]. *)
Definition channel (img : ImageData) (i : Z) : option Z :=
  if i <? 0 then None else data img !! Z.to_nat i.

(** [data[(y * width + x) * 4 + 3] > 0] *)
Definition opaque (img : ImageData) (x y : Z) : bool :=
  match channel img ((y * width img + x) * 4 + 3) with
  | Some alpha => 0 <? alpha
  | None => false
  end.

(** [for (let i = 0; i < n; i++)] *)
Definition upto (n : Z) : list Z := List.map Z.of_nat (seq 0 (Z.to_nat n)).

Record Box : Type := mkBox { minX : Z; minY : Z; maxX : Z; maxY : Z }.

Definition visit (img : ImageData) (y : Z) (b : Box) (x : Z) : Box :=
  if opaque img x y
  then mkBox (Z.min (minX b) x) (Z.min (minY b) y)
             (Z.max (maxX b) x) (Z.max (maxY b) y)
  else b.

Definition scanRow (img : ImageData) (b : Box) (y : Z) : Box :=
  fold_left (visit img y) (upto (width img)) b.

Definition scan (img : ImageData) : Box :=
  fold_left (scanRow img) (upto (height img))
    (mkBox (width img) (height img) 0 0).

Definition pad (img : ImageData) (b : Box) : Box :=
  mkBox (Z.max 0 (minX b - padding)) (Z.max 0 (minY b - padding))
        (Z.min (width img) (maxX b + padding))
        (Z.min (height img) (maxY b + padding)).

Definition pixel (img : ImageData) (x y : Z) : RGBA :=
  let i := (y * width img + x) * 4 in
  mkRGBA (default 0 (channel img i)) (default 0 (channel img (i + 1)))
         (default 0 (channel img (i + 2))) (default 0 (channel img (i + 3))).

(** The size a canvas takes when the integer [v], of magnitude below
    2^31, is assigned to its [width] ([default] 300) or [height]
    ([default] 150): a negative number becomes an [unsigned long] above
    2^31 - 1, for which the attribute is set to its default. *)
Definition assigned (default v : Z) : Z := if v <? 0 then default else v.

(** The pixels of the source rectangle. *)
Definition copied (img : ImageData) (sx sy w h : Z) : list (list RGBA) :=
  List.map (fun j => List.map (fun i => pixel img (sx + i) (sy + j)) (upto w))
    (upto h).

(** A fresh canvas: transparent black throughout. *)
Definition blank (w h : Z) : list (list RGBA) :=
  List.repeat (List.repeat (mkRGBA 0 0 0 0) (Z.to_nat w)) (Z.to_nat h).

(** [croppedCtx.drawImage(canvas, sx, sy, w, h, 0, 0, w, h)] on the fresh
    canvas, of size [cw] x [ch].  With [w] and [h] positive the canvas has
    that size and receives a copy of the source rectangle.  With one of
    them zero the call draws nothing; with one of them negative the
    destination rectangle, from [w] to 0 or from [h] to 0, lies outside the
    canvas: the canvas stays blank. *)
Definition drawImage (img : ImageData) (sx sy w h cw ch : Z)
  : list (list RGBA) :=
  if (0 <? w) && (0 <? h) then copied img sx sy w h else blank cw ch.

(** [canvasRef] is [canvasRef.current]; [croppedCtx] tells whether the
    fresh canvas answers [getContext('2d')]. The result is the argument of
    [onSave], [None] when [onSave] is not called: the handler returned
    early, or [getImageData] threw its [IndexSizeError] for a canvas of
    width or height 0 (a canvas has no negative size). *)
Definition handleSave (canvasRef : option Canvas) (hasContent : bool)
    (croppedCtx : bool) : option Cropped :=
  match canvasRef with
  | None => None
  | Some canvas =>
      if negb hasContent then None
      else if negb (context2d canvas) then None
      else
        let img := imageData canvas in
        if (width img <=? 0) || (height img <=? 0) then None
        else
          let b := pad img (scan img) in
          let cw := maxX b - minX b in
          let ch := maxY b - minY b in
          let w := assigned 300 cw in
          let h := assigned 150 ch in
          if negb croppedCtx then None
          else Some (mkCropped cw ch (minX b) (minY b) w h
                       (drawImage img (minX b) (minY b) cw ch w h))
  end.

(** The pixel (x, y) lies on the surface. *)
Definition inside (img : ImageData) (x y : Z) : Prop :=
  0 <= x < width img /\ 0 <= y < height img.

(** The box [b] is the bounding box of the pixels of [img] with a
    non-zero alpha: it contains them all and each side touches one. *)
Definition boundingBox (img : ImageData) (b : Box) : Prop :=
  (forall x y, inside img x y -> opaque img x y = true ->
     minX b <= x <= maxX b /\ minY b <= y <= maxY b)
  /\ (exists y, inside img (minX b) y /\ opaque img (minX b) y = true)
  /\ (exists y, inside img (maxX b) y /\ opaque img (maxX b) y = true)
  /\ (exists x, inside img x (minY b) /\ opaque img x (minY b) = true)
  /\ (exists x, inside img x (maxY b) /\ opaque img x (maxY b) = true).

(** The pixels in the order the two loops visit them, as (row, column). *)
Definition scanOrder (img : ImageData) : list (Z * Z) :=
  flat_map (fun y => List.map (pair y) (upto (width img))) (upto (height img)).

Definition visitPixel (img : ImageData) (b : Box) (p : Z * Z) : Box :=
  visit img (fst p) b (snd p).

(** A raster of the given size whose pixels are given by [f]. *)
Definition raster (w h : Z) (f : Z -> Z -> RGBA) : ImageData :=
  mkImageData
    (List.concat (List.map (fun y =>
       List.concat (List.map (fun x =>
         let p := f x y in [chR p; chG p; chB p; chA p]) (upto w)))
       (upto h)))
    w h.

End SignatureCanvas.

(** ** Vocabulary of the specification *)

(** The annotation with 1-based page index [page] belongs to the page with
    0-based position [i] of the document. *)
Definition drawnOn (i : nat) (page : Z) : bool := page - 1 =? Z.of_nat i.

(** The 1-based index [page] has a page in a document of [n] pages. *)
Definition hasPage (n : nat) (page : Z) : bool :=
  (0 <=? page - 1) && (page - 1 <? Z.of_nat n).

(** The content of a text annotation is not empty once trimmed. *)
Definition inked (t : TextAnnotation.t) : bool :=
  JS.truthy_string (JS.trim (TextAnnotation.text t)).

(** The draw operation for an annotation on a page of height [pageHeight],
    in the words of the bake-out algorithm. *)
Definition signatureDrawn (pageHeight : Q) (s : SignatureData.t) (op : DrawOp)
  : Prop :=
  match op with
  | drawImage _ x y w h =>
      x = SignatureData.x s
      /\ y = (pageHeight - SignatureData.y s - SignatureData.height s)%Q
      /\ w = SignatureData.width s /\ h = SignatureData.height s
  | _ => False
  end.

Definition textDrawn (pageHeight : Q) (t : TextAnnotation.t) (op : DrawOp)
  : Prop :=
  match op with
  | drawText s x y size _ =>
      s = TextAnnotation.text t /\ x = TextAnnotation.x t
      /\ y = (pageHeight - TextAnnotation.y t - TextAnnotation.fontSize t)%Q
      /\ size = TextAnnotation.fontSize t
  | _ => False
  end.

Definition highlightDrawn (pageHeight : Q) (h : HighlightAnnotation.t)
    (op : DrawOp) : Prop :=
  match op with
  | drawRectangle x y w ht _ opacity =>
      x = HighlightAnnotation.x h
      /\ y = (pageHeight - HighlightAnnotation.y h
              - HighlightAnnotation.height h)%Q
      /\ w = HighlightAnnotation.width h /\ ht = HighlightAnnotation.height h
      /\ opacity = (4 # 10)%Q
  | _ => False
  end.

Definition drawnY (op : DrawOp) : Q :=
  match op with
  | drawImage _ _ y _ _ => y
  | drawText _ _ y _ _ => y
  | drawRectangle _ y _ _ _ _ => y
  end.

(** Some annotation of the store carries the identifier [i]. *)
Definition present (i : string) (a : Annotation) : Prop :=
  (exists s, In s (signatures a) /\ SignatureData.id s = i)
  \/ (exists t, In t (texts a) /\ TextAnnotation.id t = i)
  \/ (exists h, In h (highlights a) /\ HighlightAnnotation.id h = i).

(** The annotations the bake-out does not skip in a document of [n] pages. *)
Definition kept (n : nat) (a : Annotation) : Annotation :=
  mkAnnotation
    (List.filter (fun s => hasPage n (SignatureData.page s)) (signatures a))
    (List.filter (fun t => inked t && hasPage n (TextAnnotation.page t))
       (texts a))
    (List.filter (fun h => hasPage n (HighlightAnnotation.page h))
       (highlights a)).

(** The image a signature decodes to, when its payload can be fetched and
    decoded. *)
Definition decodable (P : Platform) (s : SignatureData.t) : Prop :=
  exists bytes img,
    fetch_arrayBuffer P (SignatureData.dataUrl s) = Some bytes
    /\ decodePng P bytes = Some img.

(** Corners of a rectangle with a top-left origin, and the corner a handle
    leaves fixed. *)
Definition corner (h : ResizeHandle) (x y w ht : Q) : Point :=
  match h with
  | nw => mkPoint x y
  | ne => mkPoint (x + w) y
  | sw => mkPoint x (y + ht)
  | se => mkPoint (x + w) (y + ht)
  end.

Definition opposite (h : ResizeHandle) : ResizeHandle :=
  match h with
  | nw => se
  | ne => sw
  | sw => ne
  | se => nw
  end.

Definition samePoint (p q : Point) : Prop := px p == px q /\ py p == py q.

(** The width and height a handle asks for, before clamping. *)
Definition requestedWidth (h : ResizeHandle) (w deltaX : Q) : Q :=
  match h with
  | se | ne => (w + deltaX)%Q
  | sw | nw => (w - deltaX)%Q
  end.

Definition requestedHeight (h : ResizeHandle) (ht deltaY : Q) : Q :=
  match h with
  | se | sw => (ht + deltaY)%Q
  | ne | nw => (ht - deltaY)%Q
  end.


Definition moveAll (moves : list (option DOMRect.t * MouseEvent)) (a : App)
  : App :=
  fold_left (fun st m => handleMouseMove (fst m) (snd m) st) moves a.

(** Every press of the sequence arrives with no gesture active. *)
Fixpoint pressesReleased (evs : list Event) (a : App) : bool :=
  match evs with
  | [] => true
  | ev :: rest =>
      (if isPress ev then Nat.eqb (activeGestures a) 0 else true)
      && pressesReleased rest (dispatch ev a)
  end.

(** ** Sample values *)

Module Sample.

Definition editor0 : EditorState :=
  mkEditor 1 1 1 select false None false (mkAnnotation [] [] []).

Definition app0 : App := mkApp editor0 idleViewer.

Definition origin : option DOMRect.t := Some (DOMRect.mk 0 0).

Definition at_ (x y : Q) : MouseEvent := mkMouse x y.

Definition sigA : SignatureData.t :=
  SignatureData.mk "a1b2c3d" 100 100 150 60 "data:image/png;base64,AA" 1.

Definition sigB : SignatureData.t :=
  SignatureData.mk "e4f5g6h" 300 400 150 60 "data:image/png;base64,BB" 1.

Definition sigLost : SignatureData.t :=
  SignatureData.mk "lost000" 10 10 150 60 "not a data url" 7.

Definition textA : TextAnnotation.t :=
  TextAnnotation.mk "t000001" 40 50 "Approved" 16 "#1a1a2e" 1.

Definition textBlank : TextAnnotation.t :=
  TextAnnotation.mk "t000002" 40 90 "   " 16 "#1a1a2e" 1.

Definition hlA : HighlightAnnotation.t :=
  HighlightAnnotation.mk "h000001" 20 30 200 12 1.

Definition hlLost : HighlightAnnotation.t :=
  HighlightAnnotation.mk "h000002" 20 30 200 12 0.

Definition store : Annotation :=
  mkAnnotation [sigA; sigLost] [textA; textBlank] [hlA; hlLost].

Definition withStore (s : Annotation) (tool : Tool) (stamp : option string)
  : App :=
  mkApp (mkEditor 1 1 1 tool false stamp false s) idleViewer.

Definition file : File := mkFile "contract.pdf" [Byte.x25; Byte.x50].

(** A code unit that is no control character. *)
Definition printable (c : ascii) : bool := (32 <=? nat_of_ascii c)%nat.

Fixpoint allPrintable (s : string) : bool :=
  match s with
  | EmptyString => true
  | String c rest => printable c && allPrintable rest
  end.

(** A platform on which every call succeeds except the fetch of a
    payload that is not a data URL and the encoding of a text with a
    control character; the file has one A4 page. *)
Definition platform : Platform :=
  mkPlatform
    (fun f => Some (file_bytes f))
    (fun _ => Some (mkDoc [mkPage 595 842 []] []))
    (fun url => if String.prefix "data:" url then Some [Byte.x89] else None)
    (fun bytes => Some (PngImage bytes))
    allPrintable
    (fun d => Some [Byte.x25; Byte.x50; Byte.x44; Byte.x46]).

(** A platform on which the document cannot be parsed. *)
Definition brokenPlatform : Platform :=
  mkPlatform (fun f => Some (file_bytes f)) (fun _ => None)
    (fun _ => None) (fun _ => None) (fun _ => false) (fun _ => None).

Definition transparent : SignatureCanvas.RGBA := SignatureCanvas.mkRGBA 0 0 0 0.
Definition ink : SignatureCanvas.RGBA := SignatureCanvas.mkRGBA 26 26 46 255.

(** A 200 x 200 raster with ink at (10,10) and (90,40) only. *)
Definition typed : SignatureCanvas.ImageData :=
  SignatureCanvas.raster 200 200 (fun x y =>
    if ((x =? 10) && (y =? 10)) || ((x =? 90) && (y =? 40))
    then ink else transparent).

(** Two signatures on the page under the select tool, and a press on the
    first followed, with no release in between, by a press on a handle of
    the second (a second button, or a second pointer). *)
Definition signed : App :=
  withStore (mkAnnotation [sigA; sigB] [] []) select None.

Definition chord : list Event :=
  [ MouseDown (onSignature sigA) origin (at_ 120 110);
    MouseDown (onHandle sigB se) origin (at_ 450 460) ].

(** The sample store under the sign tool with a stamp waiting, under the
    select tool, and under the highlight tool. *)
Definition stamped : App :=
  withStore store sign (Some "data:image/png;base64,CC").

Definition selecting : App := withStore store select None.

Definition highlighting : App := withStore store highlight None.

(** A press on the south-east handle of the first signature. *)
Definition gripped : App :=
  startResize origin (at_ 250 160) (SignatureData.id sigA) se sigA signed.

(** Two moves of a rubber band anchored at (20, 30). *)
Definition sweep : list (option DOMRect.t * MouseEvent) :=
  [(origin, at_ 25 33); (origin, at_ 31 36)].

Definition swept : App :=
  moveAll sweep (handleMouseDown origin (at_ 20 30) highlighting).

(** A press on the first signature followed by one move. *)
Definition dragOnce : list Event :=
  [ MouseDown (onSignature sigA) origin (at_ 120 110);
    MouseMove origin (at_ 130 115) ].

End Sample.

(** * The rest of the components *)

(** ** Toolbar: page and zoom buttons

    A button whose [disabled] attribute holds does not fire. *)

Definition setCurrentPage (p : Z) (st : EditorState) : EditorState :=
  mkEditor (numPages st) p (scale st) (activeTool st)
    (showSignatureModal st) (signatureToPlace st) (isProcessing st)
    (annotations st).

Definition setScale (s : Q) (st : EditorState) : EditorState :=
  mkEditor (numPages st) (currentPage st) s (activeTool st)
    (showSignatureModal st) (signatureToPlace st) (isProcessing st)
    (annotations st).

Definition setNumPages (n : Z) (st : EditorState) : EditorState :=
  mkEditor n (currentPage st) (scale st) (activeTool st)
    (showSignatureModal st) (signatureToPlace st) (isProcessing st)
    (annotations st).

Module Toolbar.

(** [onClick={() => onPageChange(currentPage - 1)}],
    [disabled={currentPage <= 1}] *)
Definition previousPage (st : EditorState) : EditorState :=
  if currentPage st <=? 1 then st
  else setCurrentPage (currentPage st - 1) st.

(** [onClick={() => onPageChange(currentPage + 1)}],
    [disabled={currentPage >= numPages}] *)
Definition nextPage (st : EditorState) : EditorState :=
  if numPages st <=? currentPage st then st
  else setCurrentPage (currentPage st + 1) st.

(** [onClick={() => onScaleChange(scale - 0.25)}],
    [disabled={scale <= 0.5}] *)
Definition zoomOut (st : EditorState) : EditorState :=
  if Qle_bool (scale st) (1 # 2) then st
  else setScale (scale st - (1 # 4)) st.

(** [onClick={() => onScaleChange(scale + 0.25)}],
    [disabled={scale >= 3}] *)
Definition zoomIn (st : EditorState) : EditorState :=
  if Qle_bool 3 (scale st) then st
  else setScale (scale st + (1 # 4)) st.

(** [onClick={onDownload}], [disabled={isProcessing}]: the state once the
    export has settled. *)
Definition download (P : Platform) (file : File) (st : EditorState)
  : EditorState :=
  if isProcessing st then st else settled (handleDownload P file st).

End Toolbar.

(** The state [PDFEditor] starts in. *)
Definition initialEditor : EditorState :=
  mkEditor 0 1 1 select false None false (mkAnnotation [] [] []).

Definition initialApp : App := mkApp initialEditor idleViewer.

(** ** PDFViewer: what is rendered, text editing, deletion *)

Definition pageSignatures (a : App) : list SignatureData.t :=
  List.filter (fun s => SignatureData.page s =? currentPage (editor a))
    (signatures (annotations (editor a))).

Definition pageTexts (a : App) : list TextAnnotation.t :=
  List.filter (fun t => TextAnnotation.page t =? currentPage (editor a))
    (texts (annotations (editor a))).

Definition pageHighlights (a : App) : list HighlightAnnotation.t :=
  List.filter (fun h => HighlightAnnotation.page h =? currentPage (editor a))
    (highlights (annotations (editor a))).

Definition setEditingTextId (i : option string) (v : ViewerState)
  : ViewerState :=
  mkViewer i (highlightStart v) (tempHighlight v) (draggingId v)
    (dragOffset v) (resizing v).

(** [editingTextId === textAnnotation.id] *)
Definition isEditing (t : TextAnnotation.t) (a : App) : bool :=
  match editingTextId (viewer a) with
  | Some i => String.eqb i (TextAnnotation.id t)
  | None => false
  end.

(** [onClick] of a highlight. *)
Definition highlightOnClick (h : HighlightAnnotation.t) (a : App) : App :=
  if Tool_eqb (activeTool (editor a)) select
  then onDeleteHighlight (HighlightAnnotation.id h) a
  else a.

(** [onClick] of the delete button of a signature. *)
Definition signatureDeleteOnClick (s : SignatureData.t) (a : App) : App :=
  onDeleteSignature (SignatureData.id s) a.

(** [onClick] of the delete button of a text. *)
Definition textDeleteOnClick (t : TextAnnotation.t) (a : App) : App :=
  onDeleteText (TextAnnotation.id t) a.

(** [onClick] of the text shown when it is not being edited. *)
Definition textOnClick (t : TextAnnotation.t) (a : App) : App :=
  onViewer (setEditingTextId (Some (TextAnnotation.id t))) a.

(** [onChange] of the inline input; [value] is [e.target.value]. *)
Definition textOnChange (t : TextAnnotation.t) (value : string) (a : App)
  : App :=
  onUpdateText (TextAnnotation.id t)
    (TextAnnotation.mk_partial None None None (Some value) None None None) a.

(** [onBlur] of the inline input; [t] is the annotation as rendered. *)
Definition textOnBlur (t : TextAnnotation.t) (a : App) : App :=
  let a1 := onViewer (setEditingTextId None) a in
  if negb (JS.truthy_string (JS.trim (TextAnnotation.text t)))
  then onDeleteText (TextAnnotation.id t) a1
  else a1.

(** [onKeyDown] of the inline input; [key] is [e.key]. *)
Definition textOnKeyDown (t : TextAnnotation.t) (key : string) (a : App)
  : App :=
  if String.eqb key "Enter"
  then
    let a1 := onViewer (setEditingTextId None) a in
    if negb (JS.truthy_string (JS.trim (TextAnnotation.text t)))
    then onDeleteText (TextAnnotation.id t) a1
    else a1
  else a.

(** *** Every event of the editor screen

    An element receives an event only while the JSX renders it: the delete
    button of a signature under the select tool, that of a text under the
    select tool with no text being edited, the inline input for the text
    being edited, the static text otherwise, the signature modal while it
    is shown. *)

Inductive UiEvent : Type :=
| Pointer (ev : Event)
| PreviousPage
| NextPage
| ZoomOut
| ZoomIn
| DocumentLoad (n : Z)
| ResetAll
| Download (P : Platform) (file : File)
| SignatureSave (url : string)
| SignatureClose
| SignatureDelete (s : SignatureData.t)
| TextDelete (t : TextAnnotation.t)
| HighlightClick (h : HighlightAnnotation.t)
| TextClick (t : TextAnnotation.t)
| TextChange (t : TextAnnotation.t) (value : string)
| TextBlur (t : TextAnnotation.t)
| TextKeyDown (t : TextAnnotation.t) (key : string).

Definition uiStep (ev : UiEvent) (a : App) : App :=
  match ev with
  | Pointer e => dispatch e a
  | PreviousPage => onEditor Toolbar.previousPage a
  | NextPage => onEditor Toolbar.nextPage a
  | ZoomOut => onEditor Toolbar.zoomOut a
  | ZoomIn => onEditor Toolbar.zoomIn a
  | DocumentLoad n => onEditor (setNumPages n) a
  | ResetAll => onEditor handleReset a
  | Download P file => onEditor (Toolbar.download P file) a
  | SignatureSave url =>
      if showSignatureModal (editor a)
      then onEditor (handleSignatureSave url) a else a
  | SignatureClose =>
      if showSignatureModal (editor a)
      then onEditor (setShowSignatureModal false) a else a
  | SignatureDelete s =>
      if Tool_eqb (activeTool (editor a)) select
      then signatureDeleteOnClick s a else a
  | TextDelete t =>
      if Tool_eqb (activeTool (editor a)) select
         && negb (JS.truthy (editingTextId (viewer a)))
      then textDeleteOnClick t a else a
  | HighlightClick h => highlightOnClick h a
  | TextClick t => if isEditing t a then a else textOnClick t a
  | TextChange t value => if isEditing t a then textOnChange t value a else a
  | TextBlur t => if isEditing t a then textOnBlur t a else a
  | TextKeyDown t key => if isEditing t a then textOnKeyDown t key a else a
  end.

(** States reached from [a0] by events of the editor screen, the document
    reporting [N] pages whenever it loads. *)
Inductive uiReachable (N : Z) (a0 : App) : App -> Prop :=
| ui_start : uiReachable N a0 a0
| ui_step (a : App) (ev : UiEvent) :
    uiReachable N a0 a ->
    (forall n, ev = DocumentLoad n -> n = N) ->
    uiReachable N a0 (uiStep ev a).

Definition uiRun (evs : list UiEvent) (a : App) : App :=
  fold_left (fun st ev => uiStep ev st) evs a.

(** ** SignatureCanvas: strokes, typed signatures, clearing *)

Module ClientRect.
(** [getBoundingClientRect()] of the container of the canvas. *)
Record t : Type := mk { left : Q; top : Q; width : Q; height : Q }.
End ClientRect.

Module SignaturePad.

(** What the handlers paint on the canvas, in the order they paint it. *)
Inductive CanvasOp : Type :=
| lineTo (from to : Point)
| quadraticCurveTo (from control to : Point)
| handwritten (txt : string) (fontSize : Q) (color : string)
| clearRect (w h : Q).

(** The page around the component: [canvasRef.current], with whether its
    [getContext('2d')] answers; [containerRef.current], with its rectangle;
    [window.devicePixelRatio]. *)
Record Dom : Type := mkDom
  { canvas : option bool;
    container : option ClientRect.t;
    devicePixelRatio : Q }.

(** The state cells and refs of the component, the size of the canvas
    bitmap, and what was painted on it since it was last reset. *)
Record State : Type := mkState
  { isDrawing : bool;
    hasContent : bool;
    canvasReady : bool;
    selectedColor : string;
    signatureText : string;
    activeTab : string;
    lastPoint : option Point;
    points : list Point;
    bitmapWidth : Z;
    bitmapHeight : Z;
    painted : list CanvasOp }.

Definition initial : State :=
  mkState false false false "#1a1a2e" "" "draw" None [] 300 150 [].

(** [canvas?.getContext('2d')] is not null. *)
Definition context (dom : Dom) : bool :=
  match canvas dom with
  | Some c => c
  | None => false
  end.

(** The value an [unsigned long] attribute takes from a non-negative
    number below 2^31: its integer part. *)
Definition toLength (q : Q) : Z := Qnum q / Z.pos (Qden q).

Definition setupCanvas (dom : Dom) (st : State) : State :=
  match canvas dom, container dom with
  | Some true, Some rect =>
      let dpr := if Qeq_bool (devicePixelRatio dom) 0 then 1%Q
                 else devicePixelRatio dom in
      mkState (isDrawing st) (hasContent st) true (selectedColor st)
        (signatureText st) (activeTab st) (lastPoint st) (points st)
        (toLength (ClientRect.width rect * dpr))
        (toLength (ClientRect.height rect * dpr)) []
  | _, _ => st
  end.

(** [e] carries [clientX] and [clientY] of the mouse event, or of the first
    touch of a touch event. *)
Definition getCoordinates (dom : Dom) (e : MouseEvent) : Point :=
  match canvas dom, container dom with
  | Some _, Some rect =>
      mkPoint (clientX e - ClientRect.left rect) (clientY e - ClientRect.top rect)
  | _, _ => mkPoint 0 0
  end.

Definition startDrawing (dom : Dom) (e : MouseEvent) (st : State) : State :=
  if negb (canvasReady st) then st
  else
    let p := getCoordinates dom e in
    mkState true (hasContent st) (canvasReady st) (selectedColor st)
      (signatureText st) (activeTab st) (Some p) [p]
      (bitmapWidth st) (bitmapHeight st) (painted st).

Definition midpoint (p q : Point) : Point :=
  mkPoint ((px p + px q) / 2) ((py p + py q) / 2).

(** The segment [draw] paints once [p] has been pushed on [pts]. *)
Definition segment (last : Point) (pts : list Point) (p : Point)
  : option CanvasOp :=
  let len := List.length pts in
  if (3 <=? len)%nat then
    match pts !! (len - 3)%nat, pts !! (len - 2)%nat, pts !! (len - 1)%nat with
    | Some p0, Some p1, Some p2 =>
        Some (quadraticCurveTo p0 p1 (midpoint p1 p2))
    | _, _, _ => None
    end
  else Some (lineTo last p).

Definition draw (dom : Dom) (e : MouseEvent) (st : State) : State :=
  if negb (isDrawing st) || negb (canvasReady st) then st
  else if negb (context dom) then st
  else
    match lastPoint st with
    | None => st
    | Some last =>
        let p := getCoordinates dom e in
        let pts := (points st ++ [p])%list in
        mkState (isDrawing st) true (canvasReady st) (selectedColor st)
          (signatureText st) (activeTab st) (Some p) pts
          (bitmapWidth st) (bitmapHeight st)
          (painted st ++ match segment last pts p with
                         | Some op => [op]
                         | None => []
                         end)%list
    end.

Definition stopDrawing (dom : Dom) (st : State) : State :=
  let len := List.length (points st) in
  let final :=
    if isDrawing st && (0 <? len)%nat && context dom && (2 <=? len)%nat then
      match points st !! (len - 2)%nat, points st !! (len - 1)%nat with
      | Some p1, Some p2 => [lineTo p1 p2]
      | _, _ => []
      end
    else [] in
  mkState false (hasContent st) (canvasReady st) (selectedColor st)
    (signatureText st) (activeTab st) None []
    (bitmapWidth st) (bitmapHeight st) (painted st ++ final)%list.

Definition clearCanvas (dom : Dom) (st : State) : State :=
  match canvas dom, container dom with
  | Some true, Some rect =>
      mkState (isDrawing st) false (canvasReady st) (selectedColor st)
        (signatureText st) (activeTab st) (lastPoint st) (points st)
        (bitmapWidth st) (bitmapHeight st)
        (painted st
         ++ [clearRect (ClientRect.width rect) (ClientRect.height rect)])%list
  | _, _ => st
  end.

(** [signatureText.length] *)
Definition textLength (s : string) : Q := inject_Z (Z.of_nat (String.length s)).

(** [Math.min(rect.width / (signatureText.length * 0.5), 56)] *)
Definition fontSize (rectWidth : Q) (txt : string) : Q :=
  JS.Math_min (rectWidth / (textLength txt * (1 # 2))) 56.

Definition generateCursiveSignature (dom : Dom) (st : State) : State :=
  if negb (JS.truthy_string (JS.trim (signatureText st))) then st
  else
    match canvas dom, container dom with
    | Some true, Some rect =>
        mkState (isDrawing st) true (canvasReady st) (selectedColor st)
          (signatureText st) (activeTab st) (lastPoint st) (points st)
          (bitmapWidth st) (bitmapHeight st)
          (painted st
           ++ [ clearRect (ClientRect.width rect) (ClientRect.height rect);
                handwritten (signatureText st)
                  (fontSize (ClientRect.width rect) (signatureText st))
                  (selectedColor st) ])%list
    | _, _ => st
    end.

Definition setHasContent (v : bool) (st : State) : State :=
  mkState (isDrawing st) v (canvasReady st) (selectedColor st)
    (signatureText st) (activeTab st) (lastPoint st) (points st)
    (bitmapWidth st) (bitmapHeight st) (painted st).

Definition setActiveTab (v : string) (st : State) : State :=
  mkState (isDrawing st) (hasContent st) (canvasReady st) (selectedColor st)
    (signatureText st) v (lastPoint st) (points st)
    (bitmapWidth st) (bitmapHeight st) (painted st).

Definition setSignatureText (v : string) (st : State) : State :=
  mkState (isDrawing st) (hasContent st) (canvasReady st) (selectedColor st)
    v (activeTab st) (lastPoint st) (points st)
    (bitmapWidth st) (bitmapHeight st) (painted st).

Definition setSelectedColor (v : string) (st : State) : State :=
  mkState (isDrawing st) (hasContent st) (canvasReady st) v
    (signatureText st) (activeTab st) (lastPoint st) (points st)
    (bitmapWidth st) (bitmapHeight st) (painted st).

Definition handleTabChange (dom : Dom) (value : string) (st : State) : State :=
  setHasContent false (clearCanvas dom (setActiveTab value st)).

(** The bitmap of the canvas: a transparent surface of its size, with what
    was painted since the last reset; [rasterise] is the browser's
    rendering of one operation. *)
Definition bitmap
    (rasterise : CanvasOp -> SignatureCanvas.ImageData -> SignatureCanvas.ImageData)
    (st : State) : SignatureCanvas.ImageData :=
  fold_left (fun img op => rasterise op img) (painted st)
    (SignatureCanvas.raster (bitmapWidth st) (bitmapHeight st)
       (fun _ _ => SignatureCanvas.mkRGBA 0 0 0 0)).

(** [handleSave] of the component, on its own canvas and flag. *)
Definition handleSave
    (rasterise : CanvasOp -> SignatureCanvas.ImageData -> SignatureCanvas.ImageData)
    (dom : Dom) (croppedCtx : bool) (st : State)
  : option SignatureCanvas.Cropped :=
  SignatureCanvas.handleSave
    (match canvas dom with
     | Some c => Some (SignatureCanvas.mkCanvas c (bitmap rasterise st))
     | None => None
     end)
    (hasContent st) croppedCtx.

(** One stroke: a press, the moves, the release. *)
Definition stroke (dom : Dom) (press : MouseEvent) (moves : list MouseEvent)
    (st : State) : State :=
  stopDrawing dom
    (fold_left (fun s e => draw dom e s) moves (startDrawing dom press st)).

(** The segments of a stroke through the points [pts]: a line to the second
    point, a curve for every three consecutive points, from the first
    through the second to the midpoint of the second and third, and a line
    between the last two points. *)
Fixpoint curves (pts : list Point) : list CanvasOp :=
  match pts with
  | p0 :: ((p1 :: p2 :: _) as rest) =>
      quadraticCurveTo p0 p1 (midpoint p1 p2) :: curves rest
  | _ => []
  end.

(** What the moves of a stroke paint before the release. *)
Definition outline (pts : list Point) : list CanvasOp :=
  match pts with
  | p0 :: p1 :: _ => lineTo p0 p1 :: curves pts
  | _ => []
  end.

Definition lastTwo (pts : list Point) : list CanvasOp :=
  match List.rev pts with
  | p2 :: p1 :: _ => [lineTo p1 p2]
  | _ => []
  end.

Definition segments (pts : list Point) : list CanvasOp :=
  match pts with
  | p0 :: p1 :: _ => (lineTo p0 p1 :: curves pts ++ lastTwo pts)%list
  | _ => []
  end.

End SignaturePad.

(** ** UploadZone and Index *)

Module UploadZone.

(** A file as the browser hands it over: its declared media type and the
    file itself. *)
Record Upload : Type := mkUpload { mediaType : string; upload : File }.

(** [Index]: the selected file; [UploadZone]: the drag flag. *)
Record State : Type := mkState
  { selectedFile : option Upload; isDragging : bool }.

Definition initial : State := mkState None false.

(** [e.dataTransfer.files] or [e.target.files]: the first file, when it is
    a PDF by its declared type. *)
Definition accepted (files : list Upload) : option Upload :=
  match files with
  | f :: _ => if String.eqb (mediaType f) "application/pdf" then Some f else None
  | [] => None
  end.

Definition handleDragIn (items : nat) (st : State) : State :=
  if (0 <? items)%nat then mkState (selectedFile st) true else st.

Definition handleDragOut (st : State) : State :=
  mkState (selectedFile st) false.

Definition handleDrop (files : list Upload) (st : State) : State :=
  match accepted files with
  | Some f => mkState (Some f) false
  | None => mkState (selectedFile st) false
  end.

Definition handleFileInput (files : list Upload) (st : State) : State :=
  match accepted files with
  | Some f => mkState (Some f) (isDragging st)
  | None => st
  end.

(** [onClose] of the editor; the upload zone then mounts anew. *)
Definition onClose (st : State) : State := mkState None false.

(** The upload zone is rendered while no file is selected, the editor
    while one is. *)
Inductive Event : Type :=
| DragIn (items : nat)
| DragOut
| Drop (files : list Upload)
| FileInput (files : list Upload)
| Close.

Definition step (ev : Event) (st : State) : State :=
  match selectedFile st, ev with
  | None, DragIn n => handleDragIn n st
  | None, DragOut => handleDragOut st
  | None, Drop files => handleDrop files st
  | None, FileInput files => handleFileInput files st
  | Some _, Close => onClose st
  | _, _ => st
  end.

Definition run (evs : list Event) (st : State) : State :=
  fold_left (fun s ev => step ev s) evs st.

End UploadZone.

(** ** The theme: Index on load, the toolbar's toggle *)

Module Theme.

(** What the theme code reads and writes: whether the document element has
    the class [dark], [localStorage.getItem('theme')], and whether
    [(prefers-color-scheme: dark)] matches. *)
Record Page : Type := mkPage
  { darkClass : bool; stored : option string; prefersDark : bool }.

Definition classList_add (p : Page) : Page :=
  mkPage true (stored p) (prefersDark p).

Definition classList_remove (p : Page) : Page :=
  mkPage false (stored p) (prefersDark p).

Definition setItem (v : string) (p : Page) : Page :=
  mkPage (darkClass p) (Some v) (prefersDark p).

(** The effect [Index] runs when it mounts. *)
Definition initialize (p : Page) : Page :=
  let other := if prefersDark p then classList_add p else p in
  match stored p with
  | Some savedTheme =>
      if String.eqb savedTheme "dark" then classList_add p
      else if String.eqb savedTheme "light" then classList_remove p
      else other
  | None => other
  end.

(** The effect the toolbar runs when it mounts: the value of [isDark]. *)
Definition mount (p : Page) : bool := darkClass p.

(** [toggleTheme]: the new [isDark] and the page. *)
Definition toggleTheme (isDark : bool) (p : Page) : bool * Page :=
  let newIsDark := negb isDark in
  (newIsDark,
   if newIsDark then setItem "dark" (classList_add p)
   else setItem "light" (classList_remove p)).

(** [n] clicks on the toggle. *)
Fixpoint toggles (n : nat) (isDark : bool) (p : Page) : bool * Page :=
  match n with
  | O => (isDark, p)
  | S k => let (b, q) := toggleTheme isDark p in toggles k b q
  end.

End Theme.

(** ** Vocabulary of the further properties *)

(** The fields of [u2] over those of [u1]. *)
Definition mergeSignatureUpdates (u1 u2 : SignatureData.partial)
  : SignatureData.partial :=
  let pick {A : Type} (a b : option A) :=
    match b with Some _ => b | None => a end in
  SignatureData.mk_partial
    (pick (SignatureData.id' u1) (SignatureData.id' u2))
    (pick (SignatureData.x' u1) (SignatureData.x' u2))
    (pick (SignatureData.y' u1) (SignatureData.y' u2))
    (pick (SignatureData.width' u1) (SignatureData.width' u2))
    (pick (SignatureData.height' u1) (SignatureData.height' u2))
    (pick (SignatureData.dataUrl' u1) (SignatureData.dataUrl' u2))
    (pick (SignatureData.page' u1) (SignatureData.page' u2)).

(** A signature, or a text, moved to the position [p]. *)
Definition signatureAt (p : Point) (s : SignatureData.t) : SignatureData.t :=
  SignatureData.mk (SignatureData.id s) (px p) (py p)
    (SignatureData.width s) (SignatureData.height s)
    (SignatureData.dataUrl s) (SignatureData.page s).

Definition textAt (p : Point) (t : TextAnnotation.t) : TextAnnotation.t :=
  TextAnnotation.mk (TextAnnotation.id t) (px p) (py p)
    (TextAnnotation.text t) (TextAnnotation.fontSize t)
    (TextAnnotation.color t) (TextAnnotation.page t).

(** Where a drag that started with the pointer at [p0] on an item at
    [(itemX, itemY)] puts the item when the pointer is at [p]. *)
Definition dragged (p0 : Point) (itemX itemY : Q) (p : Point) : Point :=
  mkPoint (px p - (px p0 - itemX)) (py p - (py p0 - itemY)).

(** The sizes the handlers give: signatures at least 50 by 30, highlights
    more than 10 by 5. *)
Definition sizesKept (a : Annotation) : Prop :=
  Forall (fun s => (50 <= SignatureData.width s)%Q
                   /\ (30 <= SignatureData.height s)%Q) (signatures a)
  /\ Forall (fun h => (10 < HighlightAnnotation.width h)%Q
                      /\ (5 < HighlightAnnotation.height h)%Q) (highlights a).

(** Every annotation lies on a page between [lo] and [hi]. *)
Definition pagesWithin (lo hi : Z) (a : Annotation) : Prop :=
  Forall (fun s => lo <= SignatureData.page s <= hi) (signatures a)
  /\ Forall (fun t => lo <= TextAnnotation.page t <= hi) (texts a)
  /\ Forall (fun h => lo <= HighlightAnnotation.page h <= hi) (highlights a).

(** Every signature, text and highlight of the store satisfies its
    property. *)
Definition eachAnnotation (Qs : SignatureData.t -> Prop)
    (Qt : TextAnnotation.t -> Prop) (Qh : HighlightAnnotation.t -> Prop)
    (b : App) : Prop :=
  Forall Qs (signatures (annotations (editor b)))
  /\ Forall Qt (texts (annotations (editor b)))
  /\ Forall Qh (highlights (annotations (editor b))).

(** The scale is a number of quarters between 0.5 and 3. *)
Definition zoomStep (s : Q) : Prop :=
  exists k : Z, 2 <= k <= 12 /\ (s == k # 4)%Q.

(** The identifiers of the store: those of the signatures, of the texts,
    of the highlights. *)
Definition identifiers (a : Annotation) : list string :=
  (List.map SignatureData.id (signatures a)
   ++ List.map TextAnnotation.id (texts a)
   ++ List.map HighlightAnnotation.id (highlights a))%list.

(** The identifier [generateId()] holds ready for the handler of the
    event. *)
Definition generated (ev : UiEvent) : option string :=
  match ev with
  | Pointer (Click _ g _) | Pointer (MouseUp g) | Pointer (MouseLeave g) =>
      Some g
  | _ => None
  end.

(** Along the events, [generateId()] never returns an identifier that is
    in the store. *)
Fixpoint freshIds (evs : list UiEvent) (a : App) : Prop :=
  match evs with
  | [] => True
  | ev :: rest =>
      (forall g, generated ev = Some g ->
                 ~ In g (identifiers (annotations (editor a))))
      /\ freshIds rest (uiStep ev a)
  end.

(** The identifiers after an event: some of those before, in their order,
    or those before and the generated one. *)
Definition idsFollow (g : option string) (old new : list string) : Prop :=
  sublist new old \/ exists i, g = Some i /\ Permutation new (i :: old).

(** ** Further sample values *)

Module Demo.

Definition dom : SignaturePad.Dom :=
  SignaturePad.mkDom (Some true) (Some (ClientRect.mk 10 20 448 192)) 2.

Definition ready : SignaturePad.State :=
  SignaturePad.setupCanvas dom SignaturePad.initial.

Definition pen (x y : Q) : MouseEvent := mkMouse x y.

(** The moves of a stroke that starts at (40, 60). *)
Definition strokeMoves : list MouseEvent :=
  [pen 50 70; pen 70 70; pen 90 65].

(** The pad after that stroke, and with a name typed in the field. *)
Definition drawn : SignaturePad.State :=
  SignaturePad.stroke dom (pen 40 60) strokeMoves ready.

Definition named : SignaturePad.State :=
  SignaturePad.setSignatureText "Ada Lovelace" ready.

(** A drop of an image followed by a PDF, then a PDF picked in the file
    dialog. *)
Definition uploads : list UploadZone.Event :=
  [ UploadZone.DragIn 2;
    UploadZone.Drop
      [ UploadZone.mkUpload "image/png" (mkFile "scan.png" [Byte.x89]);
        UploadZone.mkUpload "application/pdf" Sample.file ];
    UploadZone.FileInput [UploadZone.mkUpload "application/pdf" Sample.file];
    UploadZone.DragIn 1 ].

(** The rasteriser that paints nothing. *)
Definition noInk (_ : SignaturePad.CanvasOp) (img : SignatureCanvas.ImageData)
  : SignatureCanvas.ImageData := img.

Definition pdf : UploadZone.Upload :=
  UploadZone.mkUpload "application/pdf" Sample.file.

Definition png : UploadZone.Upload :=
  UploadZone.mkUpload "image/png" (mkFile "scan.png" [Byte.x89]).

(** The sample store with the first signature dragged from a press at
    (120, 110). *)
Definition grabbed : App :=
  startDrag Sample.origin (Sample.at_ 120 110) (SignatureData.id Sample.sigA)
    100 100 Sample.selecting.

(** A text placed by a click under the text tool. *)
Definition typing : App := Sample.withStore Sample.store text None.

(** A session: the sign tool, a saved signature, its placement, a resize
    far below the minimum, a rubber band, two zooms, a page change. *)
Definition stampUrl : string := "data:image/png;base64,EE".

Definition placedSignature : SignatureData.t :=
  SignatureData.mk "n3wid00" (220 / 1) (330 / 1) 150 60 stampUrl 1.

Definition session : list UiEvent :=
  [ DocumentLoad 3;
    Pointer (ToolChange sign);
    SignatureSave stampUrl;
    Pointer (Click Sample.origin "n3wid00" (Sample.at_ 220 330));
    Pointer (ToolChange select);
    Pointer (MouseDown (onHandle placedSignature se) Sample.origin
               (Sample.at_ 370 390));
    Pointer (MouseMove Sample.origin (Sample.at_ 10 10));
    Pointer (MouseUp "h0000x1");
    ZoomIn; ZoomIn;
    NextPage;
    Pointer (ToolChange highlight);
    Pointer (MouseDown onContainer Sample.origin (Sample.at_ 30 30));
    Pointer (MouseMove Sample.origin (Sample.at_ 90 60));
    Pointer (MouseUp "h0000x2") ].

(** A store with nothing to draw on a document of one page: a signature on
    page 7, a blank text, a highlight on page 0. *)
Definition unplaced : App :=
  Sample.withStore
    (mkAnnotation [Sample.sigLost] [Sample.textBlank] [Sample.hlLost])
    select None.



(** The first signature of the sample store placed twice. *)
Definition twice : Annotation :=
  mkAnnotation [Sample.sigA; Sample.sigLost; Sample.sigA] [Sample.textA] [].

Definition lostPlatform : Platform :=
  mkPlatform
    (fun f => Some (file_bytes f))
    (fun _ => Some (mkDoc [mkPage 595 842 []; mkPage 595 842 []] []))
    (fun _ => None)
    (fun bytes => Some (PngImage bytes))
    (fun _ => true)
    (fun d => Some [Byte.x25]).

End Demo.

(** * Properties *)

(** ** The annotation store *)

Section StoreLemmas.

Context {A : Type} (key : A -> string).

Lemma map_absent (i : string) (f : A -> A) (l : list A) :
  (forall a, In a l -> key a <> i) ->
  List.map (fun a => if String.eqb (key a) i then f a else a) l = l.
Proof.
  induction l as [|a l IH]; intros Hl; simpl; [reflexivity|].
  destruct (String.eqb_spec (key a) i) as [E|_].
  - exfalso. apply (Hl a); [now left | exact E].
  - f_equal. apply IH. intros b Hb. apply Hl. now right.
Qed.

Lemma filter_absent (i : string) (l : list A) :
  (forall a, In a l -> key a <> i) ->
  List.filter (fun a => negb (String.eqb (key a) i)) l = l.
Proof.
  induction l as [|a l IH]; intros Hl; simpl; [reflexivity|].
  destruct (String.eqb_spec (key a) i) as [E|_]; simpl.
  - exfalso. apply (Hl a); [now left | exact E].
  - f_equal. apply IH. intros b Hb. apply Hl. now right.
Qed.

End StoreLemmas.

Lemma setAnnotations_same (f : Annotation -> Annotation) (st : EditorState) :
  f (annotations st) = annotations st -> setAnnotations f st = st.
Proof.
  intros E. destruct st; unfold setAnnotations; simpl in *. now rewrite E.
Qed.

(** C9. Updating or deleting with an identifier that no annotation of the
    store carries returns the store, and the whole editor state, unchanged;
    the five operations are total functions, so nothing is thrown. *)
Theorem C9_absent_id_is_noop (st : EditorState) (i : string)
    (us : SignatureData.partial) (ut : TextAnnotation.partial) :
  ~ present i (annotations st) ->
  handleUpdateSignature i us st = st
  /\ handleUpdateText i ut st = st
  /\ handleDeleteSignature i st = st
  /\ handleDeleteText i st = st
  /\ handleDeleteHighlight i st = st.
Proof.
  intros Habs.
  assert (Hs : forall s, In s (signatures (annotations st)) ->
                         SignatureData.id s <> i).
  { intros s Hin E. apply Habs. left. now exists s. }
  assert (Ht : forall t, In t (texts (annotations st)) ->
                         TextAnnotation.id t <> i).
  { intros t Hin E. apply Habs. right. left. now exists t. }
  assert (Hh : forall h, In h (highlights (annotations st)) ->
                         HighlightAnnotation.id h <> i).
  { intros h Hin E. apply Habs. right. right. now exists h. }
  unfold handleUpdateSignature, handleUpdateText, handleDeleteSignature,
    handleDeleteText, handleDeleteHighlight.
  repeat split; apply setAnnotations_same;
    destruct (annotations st) as [ss ts hs]; simpl in *; f_equal;
    first [ now apply (map_absent SignatureData.id)
          | now apply (map_absent TextAnnotation.id)
          | now apply (filter_absent SignatureData.id)
          | now apply (filter_absent TextAnnotation.id)
          | now apply (filter_absent HighlightAnnotation.id) ].
Qed.

Lemma C9_absent_id_is_noop_witness :
  handleUpdateSignature "zzzzzzz"
    (SignatureData.mk_partial None (Some 1%Q) (Some 2%Q) None None None None)
    (editor Sample.selecting) = editor Sample.selecting
  /\ handleUpdateText "zzzzzzz"
       (TextAnnotation.mk_partial None None None (Some "x") None None None)
       (editor Sample.selecting) = editor Sample.selecting
  /\ handleDeleteSignature "zzzzzzz" (editor Sample.selecting)
     = editor Sample.selecting
  /\ handleDeleteText "zzzzzzz" (editor Sample.selecting)
     = editor Sample.selecting
  /\ handleDeleteHighlight "zzzzzzz" (editor Sample.selecting)
     = editor Sample.selecting.
Proof.
  apply (C9_absent_id_is_noop (editor Sample.selecting) "zzzzzzz").
  intros [[s [Hin E]] | [[t [Hin E]] | [h [Hin E]]]];
    simpl in Hin; intuition (subst; discriminate E).
Defined.

(** ** Coordinate space *)

(** C2. With the container available, the pointer position is mapped to
    [((clientX - left) / scale, (clientY - top) / scale)]; without it, to
    [(0, 0)].  The conversion is a function of the pointer position, the
    container origin and the scale alone, and for a non-zero scale it
    inverts the scaling of the view. *)
Theorem C2_pointer_to_document_space (e : MouseEvent) (rect : DOMRect.t)
    (scale : Q) :
  getRelativePosition (Some rect) scale e
    = mkPoint ((clientX e - DOMRect.left rect) / scale)
              ((clientY e - DOMRect.top rect) / scale)
  /\ getRelativePosition None scale e = mkPoint 0 0
  /\ (~ scale == 0 ->
      px (getRelativePosition (Some rect) scale e) * scale
        == clientX e - DOMRect.left rect
      /\ py (getRelativePosition (Some rect) scale e) * scale
        == clientY e - DOMRect.top rect)%Q.
Proof.
  repeat split; simpl; field; assumption.
Qed.

Lemma C2_pointer_to_document_space_witness :
  getRelativePosition (Some (DOMRect.mk 40 20)) (3 # 2) (mkMouse 340 170)
    = mkPoint ((340 - 40) / (3 # 2)) ((170 - 20) / (3 # 2))
  /\ getRelativePosition None (3 # 2) (mkMouse 340 170) = mkPoint 0 0
  /\ (px (getRelativePosition (Some (DOMRect.mk 40 20)) (3 # 2)
            (mkMouse 340 170)) * (3 # 2) == 340 - 40
      /\ py (getRelativePosition (Some (DOMRect.mk 40 20)) (3 # 2)
               (mkMouse 340 170)) * (3 # 2) == 170 - 20)%Q.
Proof.
  destruct (C2_pointer_to_document_space (mkMouse 340 170)
              (DOMRect.mk 40 20) (3 # 2)) as [H1 [H2 H3]].
  split; [exact H1 | split; [exact H2 | apply H3; discriminate]].
Defined.

(** ** Placement click *)

(** C3. Under the sign tool, a click with a pending stamp and neither a drag
    nor a resize active appends exactly one signature to the store: at the
    document-space position of the click, 150 wide and 60 high, on the
    current page, carrying the stamp; the other collections are untouched
    and the pending stamp is cleared.  With a drag or a resize active, or
    without a pending stamp, the click changes nothing. *)
Theorem C3_placement_click (c : option DOMRect.t) (g : string)
    (e : MouseEvent) (a : App) (url : string) :
  activeTool (editor a) = sign ->
  let p := getRelativePosition c (scale (editor a)) e in
  let a' := handleClick c g e a in
  (dragActive a = false -> resizeActive a = false ->
   signatureToPlace (editor a) = Some url -> url <> "" ->
   signatures (annotations (editor a'))
     = (signatures (annotations (editor a))
        ++ [SignatureData.mk g (px p) (py p) 150 60 url
              (currentPage (editor a))])%list
   /\ texts (annotations (editor a')) = texts (annotations (editor a))
   /\ highlights (annotations (editor a')) = highlights (annotations (editor a))
   /\ signatureToPlace (editor a') = None)
  /\ (dragActive a = true \/ resizeActive a = true
      \/ JS.truthy (signatureToPlace (editor a)) = false ->
      a' = a).
Proof.
  intros Htool p a'. subst a'. unfold handleClick, dragActive, resizeActive.
  split.
  - intros Hd Hr Hs Hu. rewrite Hd, Hr, Htool, Hs. simpl.
    assert (Ht : JS.truthy_string url = true).
    { unfold JS.truthy_string.
      now destruct (String.eqb_spec url "") as [E|_]; [contradiction|]. }
    rewrite Ht. simpl. repeat split.
  - intros [H | [H | H]].
    + now rewrite H.
    + rewrite H. now rewrite orb_true_r.
    + rewrite Htool, H. simpl.
      now destruct (JS.truthy (draggingId (viewer a))
                    || JS.truthy_obj (resizing (viewer a))).
Qed.

Lemma C3_placement_click_witness :
  signatures (annotations (editor
    (handleClick Sample.origin "n3wid00" (Sample.at_ 220 330) Sample.stamped)))
  = [Sample.sigA; Sample.sigLost;
     SignatureData.mk "n3wid00" (220 / 1) (330 / 1) 150 60
       "data:image/png;base64,CC" 1]
  /\ signatureToPlace (editor
       (handleClick Sample.origin "n3wid00" (Sample.at_ 220 330)
          Sample.stamped)) = None.
Proof.
  destruct (C3_placement_click Sample.origin "n3wid00" (Sample.at_ 220 330)
              Sample.stamped "data:image/png;base64,CC" eq_refl) as [H _].
  destruct H as [H1 [_ [_ H4]]];
    [reflexivity | reflexivity | reflexivity | discriminate |].
  split; [exact H1 | exact H4].
Defined.

(** ** Export: frame *)

(** C10. A run of the export leaves the annotation store, the current page,
    the zoom scale, the active tool and the pending stamp as they were, both
    while it is in flight and once it has settled, whether it succeeds or
    fails; it sets the processing flag for its duration and clears it at
    the end.  The file is only read: what is downloaded is the serialisation
    of a freshly loaded document, under the name prefixed with [edited_]. *)
Theorem C10_export_frame (P : Platform) (file : File) (st : EditorState) :
  let r := handleDownload P file st in
  (annotations (pending r) = annotations st
   /\ currentPage (pending r) = currentPage st
   /\ scale (pending r) = scale st
   /\ activeTool (pending r) = activeTool st
   /\ signatureToPlace (pending r) = signatureToPlace st
   /\ isProcessing (pending r) = true)
  /\ (annotations (settled r) = annotations st
      /\ currentPage (settled r) = currentPage st
      /\ scale (settled r) = scale st
      /\ activeTool (settled r) = activeTool st
      /\ signatureToPlace (settled r) = signatureToPlace st
      /\ isProcessing (settled r) = false)
  /\ effects r
     = match tryBake P file (annotations st) with
       | Some (_, pdfBytes) =>
           [ download ("edited_" ++ file_name file) pdfBytes;
             toast "PDF downloaded" "Your edited PDF has been saved" false ]
       | None =>
           [ console_error;
             toast "Error" "Failed to process the PDF. Please try again." true ]
       end.
Proof.
  simpl. repeat split.
Qed.

(** ** Interaction state machine *)

Create HintDb setters.

#[local] Hint Unfold onViewer onEditor onAddSignature onAddText onAddHighlight
  onUpdateSignature onUpdateText onSignaturePlaced
  setHighlightStart setTempHighlight setDraggingId setDragOffset setResizing
  setAnnotations setSignatureToPlace setActiveTool setShowSignatureModal
  handleAddSignature handleAddText handleAddHighlight
  handleUpdateSignature handleUpdateText handleToolChange : setters.

Ltac crush_step :=
  autounfold with setters in *; simpl in *;
  match goal with
  | H : ?x = _ |- context [?x] => rewrite H
  | |- context [match ?x with _ => _ end] => destruct x eqn:?
  end.

Ltac crush_handler :=
  repeat crush_step;
  autounfold with setters in *; simpl in *;
  try reflexivity; try lia; try discriminate.

Lemma release_resets (g : string) (a : App) :
  draggingId (viewer (handleMouseUp g a)) = None
  /\ resizing (viewer (handleMouseUp g a)) = None
  /\ highlightStart (viewer (handleMouseUp g a)) = None
  /\ tempHighlight (viewer (handleMouseUp g a)) = None.
Proof. unfold handleMouseUp. repeat split. Qed.

Lemma release_idle (g : string) (a : App) :
  activeGestures (handleMouseUp g a) = 0%nat.
Proof.
  unfold activeGestures, dragActive, resizeActive, rubberBandActive.
  destruct (release_resets g a) as [-> [-> [-> ->]]]. reflexivity.
Qed.

Lemma move_keeps_gestures (c : option DOMRect.t) (e : MouseEvent) (a : App) :
  activeGestures (handleMouseMove c e a) = activeGestures a.
Proof.
  unfold activeGestures, dragActive, resizeActive, rubberBandActive,
    handleMouseMove.
  destruct a as [ed [et hs th d off r]]; simpl.
  destruct hs as [p0|]; destruct r as [r|]; destruct d as [i|];
    crush_handler.
Qed.

Lemma press_from_idle (t : Target) (c : option DOMRect.t) (e : MouseEvent)
    (a : App) :
  activeGestures a = 0%nat ->
  (activeGestures (dispatch (MouseDown t c e) a) <= 1)%nat.
Proof.
  unfold activeGestures, dragActive, resizeActive, rubberBandActive.
  destruct a as [ed [et hs th d off r]]; simpl.
  unfold handleMouseDown, startDrag, startResize; simpl.
  destruct t; intros H; crush_handler;
    destruct (JS.truthy_string _); destruct (JS.truthy_obj r);
    destruct (JS.truthy_obj hs || JS.truthy_obj th)%bool; simpl in *; lia.
Qed.

Lemma other_events_keep_viewer (ev : Event) (a : App) :
  isPress ev = false -> isRelease ev = false ->
  activeGestures (dispatch ev a) = activeGestures a.
Proof.
  destruct ev; simpl; try discriminate; intros _ _.
  - apply move_keeps_gestures.
  - unfold handleClick, activeGestures, dragActive, resizeActive,
      rubberBandActive. crush_handler.
  - reflexivity.
Qed.

Lemma reachable_run (evs : list Event) (a0 a : App) :
  reachable a0 a -> reachable a0 (run evs a).
Proof.
  revert a. induction evs as [|ev evs IH]; intros a Ha; [exact Ha|].
  apply (IH (dispatch ev a)). now apply reachable_step.
Qed.

Lemma released_run (evs : list Event) (a0 a : App) :
  pressesReleased evs a = true ->
  reachableReleased a0 a -> reachableReleased a0 (run evs a).
Proof.
  revert a. induction evs as [|ev evs IH]; intros a Hp Ha; [exact Ha|].
  simpl in Hp. apply andb_prop in Hp as [Hev Hrest].
  apply (IH (dispatch ev a) Hrest). apply released_step; [exact Ha|].
  intros E. rewrite E in Hev. now apply Nat.eqb_eq.
Qed.

(** C7 (as amended). From an idle viewer, as long as every press arrives
    with no gesture active, at most one of the drag, the resize and the
    rubber band is active in every state reached, under any tool and across
    tool changes; and in any state a release or a leave deactivates all
    three. *)
Theorem C7_one_gesture_between_releases (a0 a : App) :
  viewer a0 = idleViewer ->
  reachableReleased a0 a ->
  (activeGestures a <= 1)%nat
  /\ (forall g, activeGestures (dispatch (MouseUp g) a) = 0%nat
                /\ draggingId (viewer (dispatch (MouseUp g) a)) = None
                /\ resizing (viewer (dispatch (MouseUp g) a)) = None
                /\ highlightStart (viewer (dispatch (MouseUp g) a)) = None
                /\ tempHighlight (viewer (dispatch (MouseUp g) a)) = None)
  /\ (forall g, activeGestures (dispatch (MouseLeave g) a) = 0%nat
                /\ draggingId (viewer (dispatch (MouseLeave g) a)) = None
                /\ resizing (viewer (dispatch (MouseLeave g) a)) = None
                /\ highlightStart (viewer (dispatch (MouseLeave g) a)) = None
                /\ tempHighlight (viewer (dispatch (MouseLeave g) a)) = None).
Proof.
  intros Hidle Hreach. split.
  - induction Hreach as [|a ev Hreach IH Hpress].
    + unfold activeGestures, dragActive, resizeActive, rubberBandActive.
      rewrite Hidle. simpl. lia.
    + destruct (isPress ev) eqn:Ep.
      * destruct ev; try discriminate. apply press_from_idle. now apply Hpress.
      * destruct (isRelease ev) eqn:Er.
        -- destruct ev; try discriminate; simpl; rewrite release_idle; lia.
        -- now rewrite other_events_keep_viewer.
  - split; intros g; simpl;
      (split; [apply release_idle | apply (release_resets g a)]).
Qed.

Lemma C7_one_gesture_between_releases_witness :
  (activeGestures (run Sample.dragOnce Sample.signed) <= 1)%nat
  /\ activeGestures (dispatch (MouseUp "h000009")
                       (run Sample.dragOnce Sample.signed)) = 0%nat.
Proof.
  assert (R : reachableReleased Sample.signed
                (run Sample.dragOnce Sample.signed)).
  { apply released_run; [reflexivity | apply released_start]. }
  destruct (C7_one_gesture_between_releases Sample.signed
              (run Sample.dragOnce Sample.signed) eq_refl R) as [H1 [H2 _]].
  split; [exact H1 | exact (proj1 (H2 "h000009"))].
Defined.

(** C7 as stated fails: nothing in the handlers stops a second press from
    starting a resize while a drag is active. *)
Lemma C7_counterexample :
  viewer Sample.signed = idleViewer
  /\ reachable Sample.signed (run Sample.chord Sample.signed)
  /\ dragActive (run Sample.chord Sample.signed) = true
  /\ resizeActive (run Sample.chord Sample.signed) = true
  /\ ~ (activeGestures (run Sample.chord Sample.signed) <= 1)%nat.
Proof.
  split; [reflexivity|]. split.
  - apply reachable_run, reachable_start.
  - split; [reflexivity|]. split; [reflexivity|].
    assert (E : activeGestures (run Sample.chord Sample.signed) = 2%nat)
      by reflexivity.
    rewrite E. lia.
Qed.

(** ** Arithmetic of the handlers *)

Lemma Math_max_clamp (lo v : Q) :
  ((v < lo)%Q -> JS.Math_max lo v = lo)
  /\ ((lo <= v)%Q -> JS.Math_max lo v = v).
Proof.
  unfold JS.Math_max. destruct (Qle_bool lo v) eqn:E.
  - apply Qle_bool_iff in E. split; intros H; [lra | reflexivity].
  - assert (~ (lo <= v)%Q) by (intros H; apply Qle_bool_iff in H; congruence).
    split; intros H'; [reflexivity | contradiction].
Qed.

Lemma gt_iff (a b : Q) : JS.gt a b = true <-> (b < a)%Q.
Proof.
  unfold JS.gt. destruct (Qle_bool a b) eqn:E; simpl.
  - apply Qle_bool_iff in E. split; [discriminate | lra].
  - assert (~ (a <= b)%Q) by (intros H; apply Qle_bool_iff in H; congruence).
    split; [lra | reflexivity].
Qed.

(** ** Resize *)

Lemma resizeGeometry_size (r : Resizing) (p : Point) :
  rect_width (resizeGeometry r p)
    = JS.Math_max 50 (requestedWidth (handle r) (startWidth r)
                        (px p - startX r))
  /\ rect_height (resizeGeometry r p)
    = JS.Math_max 30 (requestedHeight (handle r) (startHeight r)
                        (py p - startY r)).
Proof. unfold resizeGeometry. destruct (handle r); split; reflexivity. Qed.

Lemma resizeGeometry_anchor (r : Resizing) (p : Point) :
  let g := resizeGeometry r p in
  samePoint
    (corner (opposite (handle r)) (rect_x g) (rect_y g)
       (rect_width g) (rect_height g))
    (corner (opposite (handle r)) (startLeft r) (startTop r)
       (startWidth r) (startHeight r)).
Proof.
  unfold resizeGeometry, samePoint.
  destruct (handle r); simpl; split; ring.
Qed.

Lemma findSignature_In (s : SignatureData.t) (l : list SignatureData.t) :
  In s l -> exists t, findSignature (SignatureData.id s) l = Some t.
Proof.
  induction l as [|u l IH]; intros Hin; [destruct Hin|].
  unfold findSignature. simpl.
  destruct (String.eqb_spec (SignatureData.id u) (SignatureData.id s)) as [E|N].
  - now exists u.
  - destruct Hin as [->|Hin]; [contradiction|]. now apply IH.
Qed.

Lemma updated_signature (i : string) (u : SignatureData.partial)
    (l : list SignatureData.t) (t : SignatureData.t) :
  SignatureData.id' u = None ->
  In t (List.map (fun s => if String.eqb (SignatureData.id s) i
                      then SignatureData.spread s u else s) l) ->
  SignatureData.id t = i ->
  exists s, In s l /\ SignatureData.id s = i /\ t = SignatureData.spread s u.
Proof.
  intros Hu Hin Hid. apply in_map_iff in Hin as [s [Hs Hin]].
  exists s. destruct (String.eqb_spec (SignatureData.id s) i) as [E|N].
  - now repeat split.
  - subst t. contradiction.
Qed.

Lemma startResize_records (c : option DOMRect.t) (e : MouseEvent)
    (h : ResizeHandle) (s : SignatureData.t) (a : App) :
  resizing (viewer (startResize c e (SignatureData.id s) h s a))
  = Some (mkResizing (SignatureData.id s) h
            (px (getRelativePosition c (scale (editor a)) e))
            (py (getRelativePosition c (scale (editor a)) e))
            (SignatureData.width s) (SignatureData.height s)
            (SignatureData.x s) (SignatureData.y s))
  /\ editor (startResize c e (SignatureData.id s) h s a) = editor a.
Proof. split; reflexivity. Qed.

(** C4. While a resize is recorded, with its handle, start pointer and
    start geometry, and the signature is still in the store, a move of the
    pointer by [(deltaX, deltaY)] from the start pointer gives every
    signature with the recorded identifier the width
    [max(50, startWidth +/- deltaX)] and the height
    [max(30, startHeight +/- deltaY)], the signs being those of the handle,
    and a position that puts the corner opposite to the handle where the
    start geometry has it, also when a clamp applies: a request below the
    minimum yields exactly 50 (or 30), any other request is granted as
    asked.  The record is the one [startResize] made from the signature,
    and a move leaves it in place for the next move. *)
Theorem C4_resize_move (c : option DOMRect.t) (e : MouseEvent) (a : App)
    (r : Resizing) :
  resizing (viewer a) = Some r ->
  (exists s, In s (signatures (annotations (editor a)))
             /\ SignatureData.id s = resize_id r) ->
  let p := getRelativePosition c (scale (editor a)) e in
  let deltaX := (px p - startX r)%Q in
  let deltaY := (py p - startY r)%Q in
  let w := requestedWidth (handle r) (startWidth r) deltaX in
  let ht := requestedHeight (handle r) (startHeight r) deltaY in
  let a' := handleMouseMove c e a in
  (exists t, In t (signatures (annotations (editor a')))
             /\ SignatureData.id t = resize_id r)
  /\ (forall t,
        In t (signatures (annotations (editor a'))) ->
        SignatureData.id t = resize_id r ->
        SignatureData.width t = JS.Math_max 50 w
        /\ SignatureData.height t = JS.Math_max 30 ht
        /\ samePoint
             (corner (opposite (handle r))
                (SignatureData.x t) (SignatureData.y t)
                (SignatureData.width t) (SignatureData.height t))
             (corner (opposite (handle r))
                (startLeft r) (startTop r) (startWidth r) (startHeight r))
        /\ ((w < 50)%Q -> SignatureData.width t = 50%Q)
        /\ ((50 <= w)%Q -> SignatureData.width t = w)
        /\ ((ht < 30)%Q -> SignatureData.height t = 30%Q)
        /\ ((30 <= ht)%Q -> SignatureData.height t = ht))
  /\ resizing (viewer a') = Some r
  /\ (forall c0 e0 h s a0,
        resizing (viewer (startResize c0 e0 (SignatureData.id s) h s a0))
        = Some (mkResizing (SignatureData.id s) h
                  (px (getRelativePosition c0 (scale (editor a0)) e0))
                  (py (getRelativePosition c0 (scale (editor a0)) e0))
                  (SignatureData.width s) (SignatureData.height s)
                  (SignatureData.x s) (SignatureData.y s))).
Proof.
  intros Hr [s [Hin Hid]] p deltaX deltaY w ht a'.
  set (u := SignatureData.mk_partial None
              (Some (rect_x (resizeGeometry r p)))
              (Some (rect_y (resizeGeometry r p)))
              (Some (rect_width (resizeGeometry r p)))
              (Some (rect_height (resizeGeometry r p))) None None).
  destruct (findSignature_In s _ Hin) as [t0 Hfind]. rewrite Hid in Hfind.
  assert (Ha' : signatures (annotations (editor a'))
                = List.map (fun s' => if String.eqb (SignatureData.id s')
                                               (resize_id r)
                                 then SignatureData.spread s' u else s')
                    (signatures (annotations (editor a)))
                /\ resizing (viewer a') = Some r).
  { subst a'. unfold handleMouseMove. rewrite Hr, Hfind.
    destruct a as [ed v]. simpl in *.
    destruct (highlightStart v); [destruct (Tool_eqb (activeTool ed) highlight)|];
      split; solve [reflexivity | exact Hr]. }
  destruct Ha' as [Hsigs Hkeep]. rewrite Hsigs.
  split; [|split; [|split; [exact Hkeep|]]].
  - exists (SignatureData.spread s u). split; [|exact Hid].
    apply in_map_iff. exists s. rewrite Hid, String.eqb_refl. now split.
  - intros t Ht Hidt.
    destruct (updated_signature _ u _ t eq_refl Ht Hidt) as [s' [_ [_ ->]]].
    destruct (resizeGeometry_size r p) as [Hw Hh].
    pose proof (resizeGeometry_anchor r p) as Hc.
    simpl in Hw, Hh, Hc. simpl.
    fold deltaX in Hw. fold deltaY in Hh. fold w in Hw. fold ht in Hh.
    rewrite Hw, Hh in *.
    destruct (Math_max_clamp 50 w) as [Hw1 Hw2].
    destruct (Math_max_clamp 30 ht) as [Hh1 Hh2].
    repeat split; try assumption; try apply Hc.
  - intros c0 e0 h s0 a0. apply startResize_records.
Qed.

Lemma C4_resize_move_witness :
  exists t,
    In t (signatures (annotations (editor
      (handleMouseMove Sample.origin (Sample.at_ 270 170) Sample.gripped))))
    /\ SignatureData.id t = SignatureData.id Sample.sigA
    /\ SignatureData.width t = (150 + (270 / 1 - 250 / 1))%Q
    /\ SignatureData.height t = (60 + (170 / 1 - 160 / 1))%Q
    /\ samePoint (mkPoint (SignatureData.x t) (SignatureData.y t))
         (mkPoint 100 100).
Proof.
  destruct (C4_resize_move Sample.origin (Sample.at_ 270 170) Sample.gripped
              (mkResizing (SignatureData.id Sample.sigA) se (250 / 1) (160 / 1)
                 150 60 100 100) eq_refl)
    as [[t [Hin Hid]] [Hall _]].
  { exists Sample.sigA. split; [left|]; reflexivity. }
  exists t. destruct (Hall t Hin Hid) as [_ [_ [Hc [_ [Hw [_ Hh]]]]]].
  repeat split; try assumption.
  - apply Hw. vm_compute. discriminate.
  - apply Hh. vm_compute. discriminate.
  - apply Hc.
  - apply Hc.
Defined.

(** ** Rubber band *)

Lemma move_frame (c : option DOMRect.t) (e : MouseEvent) (a : App) :
  activeTool (editor (handleMouseMove c e a)) = activeTool (editor a)
  /\ scale (editor (handleMouseMove c e a)) = scale (editor a)
  /\ currentPage (editor (handleMouseMove c e a)) = currentPage (editor a)
  /\ highlights (annotations (editor (handleMouseMove c e a)))
     = highlights (annotations (editor a))
  /\ highlightStart (viewer (handleMouseMove c e a))
     = highlightStart (viewer a).
Proof.
  unfold handleMouseMove. destruct a as [ed [et hs th d off r]]; simpl.
  destruct hs as [p0|]; destruct r as [r|]; destruct d as [i|];
    crush_handler; repeat split.
Qed.


Lemma moveAll_frame (moves : list (option DOMRect.t * MouseEvent)) (a : App) :
  activeTool (editor (moveAll moves a)) = activeTool (editor a)
  /\ scale (editor (moveAll moves a)) = scale (editor a)
  /\ currentPage (editor (moveAll moves a)) = currentPage (editor a)
  /\ highlights (annotations (editor (moveAll moves a)))
     = highlights (annotations (editor a))
  /\ highlightStart (viewer (moveAll moves a)) = highlightStart (viewer a).
Proof.
  revert a. induction moves as [|m moves IH]; intros a; [now repeat split|].
  simpl. destruct (IH (handleMouseMove (fst m) (snd m) a)) as [-> [-> [-> [-> ->]]]].
  apply move_frame.
Qed.




(** The thresholds of the specification: 11 x 6 commits one highlight,
    10 x 5 commits none. *)
Example rubber_band_11_by_6 :
  highlights (annotations (editor
    (run [ MouseDown onContainer Sample.origin (Sample.at_ 20 30);
           MouseMove Sample.origin (Sample.at_ 31 36);
           MouseUp "h0000bb" ]
       (Sample.withStore (mkAnnotation [] [] []) highlight None))))
  = [HighlightAnnotation.mk "h0000bb" 20 30 11 6 1].
Proof. reflexivity. Qed.

Example rubber_band_10_by_5 :
  highlights (annotations (editor
    (run [ MouseDown onContainer Sample.origin (Sample.at_ 20 30);
           MouseMove Sample.origin (Sample.at_ 30 35);
           MouseUp "h0000bb" ]
       (Sample.withStore (mkAnnotation [] [] []) highlight None))))
  = [].
Proof. reflexivity. Qed.

(** ** Bake-out *)

Lemma page_shape (pg : PDFPage) :
  mkPage (page_width pg) (page_height pg) (content pg ++ [])%list = pg.
Proof. destruct pg; simpl. now rewrite app_nil_r. Qed.

Section BakeLoop.

Context {A : Type} (body : A -> Task unit).
Context (sel : nat -> A -> bool) (R : Q -> A -> DrawOp -> Prop).

(** A successful iteration either draws nothing, for an element selected
    by no page of the document, or appends one operation to the one page
    that selects the element. *)
Hypothesis body_draws : forall a d d',
  body a d = Some (tt, d') ->
  (pages d' = pages d
   /\ forall i, (i < List.length (pages d))%nat -> sel i a = false)
  \/ (exists n pg op,
        pages d !! n = Some pg
        /\ pages d' = alter (append_op op) n (pages d)
        /\ R (page_height pg) a op
        /\ forall i, sel i a = Nat.eqb i n).

Lemma for_of_pages (l : list A) : forall d d',
  for_of l body d = Some (tt, d') ->
  List.length (pages d') = List.length (pages d)
  /\ forall i pg, pages d !! i = Some pg ->
       exists ops,
         pages d' !! i
         = Some (mkPage (page_width pg) (page_height pg)
                   (content pg ++ ops)%list)
         /\ Forall2 (R (page_height pg)) (List.filter (sel i) l) ops.
Proof.
  induction l as [|a l IH]; intros d d' Hrun.
  - injection Hrun as <-. split; [reflexivity|]. intros i pg Hpg.
    exists []. rewrite page_shape. split; [exact Hpg | constructor].
  - simpl in Hrun. unfold bind in Hrun.
    destruct (body a d) as [[[] d1]|] eqn:Hbody; [|discriminate].
    destruct (IH d1 d' Hrun) as [Hlen Hpages].
    destruct (body_draws a d d1 Hbody)
      as [[Hsame Hnone] | [n [pgn [op [Hn [Halter [Hop Hsel]]]]]]].
    + rewrite Hsame in *. split; [exact Hlen|]. intros i pg Hpg.
      destruct (Hpages i pg Hpg) as [ops [Hi Hops]]. exists ops.
      split; [exact Hi|]. simpl.
      now rewrite (Hnone i (lookup_lt_Some _ _ _ Hpg)).
    + rewrite Halter, length_alter in Hlen. split; [exact Hlen|].
      intros i pg Hpg. simpl. rewrite Hsel.
      destruct (Nat.eqb_spec i n) as [->|Hne].
      * assert (pg = pgn) by congruence. subst pgn.
        assert (H1 : pages d1 !! n = Some (append_op op pg)).
        { rewrite Halter, list_lookup_alter_eq, Hpg. reflexivity. }
        destruct (Hpages n _ H1) as [ops [Hi Hops]]. simpl in Hi, Hops.
        exists (op :: ops). rewrite <- app_assoc in Hi.
        split; [exact Hi | now constructor].
      * assert (H1 : pages d1 !! i = Some pg).
        { rewrite Halter, list_lookup_alter_ne by congruence. exact Hpg. }
        exact (Hpages i pg H1).
Qed.

End BakeLoop.

Lemma page_at_spec (n : Z) (d : PDFDocument) :
  exists r, page_at n d = Some (r, d)
    /\ match r with
       | Some (i, pg) => 0 <= n /\ i = Z.to_nat n /\ pages d !! i = Some pg
       | None => forall i, (i < List.length (pages d))%nat -> n <> Z.of_nat i
       end.
Proof.
  unfold page_at. destruct (Z.ltb_spec n 0) as [Hneg|Hpos].
  - eexists. split; [reflexivity|]. intros i _. lia.
  - destruct (pages d !! Z.to_nat n) as [pg|] eqn:Hlook.
    + eexists. split; [reflexivity|]. now repeat split.
    + eexists. split; [reflexivity|]. intros i Hi ->.
      apply lookup_ge_None in Hlook. rewrite Nat2Z.id in Hlook. lia.
Qed.

Lemma drawnOn_index (i : nat) (page : Z) :
  0 <= page - 1 -> drawnOn i page = Nat.eqb i (Z.to_nat (page - 1)).
Proof.
  intros H. unfold drawnOn.
  destruct (Z.eqb_spec (page - 1) (Z.of_nat i));
    destruct (Nat.eqb_spec i (Z.to_nat (page - 1))); try reflexivity; lia.
Qed.

Lemma drawnOn_nowhere (i : nat) (page : Z) :
  page - 1 <> Z.of_nat i -> drawnOn i page = false.
Proof. intros H. unfold drawnOn. now apply Z.eqb_neq. Qed.

Lemma bakeSignature_draws (P : Platform) (s : SignatureData.t)
    (d d' : PDFDocument) :
  bakeSignature P s d = Some (tt, d') ->
  (pages d' = pages d
   /\ forall i, (i < List.length (pages d))%nat ->
                drawnOn i (SignatureData.page s) = false)
  \/ (exists n pg op,
        pages d !! n = Some pg
        /\ pages d' = alter (append_op op) n (pages d)
        /\ signatureDrawn (page_height pg) s op
        /\ forall i, drawnOn i (SignatureData.page s) = Nat.eqb i n).
Proof.
  unfold bakeSignature, bind.
  destruct (page_at_spec (SignatureData.page s - 1) d) as [r [-> Hr]].
  destruct r as [[i pg]|].
  - destruct Hr as [Hpos [-> Hpg]]. unfold await, embedPng, draw.
    destruct (fetch_arrayBuffer P (SignatureData.dataUrl s)); [|discriminate].
    destruct (decodePng P l); [|discriminate]. cbn [accepts].
    intros H. injection H as <-. right. simpl.
    eexists _, pg, _. split; [exact Hpg|]. split; [reflexivity|].
    split; [now repeat split|]. intros i. now apply drawnOn_index.
  - intros H. injection H as <-. left. split; [reflexivity|].
    intros i Hi. apply drawnOn_nowhere. now apply Hr.
Qed.

Lemma bakeText_draws (P : Platform) (t : TextAnnotation.t)
    (d d' : PDFDocument) :
  bakeText P t d = Some (tt, d') ->
  (pages d' = pages d
   /\ forall i, (i < List.length (pages d))%nat ->
                inked t && drawnOn i (TextAnnotation.page t) = false)
  \/ (exists n pg op,
        pages d !! n = Some pg
        /\ pages d' = alter (append_op op) n (pages d)
        /\ textDrawn (page_height pg) t op
        /\ forall i, inked t && drawnOn i (TextAnnotation.page t)
                     = Nat.eqb i n).
Proof.
  unfold bakeText, inked.
  destruct (JS.truthy_string (JS.trim (TextAnnotation.text t)));
    cbn [negb andb]; unfold bind.
  - destruct (page_at_spec (TextAnnotation.page t - 1) d) as [r [-> Hr]].
    destruct r as [[i pg]|].
    + destruct Hr as [Hpos [-> Hpg]]. unfold draw.
      destruct (accepts P _); [|discriminate].
      intros H. injection H as <-. right. simpl.
      eexists _, pg, _. split; [exact Hpg|]. split; [reflexivity|].
      split; [now repeat split|]. intros i. now apply drawnOn_index.
    + intros H. injection H as <-. left. split; [reflexivity|].
      intros i Hi. apply drawnOn_nowhere. now apply Hr.
  - intros H. injection H as <-. left. now split.
Qed.

Lemma bakeHighlight_draws (P : Platform) (h : HighlightAnnotation.t)
    (d d' : PDFDocument) :
  bakeHighlight P h d = Some (tt, d') ->
  (pages d' = pages d
   /\ forall i, (i < List.length (pages d))%nat ->
                drawnOn i (HighlightAnnotation.page h) = false)
  \/ (exists n pg op,
        pages d !! n = Some pg
        /\ pages d' = alter (append_op op) n (pages d)
        /\ highlightDrawn (page_height pg) h op
        /\ forall i, drawnOn i (HighlightAnnotation.page h) = Nat.eqb i n).
Proof.
  unfold bakeHighlight, bind.
  destruct (page_at_spec (HighlightAnnotation.page h - 1) d) as [r [-> Hr]].
  destruct r as [[i pg]|].
  - destruct Hr as [Hpos [-> Hpg]]. unfold draw. cbn [accepts].
    intros H. injection H as <-. right. simpl.
    eexists _, pg, _. split; [exact Hpg|]. split; [reflexivity|].
    split; [now repeat split|]. intros i. now apply drawnOn_index.
  - intros H. injection H as <-. left. split; [reflexivity|].
    intros i Hi. apply drawnOn_nowhere. now apply Hr.
Qed.

Lemma bakeAnnotations_pages (P : Platform) (a : Annotation)
    (d d' : PDFDocument) :
  bakeAnnotations P a d = Some (tt, d') ->
  List.length (pages d') = List.length (pages d)
  /\ forall i pg, pages d !! i = Some pg ->
       exists sigOps textOps hlOps,
         pages d' !! i
         = Some (mkPage (page_width pg) (page_height pg)
                   (content pg ++ sigOps ++ textOps ++ hlOps)%list)
         /\ Forall2 (signatureDrawn (page_height pg))
              (List.filter (fun s => drawnOn i (SignatureData.page s))
                 (signatures a)) sigOps
         /\ Forall2 (textDrawn (page_height pg))
              (List.filter
                 (fun t => inked t && drawnOn i (TextAnnotation.page t))
                 (texts a)) textOps
         /\ Forall2 (highlightDrawn (page_height pg))
              (List.filter (fun h => drawnOn i (HighlightAnnotation.page h))
                 (highlights a)) hlOps.
Proof.
  unfold bakeAnnotations, bind. intros Hrun.
  destruct (for_of (signatures a) (bakeSignature P) d) as [[[] d1]|] eqn:H1;
    [|discriminate].
  destruct (for_of (texts a) (bakeText P) d1) as [[[] d2]|] eqn:H2;
    [|discriminate].
  apply (for_of_pages _ _ _ (bakeSignature_draws P)) in H1 as [L1 S1].
  apply (for_of_pages _ _ _ (bakeText_draws P)) in H2 as [L2 S2].
  apply (for_of_pages _ _ _ (bakeHighlight_draws P)) in Hrun as [L3 S3].
  split; [congruence|]. intros i pg Hpg.
  destruct (S1 i pg Hpg) as [sigOps [E1 F1]].
  destruct (S2 i _ E1) as [textOps [E2 F2]].
  destruct (S3 i _ E2) as [hlOps [E3 F3]]. simpl in *.
  exists sigOps, textOps, hlOps. rewrite E3.
  repeat split; try assumption. now rewrite <- !app_assoc.
Qed.

(** C1. When the export succeeds, every page of the loaded document keeps
    its size and gains, after its former content, one operation per
    annotation baked onto it, in store order within each kind: for a page of
    height [pageHeight], a signature is drawn at [x] and
    [pageHeight - y - height], a text at [x] and [pageHeight - y - fontSize],
    a highlight at [x] and [pageHeight - y - height], each with its own
    size.  A signature at (100, 100) of height 60 is thus drawn at
    [pageHeight - 160]. *)
Theorem C1_baked_coordinates (P : Platform) (file : File) (a : Annotation)
    (baked : PDFDocument) (bytes : list Byte.byte) :
  tryBake P file a = Some (baked, bytes) ->
  exists buf doc,
    arrayBuffer P file = Some buf /\ load P buf = Some doc
    /\ List.length (pages baked) = List.length (pages doc)
    /\ forall i pg, pages doc !! i = Some pg ->
         exists sigOps textOps hlOps,
           pages baked !! i
           = Some (mkPage (page_width pg) (page_height pg)
                     (content pg ++ sigOps ++ textOps ++ hlOps)%list)
           /\ Forall2 (signatureDrawn (page_height pg))
                (List.filter (fun s => drawnOn i (SignatureData.page s))
                   (signatures a)) sigOps
           /\ Forall2 (textDrawn (page_height pg))
                (List.filter
                   (fun t => inked t && drawnOn i (TextAnnotation.page t))
                   (texts a)) textOps
           /\ Forall2 (highlightDrawn (page_height pg))
                (List.filter (fun h => drawnOn i (HighlightAnnotation.page h))
                   (highlights a)) hlOps
           /\ forall s op, In (s, op) (List.combine
                  (List.filter (fun s => drawnOn i (SignatureData.page s))
                     (signatures a)) sigOps) ->
                (SignatureData.y s == 100)%Q ->
                (SignatureData.height s == 60)%Q ->
                (drawnY op == page_height pg - 160)%Q.
Proof.
  unfold tryBake. intros Hrun.
  destruct (arrayBuffer P file) as [buf|] eqn:Hbuf; [|discriminate].
  destruct (load P buf) as [doc|] eqn:Hload; [|discriminate].
  destruct (bakeAnnotations P a doc) as [[[] d']|] eqn:Hbake; [|discriminate].
  destruct (save P d'); [|discriminate]. injection Hrun as <- <-.
  exists buf, doc. split; [reflexivity|]. split; [exact Hload|].
  destruct (bakeAnnotations_pages P a doc d' Hbake) as [Hlen Hpages].
  split; [exact Hlen|]. intros i pg Hpg.
  destruct (Hpages i pg Hpg) as [sigOps [textOps [hlOps [E [F1 [F2 F3]]]]]].
  exists sigOps, textOps, hlOps. repeat split; try assumption.
  intros s op Hin Hy Hh. clear E.
  induction F1 as [|s0 op0 ss ops Hd _ IH]; [destruct Hin|].
  destruct Hin as [Heq|Hin]; [|now apply IH].
  injection Heq as -> ->. destruct op; try contradiction.
  destruct Hd as [_ [-> _]]. simpl. rewrite Hy, Hh. ring.
Qed.

Lemma C1_baked_coordinates_witness :
  exists baked bytes op,
    tryBake Sample.platform Sample.file Sample.store = Some (baked, bytes)
    /\ (exists pg, pages baked !! 0%nat = Some pg /\ In op (content pg))
    /\ signatureDrawn 842 Sample.sigA op
    /\ (drawnY op == 842 - 160)%Q.
Proof.
  destruct (tryBake Sample.platform Sample.file Sample.store)
    as [[baked bytes]|] eqn:E; [|vm_compute in E; discriminate].
  destruct (C1_baked_coordinates Sample.platform Sample.file Sample.store
              baked bytes E) as [buf [doc [_ [Hload [_ Hpages]]]]].
  injection Hload as <-.
  destruct (Hpages 0%nat (mkPage 595 842 []) eq_refl)
    as [sigOps [textOps [hlOps [Hpg [Hsig [_ [_ Hy]]]]]]].
  simpl in Hsig, Hy.
  destruct sigOps as [|op sigOps]; [inversion Hsig|].
  exists baked, bytes, op. split; [reflexivity|]. split; [|split].
  - eexists. split; [exact Hpg|]. simpl. now left.
  - now inversion Hsig.
  - apply (Hy Sample.sigA op); [now left | reflexivity | reflexivity].
Defined.

(** The export of the sample store: the signature, the text and the
    highlight of page 1 are drawn on the one page, 842 high; the annotations
    of pages 7 and 0 and the blank text leave no trace. *)
Example export_sample :
  fst <$> tryBake Sample.platform Sample.file Sample.store
  = Some (mkDoc
            [mkPage 595 842
               [ drawImage (PngImage [Byte.x89]) 100 682 150 60;
                 drawText "Approved" 40 776 16
                   (rgb (1 # 10) (1 # 10) (18 # 100));
                 drawRectangle 20 800 200 12
                   (rgb (98 # 100) (8 # 10) (8 # 100)) (4 # 10) ]]
            [PngImage [Byte.x89]]).
Proof. reflexivity. Qed.

(** ** Bake-out: skipped annotations *)

(** A string trims to the empty string exactly when it is white space
    throughout. *)
Lemma trimEnd_empty (s : string) : JS.trimEnd s = "" <-> JS.blank s = true.
Proof.
  induction s as [|c s IH]; simpl; [tauto|].
  destruct (JS.trimEnd s) eqn:E.
  - destruct (JS.isWhiteSpace c); simpl.
    + split; intros _; [now apply IH | reflexivity].
    + split; discriminate.
  - split; [discriminate|]. intros H. apply andb_prop in H as [_ H].
    apply IH in H. discriminate.
Qed.

Lemma trim_empty (s : string) : JS.trim s = "" <-> JS.blank s = true.
Proof.
  unfold JS.trim. induction s as [|c s IH]; simpl; [tauto|].
  destruct (JS.isWhiteSpace c) eqn:E; simpl; [exact IH|].
  change (JS.trimEnd (String c s) = "" <-> false = true).
  rewrite trimEnd_empty. simpl. now rewrite E.
Qed.

Section BakeSkip.

Context {A : Type} (body : A -> Task unit) (keep : nat -> A -> bool).

Hypothesis skipped_returns : forall a d,
  keep (List.length (pages d)) a = false -> body a d = Some (tt, d).

Hypothesis body_length : forall a d d' u,
  body a d = Some (u, d') ->
  List.length (pages d') = List.length (pages d).

Lemma for_of_length (l : list A) : forall d d' u,
  for_of l body d = Some (u, d') ->
  List.length (pages d') = List.length (pages d).
Proof.
  induction l as [|a l IH]; intros d d' u Hrun.
  - now injection Hrun as _ <-.
  - simpl in Hrun. unfold bind in Hrun.
    destruct (body a d) as [[v d1]|] eqn:Hbody; [|discriminate].
    rewrite (IH _ _ _ Hrun). exact (body_length _ _ _ _ Hbody).
Qed.

Lemma for_of_kept (l : list A) : forall d,
  for_of l body d
  = for_of (List.filter (keep (List.length (pages d))) l) body d.
Proof.
  induction l as [|a l IH]; intros d; [reflexivity|]. simpl.
  destruct (keep (List.length (pages d)) a) eqn:Hk; simpl; unfold bind.
  - destruct (body a d) as [[v d1]|] eqn:Hbody; [|reflexivity].
    rewrite (IH d1). now rewrite (body_length _ _ _ _ Hbody).
  - rewrite (skipped_returns a d Hk). apply IH.
Qed.


End BakeSkip.

Lemma page_at_missing (n : nat) (page : Z) (d : PDFDocument) :
  List.length (pages d) = n -> hasPage n page = false ->
  page_at (page - 1) d = Some (None, d).
Proof.
  unfold hasPage, page_at. intros <- H.
  destruct (Z.ltb_spec (page - 1) 0) as [|Hpos]; [reflexivity|].
  destruct (pages d !! Z.to_nat (page - 1)) eqn:Hlook; [|reflexivity].
  apply lookup_lt_Some in Hlook.
  apply andb_false_iff in H as [H|H];
    [apply Z.leb_gt in H | apply Z.ltb_ge in H]; lia.
Qed.

Lemma page_at_found (n : nat) (page : Z) (d : PDFDocument) :
  List.length (pages d) = n -> hasPage n page = true ->
  exists pg, page_at (page - 1) d = Some (Some (Z.to_nat (page - 1), pg), d).
Proof.
  unfold hasPage, page_at. intros <- H.
  apply andb_prop in H as [H1 H2].
  apply Z.leb_le in H1. apply Z.ltb_lt in H2.
  destruct (Z.ltb_spec (page - 1) 0) as [|_]; [lia|].
  destruct (pages d !! Z.to_nat (page - 1)) as [pg|] eqn:Hlook.
  - now exists pg.
  - apply lookup_ge_None in Hlook. lia.
Qed.

Lemma bakeSignature_skips (P : Platform) (s : SignatureData.t)
    (d : PDFDocument) :
  hasPage (List.length (pages d)) (SignatureData.page s) = false ->
  bakeSignature P s d = Some (tt, d).
Proof.
  intros H. unfold bakeSignature, bind.
  now rewrite (page_at_missing _ _ d eq_refl H).
Qed.

Lemma bakeText_skips (P : Platform) (t : TextAnnotation.t)
    (d : PDFDocument) :
  inked t && hasPage (List.length (pages d)) (TextAnnotation.page t) = false ->
  bakeText P t d = Some (tt, d).
Proof.
  unfold bakeText, inked, bind.
  destruct (JS.truthy_string (JS.trim (TextAnnotation.text t)));
    cbn [negb andb]; [|reflexivity].
  intros H. now rewrite (page_at_missing _ _ d eq_refl H).
Qed.

Lemma bakeHighlight_skips (P : Platform) (h : HighlightAnnotation.t)
    (d : PDFDocument) :
  hasPage (List.length (pages d)) (HighlightAnnotation.page h) = false ->
  bakeHighlight P h d = Some (tt, d).
Proof.
  intros H. unfold bakeHighlight, bind.
  now rewrite (page_at_missing _ _ d eq_refl H).
Qed.

Lemma draws_length {A : Type} (sel : nat -> A -> bool)
    (R : Q -> A -> DrawOp -> Prop) (a : A) (d d' : PDFDocument) :
  (pages d' = pages d
   /\ forall i, (i < List.length (pages d))%nat -> sel i a = false)
  \/ (exists n pg op,
        pages d !! n = Some pg
        /\ pages d' = alter (append_op op) n (pages d)
        /\ R (page_height pg) a op
        /\ forall i, sel i a = Nat.eqb i n) ->
  List.length (pages d') = List.length (pages d).
Proof.
  intros [[-> _] | [n [pg [op [_ [-> _]]]]]];
    [reflexivity | apply length_alter].
Qed.

Lemma bakeSignature_length (P : Platform) (s : SignatureData.t)
    (d d' : PDFDocument) (u : unit) :
  bakeSignature P s d = Some (u, d') ->
  List.length (pages d') = List.length (pages d).
Proof.
  destruct u. intros H.
  exact (draws_length (fun i s => drawnOn i (SignatureData.page s))
           signatureDrawn s d d' (bakeSignature_draws P s d d' H)).
Qed.

Lemma bakeText_length (P : Platform) (t : TextAnnotation.t)
    (d d' : PDFDocument) (u : unit) :
  bakeText P t d = Some (u, d') ->
  List.length (pages d') = List.length (pages d).
Proof.
  destruct u. intros H.
  exact (draws_length
           (fun i t => inked t && drawnOn i (TextAnnotation.page t))
           textDrawn t d d' (bakeText_draws P t d d' H)).
Qed.

Lemma bakeHighlight_length (P : Platform) (h : HighlightAnnotation.t)
    (d d' : PDFDocument) (u : unit) :
  bakeHighlight P h d = Some (u, d') ->
  List.length (pages d') = List.length (pages d).
Proof.
  destruct u. intros H.
  exact (draws_length (fun i h => drawnOn i (HighlightAnnotation.page h))
           highlightDrawn h d d' (bakeHighlight_draws P h d d' H)).
Qed.

Lemma bakeAnnotations_kept (P : Platform) (a : Annotation) (d : PDFDocument) :
  bakeAnnotations P a d
  = bakeAnnotations P (kept (List.length (pages d)) a) d.
Proof.
  unfold bakeAnnotations, kept, bind. simpl.
  rewrite (for_of_kept (bakeSignature P)
             (fun n s => hasPage n (SignatureData.page s))
             (bakeSignature_skips P) (bakeSignature_length P)).
  destruct (for_of _ (bakeSignature P) d) as [[u d1]|] eqn:H1; [|reflexivity].
  apply (for_of_length _ (bakeSignature_length P)) in H1.
  rewrite (for_of_kept (bakeText P)
             (fun n t => inked t && hasPage n (TextAnnotation.page t))
             (bakeText_skips P) (bakeText_length P)).
  rewrite H1.
  destruct (for_of _ (bakeText P) d1) as [[v d2]|] eqn:H2; [|reflexivity].
  apply (for_of_length _ (bakeText_length P)) in H2.
  rewrite (for_of_kept (bakeHighlight P)
             (fun n h => hasPage n (HighlightAnnotation.page h))
             (bakeHighlight_skips P) (bakeHighlight_length P)).
  now rewrite H2, H1.
Qed.











(** ** Signature crop *)

Module CropProofs.

Import SignatureCanvas.

Lemma in_upto (n x : Z) : In x (upto n) <-> 0 <= x < n.
Proof.
  unfold upto. rewrite in_map_iff. split.
  - intros [k [<- Hk]]. apply in_seq in Hk. lia.
  - intros H. exists (Z.to_nat x). split; [lia|]. apply in_seq. lia.
Qed.

Lemma in_scanOrder (img : ImageData) (x y : Z) :
  In (y, x) (scanOrder img) <-> inside img x y.
Proof.
  unfold scanOrder, inside. rewrite in_flat_map. split.
  - intros [y' [Hy Hx]]. apply in_map_iff in Hx as [x' [E Hx]].
    injection E as -> ->. apply in_upto in Hy, Hx. now split.
  - intros [Hx Hy]. exists y. split; [now apply in_upto|].
    apply in_map_iff. exists x. split; [reflexivity | now apply in_upto].
Qed.

Lemma fold_left_map {A B C : Type} (f : A -> C -> A) (h : B -> C)
    (l : list B) : forall a,
  fold_left f (List.map h l) a = fold_left (fun a x => f a (h x)) l a.
Proof. induction l as [|x l IH]; intros a; [reflexivity | apply IH]. Qed.

Lemma fold_left_flat_map {A B C : Type} (f : A -> C -> A) (g : B -> list C)
    (l : list B) : forall a,
  fold_left f (flat_map g l) a
  = fold_left (fun a y => fold_left f (g y) a) l a.
Proof.
  induction l as [|y l IH]; intros a; [reflexivity|].
  simpl. rewrite fold_left_app. apply IH.
Qed.

Lemma fold_left_same {A B : Type} (f g : A -> B -> A) (l : list B) :
  (forall a x, f a x = g a x) ->
  forall a, fold_left f l a = fold_left g l a.
Proof.
  intros E. induction l as [|x l IH]; intros a; [reflexivity|].
  simpl. rewrite E. apply IH.
Qed.

(** The two nested loops are one pass over [scanOrder]. *)
Lemma scan_scanOrder (img : ImageData) :
  scan img
  = fold_left (visitPixel img) (scanOrder img)
      (mkBox (width img) (height img) 0 0).
Proof.
  unfold scan, scanOrder. rewrite fold_left_flat_map.
  apply fold_left_same. intros b y. unfold scanRow.
  now rewrite fold_left_map.
Qed.

Section Pass.

Variable img : ImageData.

(** What a pass over the pixels [l] makes of the box [b]. *)
Lemma pass_tracks (l : list (Z * Z)) : forall b,
  let b' := fold_left (visitPixel img) l b in
  (minX b' <= minX b /\ minY b' <= minY b
   /\ maxX b <= maxX b' /\ maxY b <= maxY b')
  /\ (forall x y, In (y, x) l -> opaque img x y = true ->
        minX b' <= x <= maxX b' /\ minY b' <= y <= maxY b')
  /\ (minX b' = minX b
      \/ exists y, In (y, minX b') l /\ opaque img (minX b') y = true)
  /\ (maxX b' = maxX b
      \/ exists y, In (y, maxX b') l /\ opaque img (maxX b') y = true)
  /\ (minY b' = minY b
      \/ exists x, In (minY b', x) l /\ opaque img x (minY b') = true)
  /\ (maxY b' = maxY b
      \/ exists x, In (maxY b', x) l /\ opaque img x (maxY b') = true).
Proof.
  induction l as [|[py px] l IH]; intros b.
  - simpl. repeat split; try lia; try (now left); intros x y [].
  - simpl fold_left. specialize (IH (visitPixel img b (py, px))).
    cbv zeta in IH.
    set (b1 := visitPixel img b (py, px)) in *.
    set (b' := fold_left (visitPixel img) l b1) in *.
    destruct IH as [[M1 [M2 [M3 M4]]] [Hcov [A1 [A2 [A3 A4]]]]].
    assert (Hb1 : (opaque img px py = true
                   /\ minX b1 = Z.min (minX b) px /\ minY b1 = Z.min (minY b) py
                   /\ maxX b1 = Z.max (maxX b) px /\ maxY b1 = Z.max (maxY b) py)
                  \/ (opaque img px py = false /\ b1 = b)).
    { subst b1. unfold visitPixel, visit. simpl.
      destruct (opaque img px py); [left | right]; now repeat split. }
    cbv zeta. split; [|split; [|repeat split]].
    + destruct Hb1 as [[_ [E1 [E2 [E3 E4]]]] | [_ E]];
        [lia | rewrite E in *; lia].
    + intros x y [E|Hin] Hop.
      * injection E as -> ->.
        destruct Hb1 as [[_ [E1 [E2 [E3 E4]]]] | [Hno _]];
          [lia | congruence].
      * now apply Hcov.
    + destruct A1 as [E | [y [Hin Hop]]];
        [| right; exists y; split; [now right | exact Hop]].
      destruct Hb1 as [[Hop [E1 _]] | [_ Eb]]; [| left; congruence].
      destruct (Z.min_spec (minX b) px) as [[_ Em] | [_ Em]];
        [left; lia|].
      right. exists py. replace (minX b') with px by lia.
      split; [now left | exact Hop].
    + destruct A2 as [E | [y [Hin Hop]]];
        [| right; exists y; split; [now right | exact Hop]].
      destruct Hb1 as [[Hop [_ [_ [E3 _]]]] | [_ Eb]]; [| left; congruence].
      destruct (Z.max_spec (maxX b) px) as [[_ Em] | [_ Em]];
        [| left; lia].
      right. exists py. replace (maxX b') with px by lia.
      split; [now left | exact Hop].
    + destruct A3 as [E | [x [Hin Hop]]];
        [| right; exists x; split; [now right | exact Hop]].
      destruct Hb1 as [[Hop [_ [E2 _]]] | [_ Eb]]; [| left; congruence].
      destruct (Z.min_spec (minY b) py) as [[_ Em] | [_ Em]];
        [left; lia|].
      right. exists px. replace (minY b') with py by lia.
      split; [now left | exact Hop].
    + destruct A4 as [E | [x [Hin Hop]]];
        [| right; exists x; split; [now right | exact Hop]].
      destruct Hb1 as [[Hop [_ [_ [_ E4]]]] | [_ Eb]]; [| left; congruence].
      destruct (Z.max_spec (maxY b) py) as [[_ Em] | [_ Em]];
        [| left; lia].
      right. exists px. replace (maxY b') with py by lia.
      split; [now left | exact Hop].
Qed.

(** The scan finds the bounding box of the opaque pixels, if there is one. *)
Lemma scan_boundingBox :
  (exists x y, inside img x y /\ opaque img x y = true) ->
  boundingBox img (scan img).
Proof.
  intros [x0 [y0 [Hin0 Hop0]]]. rewrite scan_scanOrder.
  pose proof (pass_tracks (scanOrder img) (mkBox (width img) (height img) 0 0))
    as H. cbv zeta in H.
  set (b := fold_left _ _ _) in *. simpl in H.
  destruct H as [_ [Hcov [A1 [A2 [A3 A4]]]]].
  assert (Hc0 := Hcov x0 y0 (proj2 (in_scanOrder img x0 y0) Hin0) Hop0).
  destruct Hin0 as [Hx0 Hy0].
  unfold boundingBox. split; [|repeat split].
  - intros x y Hin Hop. apply Hcov; [now apply in_scanOrder | exact Hop].
  - destruct A1 as [E | [y [Hin Hop]]]; [lia|].
    exists y. split; [now apply in_scanOrder | exact Hop].
  - destruct A2 as [E | [y [Hin Hop]]].
    + exists y0. replace (maxX b) with x0 by lia. now repeat split.
    + exists y. split; [now apply in_scanOrder | exact Hop].
  - destruct A3 as [E | [x [Hin Hop]]]; [lia|].
    exists x. split; [now apply in_scanOrder | exact Hop].
  - destruct A4 as [E | [x [Hin Hop]]].
    + exists x0. replace (maxY b) with y0 by lia. now repeat split.
    + exists x. split; [now apply in_scanOrder | exact Hop].
Qed.

Lemma boundingBox_unique (b b' : Box) :
  boundingBox img b -> boundingBox img b' -> b = b'.
Proof.
  intros [C [[y1 [I1 O1]] [[y2 [I2 O2]] [[x3 [I3 O3]] [x4 [I4 O4]]]]]]
         [C' [[y1' [I1' O1']] [[y2' [I2' O2']] [[x3' [I3' O3']] [x4' [I4' O4']]]]]].
  pose proof (C' _ _ I1 O1). pose proof (C' _ _ I2 O2).
  pose proof (C' _ _ I3 O3). pose proof (C' _ _ I4 O4).
  pose proof (C _ _ I1' O1'). pose proof (C _ _ I2' O2').
  pose proof (C _ _ I3' O3'). pose proof (C _ _ I4' O4').
  destruct b, b'; simpl in *. f_equal; lia.
Qed.

Lemma boundingBox_inside (b : Box) :
  boundingBox img b ->
  0 <= minX b <= maxX b /\ maxX b < width img
  /\ 0 <= minY b <= maxY b /\ maxY b < height img.
Proof.
  intros [C [[y1 [I1 O1]] [[y2 [I2 O2]] [[x3 [I3 O3]] [x4 [I4 O4]]]]]].
  pose proof (C _ _ I1 O1). unfold inside in *. lia.
Qed.

End Pass.

Lemma lookup_map {A B : Type} (f : A -> B) (l : list A) : forall i : nat,
  List.map f l !! i = f <$> (l !! i).
Proof.
  induction l as [|a l IH]; intros [|i]; try reflexivity. apply IH.
Qed.

Lemma lookup_upto (n : Z) (i : nat) :
  Z.of_nat i < n -> upto n !! i = Some (Z.of_nat i).
Proof.
  intros H. unfold upto. rewrite lookup_map, lookup_seq_lt by lia.
  reflexivity.
Qed.

Lemma length_upto (n : Z) : List.length (upto n) = Z.to_nat n.
Proof. unfold upto. now rewrite length_map, length_seq. Qed.

(** [drawImage] copies the source rectangle pixel for pixel. *)
Lemma drawImage_copies (img : ImageData) (sx sy w h cw ch : Z) :
  0 < w -> 0 < h ->
  List.length (drawImage img sx sy w h cw ch) = Z.to_nat h
  /\ forall i j : nat, Z.of_nat i < w -> Z.of_nat j < h ->
       exists row,
         drawImage img sx sy w h cw ch !! j = Some row
         /\ List.length row = Z.to_nat w
         /\ row !! i = Some (pixel img (sx + Z.of_nat i) (sy + Z.of_nat j)).
Proof.
  intros Hw Hh. unfold drawImage.
  replace (0 <? w) with true by (symmetry; now apply Z.ltb_lt).
  replace (0 <? h) with true by (symmetry; now apply Z.ltb_lt).
  cbn [andb]. unfold copied. split.
  - now rewrite length_map, length_upto.
  - intros i j Hi Hj. eexists. rewrite lookup_map, (lookup_upto h j Hj).
    split; [reflexivity|]. split.
    + now rewrite length_map, length_upto.
    + now rewrite lookup_map, (lookup_upto w i Hi).
Qed.

(** A raster without an opaque pixel is scanned to the box the scan
    starts from. *)
Lemma scan_blank (img : ImageData) :
  (forall x y, inside img x y -> opaque img x y = false) ->
  scan img = mkBox (width img) (height img) 0 0.
Proof.
  intros Hblank. rewrite scan_scanOrder.
  assert (H : forall l b, (forall p, In p l -> In p (scanOrder img)) ->
                          fold_left (visitPixel img) l b = b).
  { induction l as [|[y x] l IH]; intros b Hl; [reflexivity|]. simpl.
    unfold visitPixel at 2, visit. simpl.
    rewrite (Hblank x y) by (apply in_scanOrder, Hl; now left).
    apply IH. intros p Hp. apply Hl. now right. }
  now apply H.
Qed.

End CropProofs.

(** *** Rasters built by [raster] *)

Module RasterProofs.

Import SignatureCanvas.

Lemma lookup_concat_uniform {A : Type} (k : nat) (ls : list (list A)) :
  Forall (fun l => List.length l = k) ls ->
  forall j i : nat, (i < k)%nat ->
    List.concat ls !! (j * k + i)%nat = ls !! j ≫= (fun l => l !! i).
Proof.
  induction 1 as [|l ls Hl _ IH]; intros j i Hi.
  - now destruct j.
  - destruct j as [|j]; simpl.
    + apply lookup_app_l. lia.
    + rewrite lookup_app_r by lia.
      replace (k + j * k + i - List.length l)%nat with (j * k + i)%nat by lia.
      now apply IH.
Qed.

Lemma Forall_map_length {A B : Type} (f : A -> list B) (k : nat)
    (l : list A) :
  (forall a, List.length (f a) = k) ->
  Forall (fun r => List.length r = k) (List.map f l).
Proof. intros H. induction l; constructor; auto. Qed.

Lemma length_concat_uniform {A : Type} (k : nat) (ls : list (list A)) :
  Forall (fun l => List.length l = k) ls ->
  List.length (List.concat ls) = (List.length ls * k)%nat.
Proof.
  induction 1 as [|l ls Hl _ IH]; [reflexivity|].
  simpl. rewrite length_app. lia.
Qed.

(** The alpha channel of a pixel of [raster w h f] is that of [f]. *)
Lemma opaque_raster (w h : Z) (f : Z -> Z -> RGBA) (x y : Z) :
  0 <= x < w -> 0 <= y < h ->
  opaque (raster w h f) x y = (0 <? chA (f x y)).
Proof.
  intros Hx Hy. unfold opaque, channel, raster. simpl.
  destruct (Z.ltb_spec ((y * w + x) * 4 + 3) 0) as [|_]; [nia|].
  set (W := Z.to_nat w).
  replace (Z.to_nat ((y * w + x) * 4 + 3))
    with (Z.to_nat y * (W * 4) + (Z.to_nat x * 4 + 3))%nat
    by (subst W; rewrite <- (Z2Nat.id y), <- (Z2Nat.id x), <- (Z2Nat.id w) at 1
          by lia; lia).
  rewrite (lookup_concat_uniform (W * 4)).
  - rewrite CropProofs.lookup_map, (CropProofs.lookup_upto h (Z.to_nat y))
      by lia. simpl.
    rewrite (lookup_concat_uniform 4) by
      (try apply Forall_map_length; intros; try reflexivity; lia).
    rewrite CropProofs.lookup_map, (CropProofs.lookup_upto w (Z.to_nat x))
      by lia. simpl.
    now rewrite !Z2Nat.id by lia.
  - apply Forall_map_length. intros a.
    rewrite (length_concat_uniform 4)
      by (apply Forall_map_length; reflexivity).
    rewrite length_map, CropProofs.length_upto. reflexivity.
  - lia.
Qed.

End RasterProofs.

(** X24. With the has-content flag set and the canvas and its contexts
    available, a raster with at least one pixel of non-zero alpha is
    scanned to the bounding box of those pixels; the box is widened by 20
    on every side, its lower bounds clamped at 0 and its upper bounds at
    the width and height of the surface; the output canvas has the size of
    that region and holds, pixel for pixel, the source pixels of the
    region.  For a 200 x 200 surface whose bounding box is (10,10)-(90,40)
    the region is (0,0)-(110,60). *)
Theorem X24_crop_to_padded_bounding_box (canvas : SignatureCanvas.Canvas) :
  let img := SignatureCanvas.imageData canvas in
  SignatureCanvas.context2d canvas = true ->
  (exists x y, SignatureCanvas.inside img x y
               /\ SignatureCanvas.opaque img x y = true) ->
  SignatureCanvas.boundingBox img (SignatureCanvas.scan img)
  /\ (forall b, SignatureCanvas.boundingBox img b ->
        let x0 := Z.max 0 (SignatureCanvas.minX b - 20) in
        let y0 := Z.max 0 (SignatureCanvas.minY b - 20) in
        let x1 := Z.min (SignatureCanvas.width img)
                    (SignatureCanvas.maxX b + 20) in
        let y1 := Z.min (SignatureCanvas.height img)
                    (SignatureCanvas.maxY b + 20) in
        exists out,
          SignatureCanvas.handleSave (Some canvas) true true = Some out
          /\ SignatureCanvas.sourceX out = x0
          /\ SignatureCanvas.sourceY out = y0
          /\ SignatureCanvas.croppedWidth out = x1 - x0
          /\ SignatureCanvas.croppedHeight out = y1 - y0
          /\ SignatureCanvas.canvasWidth out = x1 - x0
          /\ SignatureCanvas.canvasHeight out = y1 - y0
          /\ 0 < x1 - x0 /\ 0 < y1 - y0
          /\ List.length (SignatureCanvas.rows out) = Z.to_nat (y1 - y0)
          /\ (forall i j : nat,
                Z.of_nat i < x1 - x0 -> Z.of_nat j < y1 - y0 ->
                exists row,
                  SignatureCanvas.rows out !! j = Some row
                  /\ List.length row = Z.to_nat (x1 - x0)
                  /\ row !! i
                     = Some (SignatureCanvas.pixel img (x0 + Z.of_nat i)
                               (y0 + Z.of_nat j)))
          /\ (SignatureCanvas.width img = 200 ->
              SignatureCanvas.height img = 200 ->
              b = SignatureCanvas.mkBox 10 10 90 40 ->
              x0 = 0 /\ y0 = 0 /\ x1 = 110 /\ y1 = 60)).
Proof.
  intros img Hctx Hink.
  pose proof (CropProofs.scan_boundingBox img Hink) as Hscan.
  split; [exact Hscan|].
  intros b Hb x0 y0 x1 y1.
  assert (Eb : b = SignatureCanvas.scan img)
    by exact (CropProofs.boundingBox_unique img _ _ Hb Hscan).
  pose proof (CropProofs.boundingBox_inside img b Hb) as Hin.
  assert (Hw : 0 < x1 - x0) by (subst x0 x1; lia).
  assert (Hh : 0 < y1 - y0) by (subst y0 y1; lia).
  unfold SignatureCanvas.handleSave. rewrite Hctx. simpl negb. cbv iota.
  fold img.
  replace (SignatureCanvas.width img <=? 0) with false
    by (symmetry; apply Z.leb_gt; lia).
  replace (SignatureCanvas.height img <=? 0) with false
    by (symmetry; apply Z.leb_gt; lia).
  cbn [orb]. rewrite <- Eb.
  unfold SignatureCanvas.pad, SignatureCanvas.padding. simpl.
  fold x0 y0 x1 y1. unfold SignatureCanvas.assigned.
  replace (x1 - x0 <? 0) with false by (symmetry; apply Z.ltb_ge; lia).
  replace (y1 - y0 <? 0) with false by (symmetry; apply Z.ltb_ge; lia).
  destruct (CropProofs.drawImage_copies img x0 y0 (x1 - x0) (y1 - y0)
              (x1 - x0) (y1 - y0) Hw Hh) as [Hlen Hrows].
  eexists. split; [reflexivity|]. simpl.
  repeat split; try assumption; try lia.
  all: match goal with
       | Hbox : _ = SignatureCanvas.mkBox _ _ _ _ |- _ =>
           subst x0 y0 x1 y1; rewrite Hbox; simpl; lia
       end.
Qed.

Lemma X24_crop_to_padded_bounding_box_witness :
  exists out,
    SignatureCanvas.handleSave
      (Some (SignatureCanvas.mkCanvas true Sample.typed)) true true = Some out
    /\ SignatureCanvas.sourceX out = 0
    /\ SignatureCanvas.sourceY out = 0
    /\ SignatureCanvas.croppedWidth out = 110
    /\ SignatureCanvas.croppedHeight out = 60.
Proof.
  assert (Hop : forall x y, SignatureCanvas.inside Sample.typed x y ->
            SignatureCanvas.opaque Sample.typed x y
            = ((x =? 10) && (y =? 10)) || ((x =? 90) && (y =? 40))).
  { intros x y [Hx Hy]. unfold Sample.typed.
    rewrite RasterProofs.opaque_raster by assumption.
    now destruct (((x =? 10) && (y =? 10)) || ((x =? 90) && (y =? 40))). }
  assert (Hin : forall x y, 0 <= x < 200 -> 0 <= y < 200 ->
            SignatureCanvas.inside Sample.typed x y)
    by (intros x y Hx Hy; split; assumption).
  assert (Hbox : SignatureCanvas.boundingBox Sample.typed
                   (SignatureCanvas.mkBox 10 10 90 40)).
  { split; [|repeat split].
    - intros x y Hi Ho. rewrite (Hop x y Hi) in Ho.
      apply orb_prop in Ho as [Ho|Ho]; apply andb_prop in Ho as [H1 H2];
        apply Z.eqb_eq in H1, H2; subst; simpl; lia.
    - exists 10. simpl.
      split; [apply Hin; lia | rewrite Hop by (apply Hin; lia); reflexivity].
    - exists 40. simpl.
      split; [apply Hin; lia | rewrite Hop by (apply Hin; lia); reflexivity].
    - exists 10. simpl.
      split; [apply Hin; lia | rewrite Hop by (apply Hin; lia); reflexivity].
    - exists 90. simpl.
      split; [apply Hin; lia | rewrite Hop by (apply Hin; lia); reflexivity]. }
  destruct (X24_crop_to_padded_bounding_box
              (SignatureCanvas.mkCanvas true Sample.typed) eq_refl)
    as [_ Hcrop].
  { exists 10, 10. simpl.
    split; [apply Hin; lia | rewrite Hop by (apply Hin; lia); reflexivity]. }
  destruct (Hcrop _ Hbox) as [out [Hsave [Hx [Hy [Hw [Hh _]]]]]].
  exists out. repeat split; assumption.
Defined.

(** C6. The last clause of the claim fails on the code: the save is gated
    by the has-content flag, which [setupCanvas] leaves set when it gives
    the canvas a fresh bitmap.  After a stroke on the sample pad (448 by
    192 at a device pixel ratio of 2) and a resize of the window, whatever
    the browser had rendered, no pixel of the 896 x 384 bitmap is opaque,
    and the save still calls [onSave]: the scan ends on the box it started
    from, the crop has the negative size -856 x -344, the fresh canvas
    falls back to 300 x 150 and stays blank.  The clear button, on the
    same pad, resets the flag, and the save hands over nothing. *)
Theorem C6_blank_canvas_is_saved
    (rasterise : SignaturePad.CanvasOp -> SignatureCanvas.ImageData
                 -> SignatureCanvas.ImageData) :
  SignaturePad.hasContent Demo.drawn = true
  /\ SignaturePad.painted Demo.drawn <> []
  /\ SignaturePad.hasContent (SignaturePad.setupCanvas Demo.dom Demo.drawn)
     = true
  /\ (forall x y,
        SignatureCanvas.inside
          (SignaturePad.bitmap rasterise
             (SignaturePad.setupCanvas Demo.dom Demo.drawn)) x y ->
        SignatureCanvas.opaque
          (SignaturePad.bitmap rasterise
             (SignaturePad.setupCanvas Demo.dom Demo.drawn)) x y = false)
  /\ SignaturePad.handleSave rasterise Demo.dom true
       (SignaturePad.setupCanvas Demo.dom Demo.drawn)
     = Some (SignatureCanvas.mkCropped (-856) (-344) 876 364 300 150
               (SignatureCanvas.blank 300 150))
  /\ SignaturePad.handleSave rasterise Demo.dom true
       (SignaturePad.clearCanvas Demo.dom Demo.drawn) = None.
Proof.
  assert (Hbitmap :
    SignaturePad.bitmap rasterise
      (SignaturePad.setupCanvas Demo.dom Demo.drawn)
    = SignatureCanvas.raster 896 384
        (fun _ _ => SignatureCanvas.mkRGBA 0 0 0 0)) by reflexivity.
  assert (Hblank : forall x y,
    SignatureCanvas.inside
      (SignaturePad.bitmap rasterise
         (SignaturePad.setupCanvas Demo.dom Demo.drawn)) x y ->
    SignatureCanvas.opaque
      (SignaturePad.bitmap rasterise
         (SignaturePad.setupCanvas Demo.dom Demo.drawn)) x y = false).
  { intros x y [Hx Hy]. rewrite Hbitmap in *. simpl in Hx, Hy.
    now rewrite RasterProofs.opaque_raster. }
  split; [reflexivity|]. split; [discriminate|]. split; [reflexivity|].
  split; [exact Hblank|]. split; [|reflexivity].
  unfold SignaturePad.handleSave, SignatureCanvas.handleSave.
  change (SignaturePad.canvas Demo.dom) with (Some true).
  change (SignaturePad.hasContent
            (SignaturePad.setupCanvas Demo.dom Demo.drawn)) with true.
  cbn [negb SignatureCanvas.context2d SignatureCanvas.imageData].
  rewrite (CropProofs.scan_blank _ Hblank). rewrite Hbitmap. reflexivity.
Qed.

(** * Further properties *)

(** ** The store: how the operations compose *)

Lemma filter_snoc_fresh {A : Type} (key : A -> string) (i : string)
    (l : list A) (a : A) :
  (forall b, In b l -> key b <> i) -> key a = i ->
  List.filter (fun b => negb (String.eqb (key b) i)) (l ++ [a])%list = l.
Proof.
  intros Hl Ha. rewrite List.filter_app. simpl.
  rewrite Ha, String.eqb_refl. simpl. rewrite app_nil_r.
  now apply filter_absent.
Qed.

Lemma editor_eta (st : EditorState) (a : Annotation) :
  a = annotations st ->
  mkEditor (numPages st) (currentPage st) (scale st) (activeTool st)
    (showSignatureModal st) (signatureToPlace st) (isProcessing st) a = st.
Proof. intros ->. now destruct st. Qed.

(** X1. Adding an annotation under an identifier that its collection does
    not hold yet, then deleting that identifier, gives back the editor state
    it started from: signatures, texts and highlights alike. *)
Theorem X1_add_then_delete (st : EditorState) (g : string)
    (s : SignatureData.omit_id) (t : TextAnnotation.omit_id)
    (h : HighlightAnnotation.omit_id) :
  ~ present g (annotations st) ->
  handleDeleteSignature g (handleAddSignature g s st) = st
  /\ handleDeleteText g (handleAddText g t st) = st
  /\ handleDeleteHighlight g (handleAddHighlight g h st) = st.
Proof.
  intros Hfresh.
  assert (Hs : forall b, In b (signatures (annotations st)) ->
                         SignatureData.id b <> g).
  { intros b Hb E. apply Hfresh. left. now exists b. }
  assert (Ht : forall b, In b (texts (annotations st)) ->
                         TextAnnotation.id b <> g).
  { intros b Hb E. apply Hfresh. right. left. now exists b. }
  assert (Hh : forall b, In b (highlights (annotations st)) ->
                         HighlightAnnotation.id b <> g).
  { intros b Hb E. apply Hfresh. right. right. now exists b. }
  unfold handleDeleteSignature, handleAddSignature, handleDeleteText,
    handleAddText, handleDeleteHighlight, handleAddHighlight, setAnnotations.
  simpl. repeat split; apply editor_eta;
    destruct (annotations st) as [ss ts hs]; simpl in *; f_equal.
  - now apply (filter_snoc_fresh SignatureData.id).
  - now apply (filter_snoc_fresh TextAnnotation.id).
  - now apply (filter_snoc_fresh HighlightAnnotation.id).
Qed.

Lemma X1_add_then_delete_witness :
  handleDeleteSignature "fresh01"
    (handleAddSignature "fresh01"
       (SignatureData.mk_omit 1 2 150 60 "data:," 1)
       (editor Sample.selecting)) = editor Sample.selecting
  /\ handleDeleteText "fresh01"
       (handleAddText "fresh01"
          (TextAnnotation.mk_omit 1 2 "" 16 "#1a1a2e" 1)
          (editor Sample.selecting)) = editor Sample.selecting
  /\ handleDeleteHighlight "fresh01"
       (handleAddHighlight "fresh01"
          (HighlightAnnotation.mk_omit 1 2 20 10 1)
          (editor Sample.selecting)) = editor Sample.selecting.
Proof.
  apply (X1_add_then_delete (editor Sample.selecting) "fresh01").
  intros [[s [Hin E]] | [[t [Hin E]] | [h [Hin E]]]];
    simpl in Hin; intuition (subst; discriminate E).
Defined.

Lemma filter_removes {A : Type} (key : A -> string) (i : string) (l : list A) :
  forall a, In a (List.filter (fun b => negb (String.eqb (key b) i)) l) ->
            key a <> i.
Proof.
  intros a Ha E. apply List.filter_In in Ha as [_ Ha].
  rewrite E, String.eqb_refl in Ha. discriminate.
Qed.

(** X2. Deleting an identifier removes every signature (or text) that
    carries it and keeps all the others; a second deletion, or an update
    that arrives after the deletion, changes nothing more. *)
Theorem X2_delete_then_update (st : EditorState) (i : string)
    (us : SignatureData.partial) (ut : TextAnnotation.partial) :
  (forall s, In s (signatures (annotations (handleDeleteSignature i st)))
             <-> In s (signatures (annotations st)) /\ SignatureData.id s <> i)
  /\ (forall t, In t (texts (annotations (handleDeleteText i st)))
                <-> In t (texts (annotations st)) /\ TextAnnotation.id t <> i)
  /\ handleDeleteSignature i (handleDeleteSignature i st)
     = handleDeleteSignature i st
  /\ handleDeleteText i (handleDeleteText i st) = handleDeleteText i st
  /\ handleUpdateSignature i us (handleDeleteSignature i st)
     = handleDeleteSignature i st
  /\ handleUpdateText i ut (handleDeleteText i st) = handleDeleteText i st.
Proof.
  split; [|split]; [| |repeat split].
  - intros s. simpl. rewrite List.filter_In.
    destruct (String.eqb_spec (SignatureData.id s) i); simpl; intuition congruence.
  - intros t. simpl. rewrite List.filter_In.
    destruct (String.eqb_spec (TextAnnotation.id t) i); simpl; intuition congruence.
  - apply setAnnotations_same. simpl. f_equal.
    apply (filter_absent SignatureData.id), filter_removes.
  - apply setAnnotations_same. simpl. f_equal.
    apply (filter_absent TextAnnotation.id), filter_removes.
  - apply setAnnotations_same. simpl. f_equal.
    apply (map_absent SignatureData.id), filter_removes.
  - apply setAnnotations_same. simpl. f_equal.
    apply (map_absent TextAnnotation.id), filter_removes.
Qed.

Lemma spread_merge (s : SignatureData.t) (u1 u2 : SignatureData.partial) :
  SignatureData.spread (SignatureData.spread s u1) u2
  = SignatureData.spread s (mergeSignatureUpdates u1 u2).
Proof.
  destruct u1 as [a1 b1 c1 d1 e1 f1 g1], u2 as [a2 b2 c2 d2 e2 f2 g2].
  unfold SignatureData.spread, mergeSignatureUpdates. simpl.
  destruct a2, b2, c2, d2, e2, f2, g2; reflexivity.
Qed.

(** X3. Two updates of the same signatures, the first of which leaves the
    identifier alone, amount to one update with the fields of the second
    laid over those of the first; an update that leaves the identifier
    alone keeps the identifiers, their order and the other collections. *)
Theorem X3_updates_merge (st : EditorState) (i : string)
    (u1 u2 : SignatureData.partial) :
  SignatureData.id' u1 = None ->
  handleUpdateSignature i u2 (handleUpdateSignature i u1 st)
  = handleUpdateSignature i (mergeSignatureUpdates u1 u2) st
  /\ List.map SignatureData.id
       (signatures (annotations (handleUpdateSignature i u1 st)))
     = List.map SignatureData.id (signatures (annotations st))
  /\ texts (annotations (handleUpdateSignature i u1 st))
     = texts (annotations st)
  /\ highlights (annotations (handleUpdateSignature i u1 st))
     = highlights (annotations st).
Proof.
  intros Hid. split; [|split; [|split; reflexivity]].
  - unfold handleUpdateSignature, setAnnotations. simpl. do 2 f_equal.
    rewrite List.map_map. apply List.map_ext. intros s.
    destruct (String.eqb_spec (SignatureData.id s) i) as [E|N].
    + replace (SignatureData.id (SignatureData.spread s u1)) with i
        by (simpl; now rewrite Hid).
      rewrite String.eqb_refl. apply spread_merge.
    + now destruct (String.eqb_spec (SignatureData.id s) i).
  - simpl. rewrite List.map_map. apply List.map_ext. intros s.
    destruct (String.eqb (SignatureData.id s) i); [|reflexivity].
    simpl. now rewrite Hid.
Qed.

Lemma X3_updates_merge_witness :
  handleUpdateSignature "a1b2c3d"
    (SignatureData.mk_partial None (Some 7%Q) None None None None None)
    (handleUpdateSignature "a1b2c3d"
       (SignatureData.mk_partial None (Some 5%Q) (Some 6%Q) None None None None)
       (editor Sample.selecting))
  = handleUpdateSignature "a1b2c3d"
      (SignatureData.mk_partial None (Some 7%Q) (Some 6%Q) None None None None)
      (editor Sample.selecting).
Proof.
  exact (proj1 (X3_updates_merge (editor Sample.selecting) "a1b2c3d"
                  (SignatureData.mk_partial None (Some 5%Q) (Some 6%Q)
                     None None None None)
                  (SignatureData.mk_partial None (Some 7%Q) None
                     None None None None) eq_refl)).
Defined.

(** ** Drag *)

Lemma spread_position (s : SignatureData.t) (x y : Q) :
  SignatureData.spread s
    (SignatureData.mk_partial None (Some x) (Some y) None None None None)
  = signatureAt (mkPoint x y) s.
Proof. reflexivity. Qed.

Lemma text_spread_position (t : TextAnnotation.t) (x y : Q) :
  TextAnnotation.spread t
    (TextAnnotation.mk_partial None (Some x) (Some y) None None None None)
  = textAt (mkPoint x y) t.
Proof. reflexivity. Qed.

Lemma findSignature_some (i : string) (l : list SignatureData.t) :
  (exists s, In s l /\ SignatureData.id s = i) ->
  exists t, findSignature i l = Some t.
Proof.
  intros [s [Hin <-]]. now apply findSignature_In.
Qed.

Lemma findSignature_none (i : string) (l : list SignatureData.t) :
  (forall s, In s l -> SignatureData.id s <> i) -> findSignature i l = None.
Proof.
  intros H. unfold findSignature.
  destruct (List.find _ l) as [t|] eqn:E; [|reflexivity].
  apply List.find_some in E as [Hin Ht].
  apply String.eqb_eq in Ht. now destruct (H t Hin).
Qed.

Lemma findText_some (i : string) (l : list TextAnnotation.t) :
  (exists t, In t l /\ TextAnnotation.id t = i) ->
  exists t, findText i l = Some t.
Proof.
  intros [t [Hin <-]]. unfold findText.
  induction l as [|u l IH]; [destruct Hin|]. simpl.
  destruct (String.eqb_spec (TextAnnotation.id u) (TextAnnotation.id t)).
  - now exists u.
  - destruct Hin as [->|Hin]; [contradiction | now apply IH].
Qed.

Lemma findText_none (i : string) (l : list TextAnnotation.t) :
  (forall t, In t l -> TextAnnotation.id t <> i) -> findText i l = None.
Proof.
  intros H. unfold findText.
  destruct (List.find _ l) as [t|] eqn:E; [|reflexivity].
  apply List.find_some in E as [Hin Ht].
  apply String.eqb_eq in Ht. now destruct (H t Hin).
Qed.

(** One move of a drag that holds a signature. *)
Lemma drag_signature_step (c : option DOMRect.t) (e : MouseEvent) (b : App)
    (i : string) :
  draggingId (viewer b) = Some i -> i <> "" ->
  resizing (viewer b) = None ->
  Tool_eqb (activeTool (editor b)) highlight = false ->
  (exists s, In s (signatures (annotations (editor b)))
             /\ SignatureData.id s = i) ->
  let p := getRelativePosition c (scale (editor b)) e in
  let off := dragOffset (viewer b) in
  handleMouseMove c e b
  = mkApp (handleUpdateSignature i
             (SignatureData.mk_partial None (Some (px p - px off)%Q)
                (Some (py p - py off)%Q) None None None None) (editor b))
      (viewer b).
Proof.
  intros Hd Hi Hr Ht Hs p off.
  destruct (findSignature_some i _ Hs) as [t Hfind].
  assert (Htruthy : JS.truthy_string i = true).
  { unfold JS.truthy_string. now destruct (String.eqb_spec i ""). }
  unfold handleMouseMove. rewrite Hr, Hd, Htruthy, Hfind, Ht.
  destruct b as [ed v]. simpl. now destruct (highlightStart v).
Qed.

(** One move of a drag that holds a text. *)
Lemma drag_text_step (c : option DOMRect.t) (e : MouseEvent) (b : App)
    (i : string) :
  draggingId (viewer b) = Some i -> i <> "" ->
  resizing (viewer b) = None ->
  Tool_eqb (activeTool (editor b)) highlight = false ->
  (forall s, In s (signatures (annotations (editor b))) ->
             SignatureData.id s <> i) ->
  (exists t, In t (texts (annotations (editor b)))
             /\ TextAnnotation.id t = i) ->
  let p := getRelativePosition c (scale (editor b)) e in
  let off := dragOffset (viewer b) in
  handleMouseMove c e b
  = mkApp (handleUpdateText i
             (TextAnnotation.mk_partial None (Some (px p - px off)%Q)
                (Some (py p - py off)%Q) None None None None) (editor b))
      (viewer b).
Proof.
  intros Hd Hi Hr Ht Hs Htx p off.
  destruct (findText_some i _ Htx) as [t Hfind].
  assert (Htruthy : JS.truthy_string i = true).
  { unfold JS.truthy_string. now destruct (String.eqb_spec i ""). }
  unfold handleMouseMove.
  rewrite Hr, Hd, Htruthy, (findSignature_none i _ Hs), Hfind, Ht.
  destruct b as [ed v]. simpl. now destruct (highlightStart v).
Qed.

Lemma relocate_twice (i : string) (p q : Point) (l : list SignatureData.t) :
  List.map (fun t => if String.eqb (SignatureData.id t) i
                then signatureAt q t else t)
    (List.map (fun t => if String.eqb (SignatureData.id t) i
                  then signatureAt p t else t) l)
  = List.map (fun t => if String.eqb (SignatureData.id t) i
                then signatureAt q t else t) l.
Proof.
  rewrite List.map_map. apply List.map_ext. intros t.
  destruct (String.eqb (SignatureData.id t) i) eqn:E; [|now rewrite E].
  simpl. now rewrite E.
Qed.

Lemma relocate_text_twice (i : string) (p q : Point)
    (l : list TextAnnotation.t) :
  List.map (fun t => if String.eqb (TextAnnotation.id t) i
                then textAt q t else t)
    (List.map (fun t => if String.eqb (TextAnnotation.id t) i
                  then textAt p t else t) l)
  = List.map (fun t => if String.eqb (TextAnnotation.id t) i
                then textAt q t else t) l.
Proof.
  rewrite List.map_map. apply List.map_ext. intros t.
  destruct (String.eqb (TextAnnotation.id t) i) eqn:E; [|now rewrite E].
  simpl. now rewrite E.
Qed.

Lemma drag_signature_moves (i : string) (c : option DOMRect.t)
    (e : MouseEvent) (moves : list (option DOMRect.t * MouseEvent)) :
  forall b,
    draggingId (viewer b) = Some i -> i <> "" ->
    resizing (viewer b) = None ->
    Tool_eqb (activeTool (editor b)) highlight = false ->
    (exists s, In s (signatures (annotations (editor b)))
               /\ SignatureData.id s = i) ->
    let p := getRelativePosition c (scale (editor b)) e in
    let off := dragOffset (viewer b) in
    let b' := moveAll (moves ++ [(c, e)])%list b in
    signatures (annotations (editor b'))
    = List.map (fun t => if String.eqb (SignatureData.id t) i
                  then signatureAt (mkPoint (px p - px off) (py p - py off)) t
                  else t)
        (signatures (annotations (editor b)))
    /\ texts (annotations (editor b')) = texts (annotations (editor b))
    /\ highlights (annotations (editor b'))
       = highlights (annotations (editor b))
    /\ viewer b' = viewer b.
Proof.
  induction moves as [|[cm em] moves IH]; intros b Hd Hi Hr Ht Hs p off b'.
  - subst b'. simpl. rewrite (drag_signature_step c e b i Hd Hi Hr Ht Hs).
    simpl. repeat split.
  - subst b'. simpl.
    rewrite (drag_signature_step cm em b i Hd Hi Hr Ht Hs).
    set (b1 := mkApp _ (viewer b)).
    destruct (IH b1) as [S [T [H V]]]; try assumption.
    { destruct Hs as [s [Hin Hid]].
      exists (SignatureData.spread s
                (SignatureData.mk_partial None
                   (Some (px (getRelativePosition cm (scale (editor b)) em)
                          - px (dragOffset (viewer b)))%Q)
                   (Some (py (getRelativePosition cm (scale (editor b)) em)
                          - py (dragOffset (viewer b)))%Q)
                   None None None None)).
      split; [|exact Hid]. simpl. apply in_map_iff. exists s.
      rewrite Hid, String.eqb_refl. now split. }
    rewrite S, T, H, V. subst b1. simpl.
    repeat split.
    exact (relocate_twice i
             (mkPoint
                (px (getRelativePosition cm (scale (editor b)) em)
                 - px (dragOffset (viewer b)))
                (py (getRelativePosition cm (scale (editor b)) em)
                 - py (dragOffset (viewer b)))) _ _).
Qed.

Lemma drag_text_moves (i : string) (c : option DOMRect.t)
    (e : MouseEvent) (moves : list (option DOMRect.t * MouseEvent)) :
  forall b,
    draggingId (viewer b) = Some i -> i <> "" ->
    resizing (viewer b) = None ->
    Tool_eqb (activeTool (editor b)) highlight = false ->
    (forall s, In s (signatures (annotations (editor b))) ->
               SignatureData.id s <> i) ->
    (exists t, In t (texts (annotations (editor b)))
               /\ TextAnnotation.id t = i) ->
    let p := getRelativePosition c (scale (editor b)) e in
    let off := dragOffset (viewer b) in
    let b' := moveAll (moves ++ [(c, e)])%list b in
    texts (annotations (editor b'))
    = List.map (fun t => if String.eqb (TextAnnotation.id t) i
                  then textAt (mkPoint (px p - px off) (py p - py off)) t
                  else t)
        (texts (annotations (editor b)))
    /\ signatures (annotations (editor b'))
       = signatures (annotations (editor b))
    /\ highlights (annotations (editor b'))
       = highlights (annotations (editor b))
    /\ viewer b' = viewer b.
Proof.
  induction moves as [|[cm em] moves IH]; intros b Hd Hi Hr Ht Hs Hx p off b'.
  - subst b'. simpl. rewrite (drag_text_step c e b i Hd Hi Hr Ht Hs Hx).
    simpl. repeat split.
  - subst b'. simpl.
    rewrite (drag_text_step cm em b i Hd Hi Hr Ht Hs Hx).
    set (b1 := mkApp _ (viewer b)).
    destruct (IH b1) as [T [S [H V]]]; try assumption.
    { destruct Hx as [t [Hin Hid]].
      exists (TextAnnotation.spread t
                (TextAnnotation.mk_partial None
                   (Some (px (getRelativePosition cm (scale (editor b)) em)
                          - px (dragOffset (viewer b)))%Q)
                   (Some (py (getRelativePosition cm (scale (editor b)) em)
                          - py (dragOffset (viewer b)))%Q)
                   None None None None)).
      split; [|exact Hid]. simpl. apply in_map_iff. exists t.
      rewrite Hid, String.eqb_refl. now split. }
    rewrite T, S, H, V. subst b1. simpl.
    repeat split.
    exact (relocate_text_twice i
             (mkPoint
                (px (getRelativePosition cm (scale (editor b)) em)
                 - px (dragOffset (viewer b)))
                (py (getRelativePosition cm (scale (editor b)) em)
                 - py (dragOffset (viewer b)))) _ _).
Qed.

(** X4. A drag of a signature of the store, under a tool other than
    highlight and with no resize recorded: after the press and any number of
    moves, every signature with that identifier sits where the press found
    the dragged one, displaced by the vector from the press to the last
    pointer position, whatever the moves in between; its size, payload and
    page, the other signatures, the texts and the highlights are as before
    the press. *)
Theorem X4_drag_signature (c0 c : option DOMRect.t) (e0 e : MouseEvent)
    (moves : list (option DOMRect.t * MouseEvent)) (s : SignatureData.t)
    (a : App) :
  Tool_eqb (activeTool (editor a)) highlight = false ->
  resizing (viewer a) = None ->
  In s (signatures (annotations (editor a))) ->
  SignatureData.id s <> "" ->
  let p0 := getRelativePosition c0 (scale (editor a)) e0 in
  let p := getRelativePosition c (scale (editor a)) e in
  let target := dragged p0 (SignatureData.x s) (SignatureData.y s) p in
  let moved :=
    moveAll (moves ++ [(c, e)])%list
      (startDrag c0 e0 (SignatureData.id s) (SignatureData.x s)
         (SignatureData.y s) a) in
  signatures (annotations (editor moved))
  = List.map (fun t => if String.eqb (SignatureData.id t) (SignatureData.id s)
                then signatureAt target t else t)
      (signatures (annotations (editor a)))
  /\ texts (annotations (editor moved)) = texts (annotations (editor a))
  /\ highlights (annotations (editor moved))
     = highlights (annotations (editor a))
  /\ (px target == SignatureData.x s + (px p - px p0))%Q
  /\ (py target == SignatureData.y s + (py p - py p0))%Q.
Proof.
  intros Htool Hr Hin Hid p0 p target moved.
  assert (Hstart : startDrag c0 e0 (SignatureData.id s) (SignatureData.x s)
                     (SignatureData.y s) a
                   = mkApp (editor a)
                       (setDragOffset
                          (mkPoint (px p0 - SignatureData.x s)
                             (py p0 - SignatureData.y s))
                          (setDraggingId (Some (SignatureData.id s))
                             (viewer a)))).
  { unfold startDrag. now rewrite Htool. }
  subst moved. rewrite Hstart.
  set (b0 := mkApp (editor a) _).
  destruct (drag_signature_moves (SignatureData.id s) c e moves b0)
    as [S [T [H _]]];
    [reflexivity | exact Hid | exact Hr | exact Htool | now exists s |].
  rewrite S, T, H. subst b0. simpl.
  repeat split; unfold target, dragged; simpl; ring.
Qed.

Lemma X4_drag_signature_witness :
  signatures (annotations (editor
    (moveAll [(Sample.origin, Sample.at_ 300 300);
              (Sample.origin, Sample.at_ 150 130)] Demo.grabbed)))
  = [signatureAt (dragged (mkPoint (120 / 1) (110 / 1)) 100 100
                    (mkPoint (150 / 1) (130 / 1))) Sample.sigA;
     Sample.sigLost].
Proof.
  exact (proj1 (X4_drag_signature Sample.origin Sample.origin
                  (Sample.at_ 120 110) (Sample.at_ 150 130)
                  [(Sample.origin, Sample.at_ 300 300)] Sample.sigA
                  Sample.selecting eq_refl eq_refl (or_introl eq_refl)
                  ltac:(discriminate))).
Defined.

(** X5. The same for a text whose identifier no signature carries: after
    the press and any number of moves it sits displaced by the vector from
    the press to the last pointer position; its content, font size, colour
    and page, and everything else in the store, are as before. *)
Theorem X5_drag_text (c0 c : option DOMRect.t) (e0 e : MouseEvent)
    (moves : list (option DOMRect.t * MouseEvent)) (t : TextAnnotation.t)
    (a : App) :
  Tool_eqb (activeTool (editor a)) highlight = false ->
  resizing (viewer a) = None ->
  In t (texts (annotations (editor a))) ->
  TextAnnotation.id t <> "" ->
  (forall s, In s (signatures (annotations (editor a))) ->
             SignatureData.id s <> TextAnnotation.id t) ->
  let p0 := getRelativePosition c0 (scale (editor a)) e0 in
  let p := getRelativePosition c (scale (editor a)) e in
  let target := dragged p0 (TextAnnotation.x t) (TextAnnotation.y t) p in
  let moved :=
    moveAll (moves ++ [(c, e)])%list
      (startDrag c0 e0 (TextAnnotation.id t) (TextAnnotation.x t)
         (TextAnnotation.y t) a) in
  texts (annotations (editor moved))
  = List.map (fun u => if String.eqb (TextAnnotation.id u) (TextAnnotation.id t)
                then textAt target u else u)
      (texts (annotations (editor a)))
  /\ signatures (annotations (editor moved))
     = signatures (annotations (editor a))
  /\ highlights (annotations (editor moved))
     = highlights (annotations (editor a))
  /\ (px target == TextAnnotation.x t + (px p - px p0))%Q
  /\ (py target == TextAnnotation.y t + (py p - py p0))%Q.
Proof.
  intros Htool Hr Hin Hid Hsig p0 p target moved.
  assert (Hstart : startDrag c0 e0 (TextAnnotation.id t) (TextAnnotation.x t)
                     (TextAnnotation.y t) a
                   = mkApp (editor a)
                       (setDragOffset
                          (mkPoint (px p0 - TextAnnotation.x t)
                             (py p0 - TextAnnotation.y t))
                          (setDraggingId (Some (TextAnnotation.id t))
                             (viewer a)))).
  { unfold startDrag. now rewrite Htool. }
  subst moved. rewrite Hstart.
  set (b0 := mkApp (editor a) _).
  destruct (drag_text_moves (TextAnnotation.id t) c e moves b0)
    as [T [S [H _]]];
    [reflexivity | exact Hid | exact Hr | exact Htool | exact Hsig
    | now exists t |].
  rewrite S, T, H. subst b0. simpl.
  repeat split; unfold target, dragged; simpl; ring.
Qed.

Lemma X5_drag_text_witness :
  texts (annotations (editor
    (moveAll [(Sample.origin, Sample.at_ 70 80)]
       (startDrag Sample.origin (Sample.at_ 45 55) "t000001" 40 50
          Sample.selecting))))
  = [textAt (dragged (mkPoint (45 / 1) (55 / 1)) 40 50
               (mkPoint (70 / 1) (80 / 1))) Sample.textA;
     Sample.textBlank].
Proof.
  apply (X5_drag_text Sample.origin Sample.origin (Sample.at_ 45 55)
           (Sample.at_ 70 80) [] Sample.textA Sample.selecting
           eq_refl eq_refl (or_introl eq_refl)).
  - discriminate.
  - intros s [<-|[<-|[]]]; discriminate.
Defined.

(** X6. A move that arrives after the annotation it acts on was deleted
    leaves the store alone: a resize move after the signature was deleted,
    a drag move after the dragged signature was deleted when no text
    carries the identifier. *)
Theorem X6_move_after_delete (c : option DOMRect.t) (e : MouseEvent)
    (a : App) (i : string) :
  (forall r, resizing (viewer a) = Some r -> resize_id r = i) ->
  (resizing (viewer a) = None -> draggingId (viewer a) = Some i) ->
  (forall t, In t (texts (annotations (editor a))) ->
             TextAnnotation.id t <> i) ->
  editor (handleMouseMove c e (onDeleteSignature i a))
  = editor (onDeleteSignature i a).
Proof.
  intros Hres Hdrag Htext.
  set (a1 := onDeleteSignature i a).
  assert (Hnone : findSignature i (signatures (annotations (editor a1))) = None).
  { apply findSignature_none. subst a1. simpl.
    apply (filter_removes SignatureData.id). }
  assert (Hnot : findText i (texts (annotations (editor a1))) = None).
  { apply findText_none. exact Htext. }
  assert (Hv : viewer a1 = viewer a) by reflexivity.
  unfold handleMouseMove. rewrite Hv.
  destruct (resizing (viewer a)) as [r|] eqn:Er.
  - rewrite (Hres r eq_refl), Hnone.
    destruct (highlightStart (viewer a));
      [destruct (Tool_eqb (activeTool (editor a1)) highlight)|]; reflexivity.
  - rewrite (Hdrag eq_refl), Hnone, Hnot.
    destruct (JS.truthy_string i);
      (destruct (highlightStart (viewer a));
       [destruct (Tool_eqb (activeTool (editor a1)) highlight)|]); reflexivity.
Qed.

Lemma X6_move_after_delete_witness :
  editor (handleMouseMove Sample.origin (Sample.at_ 150 130)
            (onDeleteSignature "a1b2c3d" Demo.grabbed))
  = editor (onDeleteSignature "a1b2c3d" Demo.grabbed).
Proof.
  apply (X6_move_after_delete Sample.origin (Sample.at_ 150 130)
           Demo.grabbed "a1b2c3d").
  - discriminate.
  - reflexivity.
  - intros t [<-|[<-|[]]]; discriminate.
Defined.

(** ** The pending stamp *)

Lemma toolChange_with_stamp (t : Tool) (st : EditorState) (url : string) :
  signatureToPlace st = Some url -> url <> "" ->
  handleToolChange t st = setActiveTool t st.
Proof.
  intros Hs Hu. unfold handleToolChange. rewrite Hs. simpl.
  unfold JS.truthy_string. destruct (String.eqb_spec url ""); [contradiction|].
  simpl. now rewrite andb_false_r.
Qed.

Lemma toolChanges_with_stamp (tools : list Tool) (url : string) :
  url <> "" ->
  forall st, signatureToPlace st = Some url ->
    let st' := fold_left (fun s t => handleToolChange t s) tools st in
    signatureToPlace st' = Some url
    /\ showSignatureModal st' = showSignatureModal st
    /\ annotations st' = annotations st
    /\ currentPage st' = currentPage st
    /\ scale st' = scale st.
Proof.
  intros Hu. induction tools as [|t tools IH]; intros st Hs; simpl.
  - now repeat split.
  - rewrite (toolChange_with_stamp t st url Hs Hu).
    destruct (IH (setActiveTool t st) Hs) as [H1 [H2 [H3 [H4 H5]]]].
    now repeat split.
Qed.

(** X7. Choosing the sign tool with no stamp waiting opens the signature
    modal.  Once a signature is saved, the stamp waits through any number
    of tool changes, none of which reopens the modal or touches the store;
    back under the sign tool, the next click outside a gesture places
    exactly that payload, 150 by 60, and uses the stamp up, so that choosing
    the sign tool again opens the modal again. *)
Theorem X7_stamp_waits_for_its_click (url : string) (tools : list Tool)
    (c : option DOMRect.t) (g : string) (e : MouseEvent) (a : App) :
  url <> "" ->
  let saved := handleSignatureSave url (editor a) in
  let switched :=
    handleToolChange sign
      (fold_left (fun s t => handleToolChange t s) tools saved) in
  let p := getRelativePosition c (scale (editor a)) e in
  let placed := handleClick c g e (mkApp switched (viewer a)) in
  (signatureToPlace (editor a) = None ->
   showSignatureModal (handleToolChange sign (editor a)) = true)
  /\ signatureToPlace switched = Some url
  /\ showSignatureModal switched = false
  /\ annotations switched = annotations (editor a)
  /\ (dragActive a = false -> resizeActive a = false ->
      signatures (annotations (editor placed))
      = (signatures (annotations (editor a))
         ++ [SignatureData.mk g (px p) (py p) 150 60 url
               (currentPage (editor a))])%list
      /\ signatureToPlace (editor placed) = None
      /\ showSignatureModal (editor placed) = false
      /\ showSignatureModal (handleToolChange sign (editor placed)) = true).
Proof.
  intros Hu saved switched p placed.
  assert (Hsaved : signatureToPlace saved = Some url) by reflexivity.
  destruct (toolChanges_with_stamp tools url Hu saved Hsaved)
    as [H1 [H2 [H3 [H4 H5]]]].
  set (mid := fold_left _ tools saved) in *.
  assert (Hsw : switched = setActiveTool sign mid)
    by (apply (toolChange_with_stamp sign mid url H1 Hu)).
  assert (Htr : JS.truthy_string url = true).
  { unfold JS.truthy_string. now destruct (String.eqb_spec url ""). }
  split; [|split; [|split; [|split]]].
  - intros Hn. unfold handleToolChange. now rewrite Hn.
  - now rewrite Hsw.
  - now rewrite Hsw.
  - now rewrite Hsw.
  - intros Hd Hr. subst placed. unfold handleClick, dragActive, resizeActive in *.
    simpl. rewrite Hd, Hr, Hsw. simpl. rewrite H1. simpl. rewrite Htr. simpl.
    rewrite H3, H4, H5. repeat split. now rewrite H2.
Qed.

Lemma X7_stamp_waits_for_its_click_witness :
  signatures (annotations (editor
    (handleClick Sample.origin "n3wid00" (Sample.at_ 220 330)
       (mkApp
          (handleToolChange sign
             (fold_left (fun s t => handleToolChange t s) [select; text]
                (handleSignatureSave "data:image/png;base64,DD"
                   (editor Sample.selecting))))
          (viewer Sample.selecting)))))
  = [Sample.sigA; Sample.sigLost;
     SignatureData.mk "n3wid00" (220 / 1) (330 / 1) 150 60
       "data:image/png;base64,DD" 1].
Proof.
  destruct (X7_stamp_waits_for_its_click "data:image/png;base64,DD"
              [select; text] Sample.origin "n3wid00" (Sample.at_ 220 330)
              Sample.selecting ltac:(discriminate)) as [_ [_ [_ [_ H]]]].
  exact (proj1 (H eq_refl eq_refl)).
Defined.

(** ** Texts: creation and editing *)

(** X8. Under the text tool a click outside a gesture appends exactly one
    text at the click position: empty, of size 16 and colour [#1a1a2e], on
    the current page.  The click leaves the viewer as it was, so the new
    text is not put into edit mode, and it leaves the stamp and the other
    collections alone; as long as the text stays empty the export draws
    nothing for it. *)
Theorem X8_text_click (c : option DOMRect.t) (g : string) (e : MouseEvent)
    (a : App) :
  activeTool (editor a) = text ->
  dragActive a = false -> resizeActive a = false ->
  let p := getRelativePosition c (scale (editor a)) e in
  let made :=
    TextAnnotation.mk g (px p) (py p) "" 16 "#1a1a2e"
      (currentPage (editor a)) in
  let a' := handleClick c g e a in
  texts (annotations (editor a'))
  = (texts (annotations (editor a)) ++ [made])%list
  /\ signatures (annotations (editor a'))
     = signatures (annotations (editor a))
  /\ highlights (annotations (editor a'))
     = highlights (annotations (editor a))
  /\ signatureToPlace (editor a') = signatureToPlace (editor a)
  /\ viewer a' = viewer a
  /\ forall P d, bakeText P made d = Some (tt, d).
Proof.
  intros Ht Hd Hr p made a'. subst a'.
  unfold handleClick, dragActive, resizeActive in *.
  rewrite Hd, Hr, Ht. simpl. repeat split.
Qed.

Lemma X8_text_click_witness :
  texts (annotations (editor
    (handleClick Sample.origin "t3xt000" (Sample.at_ 60 70) Demo.typing)))
  = [Sample.textA; Sample.textBlank;
     TextAnnotation.mk "t3xt000" (60 / 1) (70 / 1) "" 16 "#1a1a2e" 1].
Proof.
  exact (proj1 (X8_text_click Sample.origin "t3xt000" (Sample.at_ 60 70)
                  Demo.typing eq_refl eq_refl eq_refl)).
Defined.

Lemma inked_blank (t : TextAnnotation.t) :
  inked t = negb (JS.blank (TextAnnotation.text t)).
Proof.
  unfold inked, JS.truthy_string.
  destruct (JS.blank (TextAnnotation.text t)) eqn:E.
  - apply trim_empty in E. now rewrite E.
  - destruct (String.eqb_spec (JS.trim (TextAnnotation.text t)) "") as [H|H];
      [|reflexivity].
    apply trim_empty in H. congruence.
Qed.

(** X9. Typing [v] into a text of the store and then leaving the input, by
    blur or with the Enter key, ends the edit; if [v] is white space
    throughout, no text with that identifier is left in the store;
    otherwise the text is in the store with the content [v] and its
    position, size, colour and page.  Another key leaves everything as it
    was; signatures and highlights are never touched. *)
Theorem X9_text_edit (t : TextAnnotation.t) (v key : string) (a : App) :
  In t (texts (annotations (editor a))) ->
  let shown :=
    TextAnnotation.mk (TextAnnotation.id t) (TextAnnotation.x t)
      (TextAnnotation.y t) v (TextAnnotation.fontSize t)
      (TextAnnotation.color t) (TextAnnotation.page t) in
  let typed := textOnChange t v a in
  let left := textOnBlur shown typed in
  In shown (texts (annotations (editor typed)))
  /\ editingTextId (viewer left) = None
  /\ (JS.blank v = true ->
      forall u, In u (texts (annotations (editor left))) ->
                TextAnnotation.id u <> TextAnnotation.id t)
  /\ (JS.blank v = false -> In shown (texts (annotations (editor left))))
  /\ signatures (annotations (editor left))
     = signatures (annotations (editor a))
  /\ highlights (annotations (editor left))
     = highlights (annotations (editor a))
  /\ textOnKeyDown shown "Enter" typed = left
  /\ (key <> "Enter" -> textOnKeyDown shown key typed = typed).
Proof.
  intros Hin shown typed left.
  assert (Hshown : In shown (texts (annotations (editor typed)))).
  { subst typed. simpl. apply in_map_iff. exists t.
    rewrite String.eqb_refl. now split. }
  assert (Hink : inked shown = negb (JS.blank v)) by apply inked_blank.
  unfold inked in Hink. simpl in Hink.
  split; [exact Hshown|]. split; [|split; [|split; [|split; [|split; [|split]]]]].
  - subst left. unfold textOnBlur. simpl.
    now destruct (negb (JS.truthy_string (JS.trim v))).
  - intros Hb u Hu. subst left. unfold textOnBlur in Hu. simpl in Hu.
    rewrite Hink, Hb in Hu. simpl in Hu.
    exact (filter_removes TextAnnotation.id _ _ u Hu).
  - intros Hb. subst left. unfold textOnBlur. simpl.
    rewrite Hink, Hb. simpl. exact Hshown.
  - subst left. unfold textOnBlur. simpl.
    now destruct (negb (JS.truthy_string (JS.trim v))).
  - subst left. unfold textOnBlur. simpl.
    now destruct (negb (JS.truthy_string (JS.trim v))).
  - reflexivity.
  - intros Hk. unfold textOnKeyDown.
    now destruct (String.eqb_spec key "Enter").
Qed.

Lemma X9_text_edit_witness :
  In (TextAnnotation.mk "t000001" 40 50 "Signed" 16 "#1a1a2e" 1)
    (texts (annotations (editor
      (textOnBlur (TextAnnotation.mk "t000001" 40 50 "Signed" 16 "#1a1a2e" 1)
         (textOnChange Sample.textA "Signed" Sample.selecting))))).
Proof.
  destruct (X9_text_edit Sample.textA "Signed" "a" Sample.selecting
              (or_introl eq_refl)) as [_ [_ [_ [H _]]]].
  exact (H eq_refl).
Defined.

(** ** Highlights: made by a gesture, removed by a click *)

(** X10. A rubber-band gesture under the highlight tool followed by a
    click, under the select tool, on the highlight it made gives back the
    highlights there were, when the identifier is new to them; a click on
    a highlight under any tool but select, in any state, changes nothing:
    so it is for the click on the new highlight before the tool is
    changed. *)
Theorem X10_highlight_round_trip (c0 : option DOMRect.t) (e0 : MouseEvent)
    (moves : list (option DOMRect.t * MouseEvent)) (g : string)
    (h : HighlightAnnotation.t) (a : App) :
  activeTool (editor a) = highlight ->
  (forall k, In k (highlights (annotations (editor a))) ->
             HighlightAnnotation.id k <> g) ->
  HighlightAnnotation.id h = g ->
  let released := handleMouseUp g (moveAll moves (handleMouseDown c0 e0 a)) in
  let selecting := onEditor (handleToolChange select) released in
  highlights (annotations (editor (highlightOnClick h selecting)))
  = highlights (annotations (editor a))
  /\ signatures (annotations (editor (highlightOnClick h selecting)))
     = signatures (annotations (editor released))
  /\ texts (annotations (editor (highlightOnClick h selecting)))
     = texts (annotations (editor released))
  /\ highlightOnClick h released = released
  /\ forall k b, activeTool (editor b) <> select -> highlightOnClick k b = b.
Proof.
  intros Htool Hfresh Hid released selecting.
  destruct (moveAll_frame moves (handleMouseDown c0 e0 a))
    as [Mt [_ [_ [Mh _]]]].
  assert (Hdown : editor (handleMouseDown c0 e0 a) = editor a).
  { unfold handleMouseDown. now rewrite Htool. }
  rewrite Hdown in Mt, Mh.
  set (moved := moveAll moves (handleMouseDown c0 e0 a)) in *.
  assert (Hrel : activeTool (editor released) = highlight
                 /\ (highlights (annotations (editor released))
                     = highlights (annotations (editor a))
                     \/ exists k, HighlightAnnotation.id k = g
                          /\ highlights (annotations (editor released))
                             = (highlights (annotations (editor a))
                                ++ [k])%list)).
  { subst released. unfold handleMouseUp.
    destruct (tempHighlight (viewer moved)) as [th|]; simpl.
    - destruct (JS.gt (rect_width th) 10 && JS.gt (rect_height th) 5); simpl.
      + split; [now rewrite Mt|]. right. eexists. rewrite Mh.
        split; [|reflexivity]. reflexivity.
      + split; [now rewrite Mt | left; now rewrite Mh].
    - split; [now rewrite Mt | left; now rewrite Mh]. }
  destruct Hrel as [Rt Rh]. subst selecting. clearbody released.
  assert (Hclick : highlightOnClick h
                     (onEditor (handleToolChange select) released)
                   = onDeleteHighlight g
                       (onEditor (handleToolChange select) released)).
  { unfold highlightOnClick. now rewrite Hid. }
  rewrite Hclick. split; [|split; [|split; [|split]]].
  - simpl. destruct Rh as [-> | [k [Hk ->]]].
    + now apply (filter_absent HighlightAnnotation.id).
    + now apply (filter_snoc_fresh HighlightAnnotation.id).
  - reflexivity.
  - reflexivity.
  - unfold highlightOnClick. now rewrite Rt.
  - intros k b Hb. unfold highlightOnClick.
    destruct (activeTool (editor b)); try reflexivity. now destruct Hb.
Qed.

Lemma X10_highlight_round_trip_witness :
  highlights (annotations (editor
    (highlightOnClick (HighlightAnnotation.mk "h0000aa" 0 0 0 0 1)
       (onEditor (handleToolChange select)
          (handleMouseUp "h0000aa" Sample.swept)))))
  = [Sample.hlA; Sample.hlLost].
Proof.
  apply (X10_highlight_round_trip Sample.origin (Sample.at_ 20 30)
           Sample.sweep "h0000aa" (HighlightAnnotation.mk "h0000aa" 0 0 0 0 1)
           Sample.highlighting eq_refl).
  - intros k [<-|[<-|[]]]; discriminate.
  - reflexivity.
Defined.

(** ** What is shown is what is baked *)

Lemma shown_signatures (i : nat) (cp : Z) (l : list SignatureData.t) :
  cp = Z.of_nat i + 1 ->
  List.filter (fun s => drawnOn i (SignatureData.page s)) l
  = List.filter (fun s => SignatureData.page s =? cp) l.
Proof.
  intros ->. apply List.filter_ext. intros s. unfold drawnOn.
  destruct (Z.eqb_spec (SignatureData.page s - 1) (Z.of_nat i));
    destruct (Z.eqb_spec (SignatureData.page s) (Z.of_nat i + 1));
    try reflexivity; lia.
Qed.

Lemma shown_highlights (i : nat) (cp : Z) (l : list HighlightAnnotation.t) :
  cp = Z.of_nat i + 1 ->
  List.filter (fun h => drawnOn i (HighlightAnnotation.page h)) l
  = List.filter (fun h => HighlightAnnotation.page h =? cp) l.
Proof.
  intros ->. apply List.filter_ext. intros h. unfold drawnOn.
  destruct (Z.eqb_spec (HighlightAnnotation.page h - 1) (Z.of_nat i));
    destruct (Z.eqb_spec (HighlightAnnotation.page h) (Z.of_nat i + 1));
    try reflexivity; lia.
Qed.

Lemma shown_texts (i : nat) (cp : Z) (l : list TextAnnotation.t) :
  cp = Z.of_nat i + 1 ->
  List.filter (fun t => inked t && drawnOn i (TextAnnotation.page t)) l
  = List.filter inked (List.filter (fun t => TextAnnotation.page t =? cp) l).
Proof.
  intros ->. induction l as [|t l IH]; [reflexivity|]. simpl.
  unfold drawnOn at 1.
  destruct (Z.eqb_spec (TextAnnotation.page t - 1) (Z.of_nat i));
    destruct (Z.eqb_spec (TextAnnotation.page t) (Z.of_nat i + 1));
    try lia; simpl; destruct (inked t); simpl; now rewrite IH.
Qed.

(** X11. When the export succeeds, what it adds to the page that is on
    screen is, in order, one image per signature shown there, one text per
    text shown there whose content is not blank, and one rectangle per
    highlight shown there, each at the place the bake-out gives it. *)
Theorem X11_shown_is_baked (P : Platform) (file : File) (a : App)
    (baked : PDFDocument) (bytes buf : list Byte.byte) (doc : PDFDocument)
    (i : nat) (pg : PDFPage) :
  tryBake P file (annotations (editor a)) = Some (baked, bytes) ->
  arrayBuffer P file = Some buf -> load P buf = Some doc ->
  currentPage (editor a) = Z.of_nat i + 1 ->
  pages doc !! i = Some pg ->
  exists sigOps textOps hlOps,
    pages baked !! i
    = Some (mkPage (page_width pg) (page_height pg)
              (content pg ++ sigOps ++ textOps ++ hlOps)%list)
    /\ Forall2 (signatureDrawn (page_height pg)) (pageSignatures a) sigOps
    /\ Forall2 (textDrawn (page_height pg))
         (List.filter inked (pageTexts a)) textOps
    /\ Forall2 (highlightDrawn (page_height pg)) (pageHighlights a) hlOps.
Proof.
  intros Hrun Hbuf Hload Hcp Hpg. unfold tryBake in Hrun.
  rewrite Hbuf, Hload in Hrun.
  destruct (bakeAnnotations P (annotations (editor a)) doc)
    as [[[] d']|] eqn:Hbake; [|discriminate].
  destruct (save P d'); [|discriminate]. injection Hrun as <- _.
  destruct (bakeAnnotations_pages P _ doc d' Hbake) as [_ Hpages].
  destruct (Hpages i pg Hpg) as [sigOps [textOps [hlOps [E [F1 [F2 F3]]]]]].
  exists sigOps, textOps, hlOps. unfold pageSignatures, pageTexts, pageHighlights.
  rewrite <- (shown_signatures i _ _ Hcp), <- (shown_texts i _ _ Hcp),
    <- (shown_highlights i _ _ Hcp).
  now repeat split.
Qed.

Lemma X11_shown_is_baked_witness :
  exists baked sigOps textOps hlOps,
    pages baked !! 0%nat
    = Some (mkPage 595 842 ([] ++ sigOps ++ textOps ++ hlOps)%list)
    /\ Forall2 (signatureDrawn 842) [Sample.sigA] sigOps
    /\ Forall2 (textDrawn 842) [Sample.textA] textOps
    /\ Forall2 (highlightDrawn 842) [Sample.hlA] hlOps.
Proof.
  destruct (tryBake Sample.platform Sample.file
              (annotations (editor Sample.selecting)))
    as [[baked bytes]|] eqn:E; [|vm_compute in E; discriminate].
  exists baked.
  exact (X11_shown_is_baked Sample.platform Sample.file Sample.selecting
           baked bytes (file_bytes Sample.file)
           (mkDoc [mkPage 595 842 []] []) 0%nat (mkPage 595 842 [])
           E eq_refl eq_refl eq_refl eq_refl).
Defined.

(** ** Invariants of the editor screen *)

Lemma Forall_filter_keep {A : Type} (P : A -> Prop) (f : A -> bool)
    (l : list A) : Forall P l -> Forall P (List.filter f l).
Proof.
  intros H. apply List.Forall_forall. intros a Ha.
  apply List.filter_In in Ha as [Ha _].
  exact (proj1 (List.Forall_forall P l) H a Ha).
Qed.

Lemma Forall_map_if {A : Type} (P : A -> Prop) (f : A -> bool) (g : A -> A)
    (l : list A) :
  (forall a, P a -> P (g a)) -> Forall P l ->
  Forall P (List.map (fun a => if f a then g a else a) l).
Proof.
  intros Hg H. induction H as [|a l Ha _ IH]; simpl; constructor; auto.
  destruct (f a); auto.
Qed.

Lemma Forall_snoc {A : Type} (P : A -> Prop) (l : list A) (a : A) :
  Forall P l -> P a -> Forall P (l ++ [a])%list.
Proof.
  intros H Ha. apply List.Forall_app. split; [exact H | now constructor].
Qed.

Lemma Math_max_lower (lo v : Q) : (lo <= JS.Math_max lo v)%Q.
Proof.
  unfold JS.Math_max. destruct (Qle_bool lo v) eqn:E.
  - now apply Qle_bool_iff.
  - apply Qle_refl.
Qed.

Lemma resizeGeometry_min (r : Resizing) (p : Point) :
  (50 <= rect_width (resizeGeometry r p))%Q
  /\ (30 <= rect_height (resizeGeometry r p))%Q.
Proof.
  destruct (resizeGeometry_size r p) as [-> ->].
  split; apply Math_max_lower.
Qed.

Section EachAnnotation.

(** Properties of single annotations that every way of making or changing
    one in state [a] respects. *)
Variable a : App.
Variable Qs : SignatureData.t -> Prop.
Variable Qt : TextAnnotation.t -> Prop.
Variable Qh : HighlightAnnotation.t -> Prop.

Hypothesis placed : forall g x y url,
  Qs (SignatureData.mk g x y 150 60 url (currentPage (editor a))).
Hypothesis moved : forall s x y,
  Qs s -> Qs (signatureAt (mkPoint x y) s).
Hypothesis resized : forall s x y w h,
  Qs s -> (50 <= w)%Q -> (30 <= h)%Q ->
  Qs (SignatureData.mk (SignatureData.id s) x y w h
        (SignatureData.dataUrl s) (SignatureData.page s)).
Hypothesis typed : forall g x y,
  Qt (TextAnnotation.mk g x y "" 16 "#1a1a2e" (currentPage (editor a))).
Hypothesis text_moved : forall t x y, Qt t -> Qt (textAt (mkPoint x y) t).
Hypothesis retyped : forall t v,
  Qt t ->
  Qt (TextAnnotation.mk (TextAnnotation.id t) (TextAnnotation.x t)
        (TextAnnotation.y t) v (TextAnnotation.fontSize t)
        (TextAnnotation.color t) (TextAnnotation.page t)).
Hypothesis banded : forall g x y w h,
  (10 < w)%Q -> (5 < h)%Q ->
  Qh (HighlightAnnotation.mk g x y w h (currentPage (editor a))).

Lemma each_same (b : App) :
  annotations (editor b) = annotations (editor a) ->
  eachAnnotation Qs Qt Qh a -> eachAnnotation Qs Qt Qh b.
Proof. unfold eachAnnotation. now intros ->. Qed.

Lemma each_move (c : option DOMRect.t) (e : MouseEvent) :
  eachAnnotation Qs Qt Qh a -> eachAnnotation Qs Qt Qh (handleMouseMove c e a).
Proof.
  intros [Hs [Ht Hh]]. unfold handleMouseMove. cbv zeta.
  assert (Hres : forall r s, Qs s ->
            Qs (SignatureData.spread s
                  (SignatureData.mk_partial None
                     (Some (rect_x (resizeGeometry r
                        (getRelativePosition c (scale (editor a)) e))))
                     (Some (rect_y (resizeGeometry r
                        (getRelativePosition c (scale (editor a)) e))))
                     (Some (rect_width (resizeGeometry r
                        (getRelativePosition c (scale (editor a)) e))))
                     (Some (rect_height (resizeGeometry r
                        (getRelativePosition c (scale (editor a)) e))))
                     None None))).
  { intros r s Qss.
    destruct (resizeGeometry_min r
                (getRelativePosition c (scale (editor a)) e)) as [Hw Hh'].
    now apply resized. }
  destruct (highlightStart (viewer a)) as [hs|];
    [destruct (Tool_eqb (activeTool (editor a)) highlight)|];
    (destruct (resizing (viewer a)) as [r|];
     [ destruct (findSignature _ _); [|now repeat split];
       unfold eachAnnotation; simpl; split; [|now split];
       apply Forall_map_if; [apply Hres | exact Hs]
     | destruct (draggingId (viewer a)) as [i|]; [|now repeat split];
       destruct (JS.truthy_string i); [|now repeat split];
       destruct (findSignature _ _);
       [ unfold eachAnnotation; simpl; split; [|now split];
         apply Forall_map_if; [|exact Hs]; intros u Qu; now apply moved
       | destruct (findText _ _); [|now repeat split];
         unfold eachAnnotation; simpl; split; [exact Hs|];
         split; [|exact Hh];
         apply Forall_map_if; [|exact Ht]; intros u Qu;
         now apply text_moved ] ]).
Qed.

Lemma each_release (g : string) :
  eachAnnotation Qs Qt Qh a -> eachAnnotation Qs Qt Qh (handleMouseUp g a).
Proof.
  intros [Hs [Ht Hh]]. unfold handleMouseUp, eachAnnotation.
  destruct (tempHighlight (viewer a)) as [th|]; simpl; [|now repeat split].
  destruct (JS.gt (rect_width th) 10) eqn:Ew;
    destruct (JS.gt (rect_height th) 5) eqn:Eh; simpl;
    try now repeat split.
  split; [exact Hs|]. split; [exact Ht|].
  apply Forall_snoc; [exact Hh|]. apply banded; now apply gt_iff.
Qed.

Lemma each_click (c : option DOMRect.t) (g : string) (e : MouseEvent) :
  eachAnnotation Qs Qt Qh a -> eachAnnotation Qs Qt Qh (handleClick c g e a).
Proof.
  intros [Hs [Ht Hh]]. unfold handleClick.
  destruct (_ || _); [now repeat split|].
  destruct (_ && _).
  - unfold eachAnnotation. simpl. split; [|now split].
    apply Forall_snoc; [exact Hs | apply placed].
  - destruct (Tool_eqb _ text); [|now repeat split].
    unfold eachAnnotation. simpl. split; [exact Hs|]. split; [|exact Hh].
    apply Forall_snoc; [exact Ht | apply typed].
Qed.

Lemma each_dispatch (ev : Event) :
  eachAnnotation Qs Qt Qh a -> eachAnnotation Qs Qt Qh (dispatch ev a).
Proof.
  intros H. destruct ev as [t c e|c e|g|g|c g e|t]; simpl.
  - apply each_same; [|exact H].
    destruct t; unfold handleMouseDown, startDrag, startResize;
      repeat (destruct (Tool_eqb _ highlight)); reflexivity.
  - now apply each_move.
  - now apply each_release.
  - now apply each_release.
  - now apply each_click.
  - apply each_same; [|exact H]. unfold handleToolChange. simpl.
    now destruct (_ && _).
Qed.

Lemma each_blur (t : TextAnnotation.t) (b : App) :
  annotations (editor b) = annotations (editor a) ->
  eachAnnotation Qs Qt Qh a ->
  eachAnnotation Qs Qt Qh
    (if negb (JS.truthy_string (JS.trim (TextAnnotation.text t)))
     then onDeleteText (TextAnnotation.id t) b else b).
Proof.
  intros E [Hs [Ht Hh]]. destruct (negb _).
  - unfold eachAnnotation. simpl. rewrite E. split; [exact Hs|].
    split; [|exact Hh]. now apply Forall_filter_keep.
  - apply each_same; [exact E | now repeat split].
Qed.

Lemma each_uiStep (ev : UiEvent) :
  eachAnnotation Qs Qt Qh a -> eachAnnotation Qs Qt Qh (uiStep ev a).
Proof.
  intros H. pose proof H as [Hs [Ht Hh]].
  destruct ev; simpl; try (now apply each_dispatch).
  - apply each_same; [|exact H]. unfold Toolbar.previousPage. simpl.
    now destruct (_ <=? _).
  - apply each_same; [|exact H]. unfold Toolbar.nextPage. simpl.
    now destruct (_ <=? _).
  - apply each_same; [|exact H]. unfold Toolbar.zoomOut. simpl.
    now destruct (Qle_bool _ _).
  - apply each_same; [|exact H]. unfold Toolbar.zoomIn. simpl.
    now destruct (Qle_bool _ _).
  - now apply each_same.
  - unfold eachAnnotation. simpl. repeat split; constructor.
  - apply each_same; [|exact H]. unfold Toolbar.download. simpl.
    now destruct (isProcessing _).
  - destruct (showSignatureModal _); now apply each_same.
  - destruct (showSignatureModal _); now apply each_same.
  - destruct (Tool_eqb _ select); [|exact H].
    unfold eachAnnotation. simpl. split; [|now split].
    now apply Forall_filter_keep.
  - destruct (_ && _); [|exact H].
    unfold eachAnnotation. simpl. split; [exact Hs|]. split; [|exact Hh].
    now apply Forall_filter_keep.
  - unfold highlightOnClick. destruct (Tool_eqb _ select); [|exact H].
    unfold eachAnnotation. simpl. split; [exact Hs|]. split; [exact Ht|].
    now apply Forall_filter_keep.
  - destruct (isEditing _ _); [exact H | now apply each_same].
  - destruct (isEditing _ _); [|exact H].
    unfold eachAnnotation. simpl. split; [exact Hs|]. split; [|exact Hh].
    apply Forall_map_if; [|exact Ht]. intros u Qu. now apply retyped.
  - destruct (isEditing _ _); [|exact H]. unfold textOnBlur.
    now apply each_blur.
  - destruct (isEditing _ _); [|exact H]. unfold textOnKeyDown.
    destruct (String.eqb key "Enter"); [|exact H]. now apply each_blur.
Qed.

End EachAnnotation.

Lemma uiReachable_run (N : Z) (evs : list UiEvent) (a0 : App) :
  Forall (fun ev => forall n, ev = DocumentLoad n -> n = N) evs ->
  forall a, uiReachable N a0 a -> uiReachable N a0 (uiRun evs a).
Proof.
  induction 1 as [|ev evs Hev _ IH]; intros a Ha; [exact Ha|].
  apply (IH (uiStep ev a)). now apply ui_step.
Qed.

Ltac split_matches :=
  repeat match goal with
         | |- context [match ?x with _ => _ end] => destruct x
         end.

Lemma dispatch_session (ev : Event) (a : App) :
  numPages (editor (dispatch ev a)) = numPages (editor a)
  /\ currentPage (editor (dispatch ev a)) = currentPage (editor a)
  /\ scale (editor (dispatch ev a)) = scale (editor a).
Proof.
  destruct ev as [t c e|c e|g|g|c g e|t]; simpl.
  - destruct t; unfold handleMouseDown, startDrag, startResize;
      split_matches; repeat split.
  - unfold handleMouseMove. cbv zeta. split_matches; repeat split.
  - unfold handleMouseUp. split_matches; repeat split.
  - unfold handleMouseUp. split_matches; repeat split.
  - unfold handleClick. split_matches; repeat split.
  - unfold handleToolChange. split_matches; repeat split.
Qed.

(** What an event can do to the page count, the current page and the
    scale. *)
Lemma uiStep_session (ev : UiEvent) (a : App) :
  numPages (editor (uiStep ev a))
  = match ev with
    | DocumentLoad n => n
    | _ => numPages (editor a)
    end
  /\ currentPage (editor (uiStep ev a))
     = match ev with
       | PreviousPage => currentPage (Toolbar.previousPage (editor a))
       | NextPage => currentPage (Toolbar.nextPage (editor a))
       | _ => currentPage (editor a)
       end
  /\ scale (editor (uiStep ev a))
     = match ev with
       | ZoomOut => scale (Toolbar.zoomOut (editor a))
       | ZoomIn => scale (Toolbar.zoomIn (editor a))
       | _ => scale (editor a)
       end.
Proof.
  destruct ev; try (apply dispatch_session); simpl;
    unfold Toolbar.previousPage, Toolbar.nextPage, Toolbar.zoomOut,
      Toolbar.zoomIn, Toolbar.download, highlightOnClick, textOnBlur,
      textOnKeyDown;
    split_matches; repeat split.
Qed.

(** X12. The sizes the handlers give are kept by every event of the editor
    screen: if every signature of the store is at least 50 wide and 30
    high and every highlight more than 10 wide and 5 high, this is so in
    every state reached, whatever is placed, dragged, resized, typed,
    deleted or reset. *)
Theorem X12_sizes_are_kept (N : Z) (a0 a : App) :
  uiReachable N a0 a ->
  sizesKept (annotations (editor a0)) ->
  sizesKept (annotations (editor a)).
Proof.
  intros Hreach [Hs Hh].
  assert (H0 : eachAnnotation
                 (fun s => (50 <= SignatureData.width s)%Q
                           /\ (30 <= SignatureData.height s)%Q)
                 (fun _ => True)
                 (fun h => (10 < HighlightAnnotation.width h)%Q
                           /\ (5 < HighlightAnnotation.height h)%Q) a0).
  { split; [exact Hs|]. split; [|exact Hh].
    apply List.Forall_forall. intros; exact I. }
  clear Hs Hh.
  assert (H : eachAnnotation
                (fun s => (50 <= SignatureData.width s)%Q
                          /\ (30 <= SignatureData.height s)%Q)
                (fun _ => True)
                (fun h => (10 < HighlightAnnotation.width h)%Q
                          /\ (5 < HighlightAnnotation.height h)%Q) a).
  { induction Hreach as [|a ev Hreach IH _]; [exact H0|].
    apply each_uiStep; try exact IH; simpl; auto.
    intros; split; discriminate. }
  destruct H as [Hs [_ Hh]]. now split.
Qed.

Lemma X12_sizes_are_kept_witness :
  sizesKept (annotations (editor (uiRun Demo.session initialApp))).
Proof.
  apply (X12_sizes_are_kept 3 initialApp).
  - apply uiReachable_run; [|apply ui_start].
    repeat constructor; intros n E; try discriminate E. now injection E.
  - split; constructor.
Defined.

Lemma zoomStep_bounds (s : Q) :
  zoomStep s -> ((1 # 2) <= s)%Q /\ (s <= 3)%Q /\ ~ (s == 0)%Q.
Proof.
  intros [k [Hk E]]. destruct s as [n d].
  unfold Qeq, Qle in *. simpl in *. nia.
Qed.

Lemma zoomIn_step (s : Q) :
  zoomStep s -> Qle_bool 3 s = false -> zoomStep (s + (1 # 4)).
Proof.
  intros [k [Hk E]] Hlt.
  assert (Hn : ~ (3 <= s)%Q) by (intros H; apply Qle_bool_iff in H; congruence).
  exists (k + 1). destruct s as [n d].
  unfold Qeq, Qle, Qplus in *. simpl in *. nia.
Qed.

Lemma zoomOut_step (s : Q) :
  zoomStep s -> Qle_bool s (1 # 2) = false -> zoomStep (s - (1 # 4)).
Proof.
  intros [k [Hk E]] Hlt.
  assert (Hn : ~ (s <= 1 # 2)%Q) by (intros H; apply Qle_bool_iff in H; congruence).
  exists (k - 1). destruct s as [n d].
  unfold Qeq, Qle, Qminus, Qplus, Qopp in *. simpl in *. nia.
Qed.

(** X13. The zoom buttons keep the scale a whole number of quarters
    between 0.5 and 3: from such a scale, as the initial 1 is, every state
    the editor screen reaches has one.  The scale is therefore never zero,
    and the pointer conversion always inverts the scaling of the view. *)
Theorem X13_zoom_stays_in_range (N : Z) (a0 a : App) :
  uiReachable N a0 a ->
  zoomStep (scale (editor a0)) ->
  zoomStep (scale (editor a))
  /\ ((1 # 2) <= scale (editor a))%Q /\ (scale (editor a) <= 3)%Q
  /\ forall rect e,
       (px (getRelativePosition (Some rect) (scale (editor a)) e)
        * scale (editor a) == clientX e - DOMRect.left rect)%Q
       /\ (py (getRelativePosition (Some rect) (scale (editor a)) e)
           * scale (editor a) == clientY e - DOMRect.top rect)%Q.
Proof.
  intros Hreach H0.
  assert (H : zoomStep (scale (editor a))).
  { induction Hreach as [|a ev Hreach IH _]; [exact H0|].
    destruct (uiStep_session ev a) as [_ [_ ->]].
    destruct ev; try exact IH.
    - unfold Toolbar.zoomOut.
      destruct (Qle_bool (scale (editor a)) (1 # 2)) eqn:E; [exact IH|].
      now apply zoomOut_step.
    - unfold Toolbar.zoomIn.
      destruct (Qle_bool 3 (scale (editor a))) eqn:E; [exact IH|].
      now apply zoomIn_step. }
  destruct (zoomStep_bounds _ H) as [Hlo [Hhi Hnz]].
  repeat split; try assumption; simpl; field; assumption.
Qed.

Lemma X13_zoom_stays_in_range_witness :
  ((1 # 2) <= scale (editor (uiRun Demo.session initialApp)))%Q
  /\ (scale (editor (uiRun Demo.session initialApp)) <= 3)%Q.
Proof.
  destruct (X13_zoom_stays_in_range 3 initialApp
              (uiRun Demo.session initialApp)) as [_ [Hlo [Hhi _]]].
  - apply uiReachable_run; [|apply ui_start].
    repeat constructor; intros n E; try discriminate E. now injection E.
  - exists 4. split; [lia | reflexivity].
  - now split.
Defined.

Lemma filter_all {A : Type} (f : A -> bool) (l : list A) :
  Forall (fun a => f a = true) l -> List.filter f l = l.
Proof.
  induction 1 as [|a l Ha _ IH]; [reflexivity|]. simpl. now rewrite Ha, IH.
Qed.

Lemma hasPage_within (N : Z) (p : Z) :
  1 <= p <= N -> hasPage (Z.to_nat N) p = true.
Proof.
  intros H. unfold hasPage. apply andb_true_intro.
  split; [apply Z.leb_le | apply Z.ltb_lt]; lia.
Qed.

Lemma kept_within (N : Z) (a : Annotation) :
  pagesWithin 1 N a ->
  kept (Z.to_nat N) a
  = mkAnnotation (signatures a) (List.filter inked (texts a)) (highlights a).
Proof.
  intros [Hs [Ht Hh]]. unfold kept. f_equal.
  - apply filter_all. eapply List.Forall_impl; [|exact Hs].
    intros s. apply hasPage_within.
  - induction Ht as [|t l Hpage _ IH]; [reflexivity|]. simpl.
    rewrite (hasPage_within N _ Hpage), andb_true_r.
    now rewrite IH.
  - apply filter_all. eapply List.Forall_impl; [|exact Hh].
    intros h. apply hasPage_within.
Qed.

(** X14. With a document of [N] pages, the page buttons keep the current
    page between 1 and [N] (at 1 while nothing is loaded), and every
    annotation is made on the current page and stays on its page: in every
    state the editor screen reaches, all annotations lie on pages 1 to [N].
    The export of a document of [N >= 1] pages then skips none of them for
    want of a page; only blank texts are left out. *)
Theorem X14_annotations_stay_on_pages (N : Z) (a0 a : App) :
  uiReachable N a0 a ->
  numPages (editor a0) = 0 \/ numPages (editor a0) = N ->
  1 <= currentPage (editor a0) <= Z.max 1 N ->
  pagesWithin 1 (Z.max 1 N) (annotations (editor a0)) ->
  (numPages (editor a) = 0 \/ numPages (editor a) = N)
  /\ 1 <= currentPage (editor a) <= Z.max 1 N
  /\ pagesWithin 1 (Z.max 1 N) (annotations (editor a))
  /\ (1 <= N ->
      kept (Z.to_nat N) (annotations (editor a))
      = mkAnnotation (signatures (annotations (editor a)))
          (List.filter inked (texts (annotations (editor a))))
          (highlights (annotations (editor a)))).
Proof.
  intros Hreach Hn0 Hc0 Hp0.
  assert (H : (numPages (editor a) = 0 \/ numPages (editor a) = N)
              /\ 1 <= currentPage (editor a) <= Z.max 1 N
              /\ eachAnnotation
                   (fun s => 1 <= SignatureData.page s <= Z.max 1 N)
                   (fun t => 1 <= TextAnnotation.page t <= Z.max 1 N)
                   (fun h => 1 <= HighlightAnnotation.page h <= Z.max 1 N) a).
  { induction Hreach as [|a ev Hreach IH Hload];
      [split; [exact Hn0 | split; [exact Hc0 | exact Hp0]]|].
    destruct IH as [Hn [Hc Hp]].
    destruct (uiStep_session ev a) as [En [Ec _]].
    split; [|split].
    - rewrite En. destruct ev; try exact Hn. right. now apply Hload.
    - rewrite Ec. destruct ev; try exact Hc.
      + unfold Toolbar.previousPage.
        destruct (Z.leb_spec (currentPage (editor a)) 1); simpl; lia.
      + unfold Toolbar.nextPage.
        destruct (Z.leb_spec (numPages (editor a)) (currentPage (editor a)));
          simpl; lia.
    - apply each_uiStep; try exact Hp; simpl; auto. }
  destruct H as [Hn [Hc Hp]].
  split; [exact Hn|]. split; [exact Hc|]. split; [exact Hp|].
  intros HN. apply kept_within. rewrite Z.max_r in Hp by lia. exact Hp.
Qed.

Lemma X14_annotations_stay_on_pages_witness :
  kept 3 (annotations (editor (uiRun Demo.session initialApp)))
  = mkAnnotation
      (signatures (annotations (editor (uiRun Demo.session initialApp))))
      (List.filter inked
         (texts (annotations (editor (uiRun Demo.session initialApp)))))
      (highlights (annotations (editor (uiRun Demo.session initialApp)))).
Proof.
  destruct (X14_annotations_stay_on_pages 3 initialApp
              (uiRun Demo.session initialApp)) as [_ [_ [_ H]]].
  - apply uiReachable_run; [|apply ui_start].
    repeat constructor; intros n E; try discriminate E. now injection E.
  - now left.
  - simpl. lia.
  - repeat split; constructor.
  - apply H. lia.
Defined.

(** ** Export: failures, empty exports, embedded images *)

Lemma for_of_fails {A : Type} (body : A -> Task unit) (n : nat) (a : A)
    (l : list A) :
  (forall b d d' u, body b d = Some (u, d') ->
     List.length (pages d') = List.length (pages d)) ->
  In a l ->
  (forall d, List.length (pages d) = n -> body a d = None) ->
  forall d, List.length (pages d) = n -> for_of l body d = None.
Proof.
  intros Hlen Hin Hfail. induction l as [|b l IH]; [destruct Hin|].
  intros d Hd. simpl. unfold bind.
  destruct (body b d) as [[u d1]|] eqn:Hb; [|reflexivity].
  destruct Hin as [->|Hin].
  - rewrite (Hfail d Hd) in Hb. discriminate.
  - apply IH; [exact Hin|]. now rewrite (Hlen _ _ _ _ Hb).
Qed.

Lemma bakeSignature_fails (P : Platform) (n : nat) (s : SignatureData.t)
    (d : PDFDocument) :
  hasPage n (SignatureData.page s) = true -> ~ decodable P s ->
  List.length (pages d) = n -> bakeSignature P s d = None.
Proof.
  intros Hp Hdec Hd. destruct (page_at_found n _ d Hd Hp) as [pg Hpg].
  unfold bakeSignature, bind, await, embedPng. rewrite Hpg.
  destruct (fetch_arrayBuffer P (SignatureData.dataUrl s)) as [bytes|] eqn:Hf;
    [|reflexivity].
  destruct (decodePng P bytes) as [img|] eqn:Hi; [|reflexivity].
  exfalso. apply Hdec. now exists bytes, img.
Qed.

(** X15. One signature on a page of the document whose image cannot be
    fetched or decoded makes the whole export fail: nothing is downloaded,
    whatever else the store holds; the error is logged and reported in a
    toast, the annotations are kept and the processing flag is cleared. *)
Theorem X15_one_bad_signature_aborts (P : Platform) (file : File)
    (st : EditorState) (buf : list Byte.byte) (doc : PDFDocument)
    (s : SignatureData.t) :
  arrayBuffer P file = Some buf ->
  load P buf = Some doc ->
  In s (signatures (annotations st)) ->
  hasPage (List.length (pages doc)) (SignatureData.page s) = true ->
  ~ decodable P s ->
  tryBake P file (annotations st) = None
  /\ effects (handleDownload P file st)
     = [ console_error;
         toast "Error" "Failed to process the PDF. Please try again." true ]
  /\ annotations (settled (handleDownload P file st)) = annotations st
  /\ isProcessing (settled (handleDownload P file st)) = false.
Proof.
  intros Hbuf Hload Hin Hp Hdec.
  assert (Hrun : tryBake P file (annotations st) = None).
  { unfold tryBake, bakeAnnotations, bind. rewrite Hbuf, Hload.
    now rewrite (for_of_fails (bakeSignature P) (List.length (pages doc)) s
                   (signatures (annotations st)) (bakeSignature_length P) Hin
                   (fun d => bakeSignature_fails P _ s d Hp Hdec) doc eq_refl). }
  split; [exact Hrun|]. unfold handleDownload. simpl. now rewrite Hrun.
Qed.

Lemma X15_one_bad_signature_aborts_witness :
  effects (handleDownload Demo.lostPlatform Sample.file
             (editor Sample.selecting))
  = [ console_error;
      toast "Error" "Failed to process the PDF. Please try again." true ].
Proof.
  apply (X15_one_bad_signature_aborts Demo.lostPlatform Sample.file
           (editor Sample.selecting) (file_bytes Sample.file)
           (mkDoc [mkPage 595 842 []; mkPage 595 842 []] []) Sample.sigA).
  - reflexivity.
  - reflexivity.
  - simpl. now left.
  - reflexivity.
  - intros [bytes [img [Hf _]]]. discriminate Hf.
Defined.

(** X16. When no annotation of the store can be drawn on the loaded
    document (each is on a page the document does not have, or is a blank
    text), and in particular after a reset, the export still succeeds: it
    serialises the document exactly as it was loaded and downloads it under
    the name of the file prefixed with [edited_]. *)
Theorem X16_nothing_to_draw (P : Platform) (file : File) (st : EditorState)
    (buf bytes : list Byte.byte) (doc : PDFDocument) :
  arrayBuffer P file = Some buf ->
  load P buf = Some doc ->
  save P doc = Some bytes ->
  kept (List.length (pages doc)) (annotations st) = mkAnnotation [] [] [] ->
  tryBake P file (annotations st) = Some (doc, bytes)
  /\ effects (handleDownload P file st)
     = [ download ("edited_" ++ file_name file) bytes;
         toast "PDF downloaded" "Your edited PDF has been saved" false ]
  /\ effects (handleDownload P file (handleReset st))
     = effects (handleDownload P file st).
Proof.
  intros Hbuf Hload Hsave Hkept.
  assert (Hempty : tryBake P file (mkAnnotation [] [] []) = Some (doc, bytes)).
  { unfold tryBake. rewrite Hbuf, Hload. simpl. now rewrite Hsave. }
  assert (Hrun : tryBake P file (annotations st) = Some (doc, bytes)).
  { rewrite <- Hempty. unfold tryBake. rewrite Hbuf, Hload.
    now rewrite (bakeAnnotations_kept P (annotations st) doc), Hkept. }
  split; [exact Hrun|]. unfold handleDownload, handleReset. simpl.
  now rewrite Hrun, Hempty.
Qed.

Lemma X16_nothing_to_draw_witness :
  tryBake Sample.platform Sample.file (annotations (editor Demo.unplaced))
  = Some (mkDoc [mkPage 595 842 []] [],
          [Byte.x25; Byte.x50; Byte.x44; Byte.x46]).
Proof.
  apply (X16_nothing_to_draw Sample.platform Sample.file
           (editor Demo.unplaced) (file_bytes Sample.file)
           [Byte.x25; Byte.x50; Byte.x44; Byte.x46]
           (mkDoc [mkPage 595 842 []] []));
    reflexivity.
Defined.

(** The image a signature is embedded as. *)
Lemma bakeSignature_embeds (P : Platform) (s : SignatureData.t)
    (d d' : PDFDocument) (u : unit) :
  bakeSignature P s d = Some (u, d') ->
  (hasPage (List.length (pages d)) (SignatureData.page s) = false
   /\ embedded d' = embedded d)
  \/ (hasPage (List.length (pages d)) (SignatureData.page s) = true
      /\ exists bytes img,
           fetch_arrayBuffer P (SignatureData.dataUrl s) = Some bytes
           /\ decodePng P bytes = Some img
           /\ embedded d' = (embedded d ++ [img])%list).
Proof.
  destruct (hasPage (List.length (pages d)) (SignatureData.page s)) eqn:Hp.
  - destruct (page_at_found _ _ d eq_refl Hp) as [pg Hpg].
    unfold bakeSignature, bind, await, embedPng, draw. rewrite Hpg.
    destruct (fetch_arrayBuffer P (SignatureData.dataUrl s)) as [bytes|];
      [|discriminate].
    destruct (decodePng P bytes) as [img|] eqn:Hi; [|discriminate].
    intros H. injection H as _ <-. right. split; [reflexivity|].
    now exists bytes, img.
  - rewrite (bakeSignature_skips P s d Hp). intros H. injection H as _ <-.
    now left.
Qed.

Lemma signatures_embed (P : Platform) (l : list SignatureData.t) :
  forall d d' u,
    for_of l (bakeSignature P) d = Some (u, d') ->
    exists images,
      embedded d' = (embedded d ++ images)%list
      /\ Forall2 (fun s img =>
                    exists bytes,
                      fetch_arrayBuffer P (SignatureData.dataUrl s) = Some bytes
                      /\ decodePng P bytes = Some img)
           (List.filter
              (fun s => hasPage (List.length (pages d)) (SignatureData.page s))
              l)
           images.
Proof.
  induction l as [|s l IH]; intros d d' u Hrun.
  - injection Hrun as _ <-. exists []. split; [now rewrite app_nil_r|].
    constructor.
  - simpl in Hrun. unfold bind in Hrun.
    destruct (bakeSignature P s d) as [[v d1]|] eqn:Hs; [|discriminate].
    destruct (IH _ _ _ Hrun) as [images [E F]].
    rewrite (bakeSignature_length P s d d1 v Hs) in F. simpl.
    destruct (bakeSignature_embeds P s d d1 v Hs)
      as [[-> E1] | [-> [bytes [img [Hf [Hi E1]]]]]].
    + exists images. split; [congruence | exact F].
    + exists (img :: images). split.
      * rewrite E, E1. now rewrite <- app_assoc.
      * constructor; [now exists bytes | exact F].
Qed.

Lemma for_of_embedded {A : Type} (body : A -> Task unit) (l : list A) :
  (forall a d d' u, body a d = Some (u, d') -> embedded d' = embedded d) ->
  forall d d' u, for_of l body d = Some (u, d') -> embedded d' = embedded d.
Proof.
  intros Hbody. induction l as [|a l IH]; intros d d' u Hrun.
  - now injection Hrun as _ <-.
  - simpl in Hrun. unfold bind in Hrun.
    destruct (body a d) as [[v d1]|] eqn:Hb; [|discriminate].
    rewrite (IH _ _ _ Hrun). exact (Hbody _ _ _ _ Hb).
Qed.

Lemma bakeText_embedded (P : Platform) (t : TextAnnotation.t)
    (d d' : PDFDocument) (u : unit) :
  bakeText P t d = Some (u, d') -> embedded d' = embedded d.
Proof.
  unfold bakeText, bind, page_at, draw.
  destruct (negb _); [intros H; now injection H as _ <-|].
  destruct (_ <? 0); [intros H; now injection H as _ <-|].
  destruct (pages d !! _); [|intros H; now injection H as _ <-].
  destruct (accepts P _); [|discriminate].
  intros H. now injection H as _ <-.
Qed.

Lemma bakeHighlight_embedded (P : Platform) (h : HighlightAnnotation.t)
    (d d' : PDFDocument) (u : unit) :
  bakeHighlight P h d = Some (u, d') -> embedded d' = embedded d.
Proof.
  unfold bakeHighlight, bind, page_at, draw.
  destruct (_ <? 0); [intros H; now injection H as _ <-|].
  destruct (pages d !! _); intros H; now injection H as _ <-.
Qed.

(** X17. A successful export embeds one image per signature that is on a
    page of the document, in store order, after the images the document
    already had: each is fetched from the data URL of its signature and
    decoded on its own, so that an image placed several times is embedded
    as many times.  Texts and highlights embed nothing. *)
Theorem X17_one_image_per_signature (P : Platform) (file : File)
    (a : Annotation) (baked : PDFDocument) (bytes : list Byte.byte) :
  tryBake P file a = Some (baked, bytes) ->
  exists buf doc images,
    arrayBuffer P file = Some buf /\ load P buf = Some doc
    /\ embedded baked = (embedded doc ++ images)%list
    /\ Forall2 (fun s img =>
                  exists payload,
                    fetch_arrayBuffer P (SignatureData.dataUrl s) = Some payload
                    /\ decodePng P payload = Some img)
         (signatures (kept (List.length (pages doc)) a)) images
    /\ List.length (embedded baked)
       = (List.length (embedded doc)
          + List.length (signatures (kept (List.length (pages doc)) a)))%nat.
Proof.
  unfold tryBake. intros Hrun.
  destruct (arrayBuffer P file) as [buf|] eqn:Hbuf; [|discriminate].
  destruct (load P buf) as [doc|] eqn:Hload; [|discriminate].
  destruct (bakeAnnotations P a doc) as [[[] d']|] eqn:Hbake; [|discriminate].
  destruct (save P d'); [|discriminate]. injection Hrun as <- <-.
  unfold bakeAnnotations, bind in Hbake.
  destruct (for_of (signatures a) (bakeSignature P) doc) as [[u1 d1]|] eqn:H1;
    [|discriminate].
  destruct (for_of (texts a) (bakeText P) d1) as [[u2 d2]|] eqn:H2;
    [|discriminate].
  apply (for_of_embedded _ _ (bakeHighlight_embedded P)) in Hbake.
  apply (for_of_embedded _ _ (bakeText_embedded P)) in H2.
  destruct (signatures_embed P _ _ _ _ H1) as [images [E F]].
  exists buf, doc, images. split; [reflexivity|]. split; [exact Hload|].
  assert (Eall : embedded d' = (embedded doc ++ images)%list) by congruence.
  split; [exact Eall|]. split; [exact F|].
  rewrite Eall, length_app. f_equal. symmetry.
  exact (Forall2_length _ _ _ F).
Qed.

Lemma X17_one_image_per_signature_witness :
  exists baked bytes,
    tryBake Sample.platform Sample.file Demo.twice = Some (baked, bytes)
    /\ List.length (embedded baked) = 2%nat.
Proof.
  destruct (tryBake Sample.platform Sample.file Demo.twice)
    as [[baked bytes]|] eqn:E; [|vm_compute in E; discriminate].
  destruct (X17_one_image_per_signature Sample.platform Sample.file Demo.twice
              baked bytes E) as [buf [doc [images [_ [Hload [_ [_ Hlen]]]]]]].
  injection Hload as <-. exists baked, bytes. split; [reflexivity|].
  exact Hlen.
Defined.

(** ** The signature pad *)

Lemma curves_cons (y z w : Point) (l : list Point) :
  SignaturePad.curves (y :: z :: w :: l)
  = SignaturePad.quadraticCurveTo y z (SignaturePad.midpoint z w)
    :: SignaturePad.curves (z :: w :: l).
Proof. reflexivity. Qed.

Lemma curves_snoc (l : list Point) (a b c : Point) :
  SignaturePad.curves (l ++ [a; b; c])%list
  = (SignaturePad.curves (l ++ [a; b])
     ++ [SignaturePad.quadraticCurveTo a b (SignaturePad.midpoint b c)])%list.
Proof.
  induction l as [|y l IH]; [reflexivity|].
  destruct l as [|z [|w l]]; [reflexivity | reflexivity |].
  change (SignaturePad.curves (y :: z :: w :: (l ++ [a; b; c]))
          = (SignaturePad.curves (y :: z :: w :: (l ++ [a; b]))
             ++ [SignaturePad.quadraticCurveTo a b
                   (SignaturePad.midpoint b c)])%list).
  rewrite !curves_cons. simpl app. f_equal. exact IH.
Qed.

Lemma outline_snoc (pre : list Point) (x a p : Point) :
  SignaturePad.outline (pre ++ [x; a; p])%list
  = (SignaturePad.outline (pre ++ [x; a])
     ++ [SignaturePad.quadraticCurveTo x a (SignaturePad.midpoint a p)])%list.
Proof.
  destruct pre as [|p0 [|p1 pre]]; [reflexivity | reflexivity |].
  change (SignaturePad.lineTo p0 p1
            :: SignaturePad.curves ((p0 :: p1 :: pre) ++ [x; a; p])
          = (SignaturePad.lineTo p0 p1
               :: SignaturePad.curves ((p0 :: p1 :: pre) ++ [x; a]))
            ++ [SignaturePad.quadraticCurveTo x a (SignaturePad.midpoint a p)])%list.
  now rewrite curves_snoc.
Qed.

Lemma two_last {A : Type} (l : list A) :
  (2 <= List.length l)%nat -> exists pre x a, l = (pre ++ [x; a])%list.
Proof.
  intros H. destruct l as [|a l _] using rev_ind; [simpl in H; lia|].
  destruct l as [|x l _] using rev_ind.
  - simpl in H. lia.
  - exists l, x, a. now rewrite <- app_assoc.
Qed.

Lemma lookup_three {A : Type} (pre : list A) (x a p : A) :
  (pre ++ [x; a; p])%list !! (List.length (pre ++ [x; a; p])%list - 3)%nat = Some x
  /\ (pre ++ [x; a; p])%list !! (List.length (pre ++ [x; a; p])%list - 2)%nat = Some a
  /\ (pre ++ [x; a; p])%list !! (List.length (pre ++ [x; a; p])%list - 1)%nat = Some p.
Proof.
  rewrite length_app. simpl List.length.
  rewrite !lookup_app_r by lia.
  replace (List.length pre + 3 - 3 - List.length pre)%nat with 0%nat by lia.
  replace (List.length pre + 3 - 2 - List.length pre)%nat with 1%nat by lia.
  now replace (List.length pre + 3 - 1 - List.length pre)%nat with 2%nat by lia.
Qed.

Lemma segment_three (last : Point) (pre : list Point) (x a p : Point) :
  SignaturePad.segment last (pre ++ [x; a; p])%list p
  = Some (SignaturePad.quadraticCurveTo x a (SignaturePad.midpoint a p)).
Proof.
  unfold SignaturePad.segment.
  destruct (lookup_three pre x a p) as [-> [-> ->]].
  rewrite length_app. simpl List.length.
  now replace (3 <=? List.length pre + 3)%nat with true
    by (symmetry; apply Nat.leb_le; lia).
Qed.

(** What one more move adds to the outline of a stroke. *)
Lemma outline_step (last : Point) (pts : list Point) (p : Point) :
  (pts = [last] \/ (2 <= List.length pts)%nat) ->
  SignaturePad.outline (pts ++ [p])%list
  = (SignaturePad.outline pts
     ++ match SignaturePad.segment last (pts ++ [p])%list p with
        | Some op => [op]
        | None => []
        end)%list.
Proof.
  intros [-> | H]; [reflexivity|].
  destruct (two_last pts H) as [pre [x [a ->]]].
  rewrite <- app_assoc. simpl app.
  now rewrite segment_three, outline_snoc.
Qed.

Lemma final_segment (pts : list Point) :
  (if (2 <=? List.length pts)%nat
   then match pts !! (List.length pts - 2)%nat,
              pts !! (List.length pts - 1)%nat with
        | Some p1, Some p2 => [SignaturePad.lineTo p1 p2]
        | _, _ => []
        end
   else [])
  = SignaturePad.lastTwo pts.
Proof.
  destruct (Nat.leb_spec 2 (List.length pts)) as [H|H].
  - destruct (two_last pts H) as [pre [x [a ->]]].
    unfold SignaturePad.lastTwo. rewrite rev_app_distr. simpl.
    rewrite length_app. simpl List.length.
    rewrite !lookup_app_r by lia.
    replace (List.length pre + 2 - 2 - List.length pre)%nat with 0%nat by lia.
    now replace (List.length pre + 2 - 1 - List.length pre)%nat with 1%nat by lia.
  - destruct pts as [|p [|q pts]]; [reflexivity | reflexivity | simpl in H; lia].
Qed.

Lemma segments_outline (pts : list Point) :
  SignaturePad.segments pts
  = (SignaturePad.outline pts ++ SignaturePad.lastTwo pts)%list.
Proof. destruct pts as [|p [|q pts]]; reflexivity. Qed.

(** The pad after a press and the moves that follow it. *)
Lemma drawing_moves (dom : SignaturePad.Dom) (press : MouseEvent)
    (moves : list MouseEvent) (st : SignaturePad.State) :
  SignaturePad.canvasReady st = true ->
  SignaturePad.context dom = true ->
  fold_left (fun s e => SignaturePad.draw dom e s) moves
    (SignaturePad.startDrawing dom press st)
  = SignaturePad.mkState true
      (SignaturePad.hasContent st || (0 <? List.length moves)%nat) true
      (SignaturePad.selectedColor st) (SignaturePad.signatureText st)
      (SignaturePad.activeTab st)
      (Some (List.last (List.map (SignaturePad.getCoordinates dom) moves)
               (SignaturePad.getCoordinates dom press)))
      (List.map (SignaturePad.getCoordinates dom) (press :: moves))
      (SignaturePad.bitmapWidth st) (SignaturePad.bitmapHeight st)
      (SignaturePad.painted st
       ++ SignaturePad.outline
            (List.map (SignaturePad.getCoordinates dom) (press :: moves)))%list.
Proof.
  intros Hready Hctx. induction moves as [|e moves IH] using rev_ind.
  - unfold SignaturePad.startDrawing. rewrite Hready. simpl.
    now rewrite orb_false_r, app_nil_r.
  - rewrite fold_left_app. cbn [fold_left]. rewrite IH. clear IH.
    unfold SignaturePad.draw.
    cbn [SignaturePad.isDrawing SignaturePad.hasContent
         SignaturePad.canvasReady SignaturePad.selectedColor
         SignaturePad.signatureText SignaturePad.activeTab
         SignaturePad.lastPoint SignaturePad.points SignaturePad.bitmapWidth
         SignaturePad.bitmapHeight SignaturePad.painted negb orb].
    rewrite Hctx. cbn [negb].
    change (press :: moves ++ [e])%list with ((press :: moves) ++ [e])%list.
    rewrite !List.map_app. cbn [List.map]. rewrite List.last_last.
    rewrite length_app. cbn [List.length].
    replace (0 <? List.length moves + 1)%nat with true
      by (symmetry; apply Nat.ltb_lt; lia).
    rewrite orb_true_r. f_equal. rewrite <- app_assoc. f_equal.
    symmetry. apply outline_step.
    destruct moves as [|m moves _] using rev_ind; [now left|].
    right. rewrite List.map_app. cbn [List.map List.length].
    rewrite length_app. cbn [List.length]. lia.
Qed.

(** X18. One stroke on a ready pad (a press, the moves, the release) paints
    exactly the segments of its points, after what was painted before: a
    line between the first two points, for every three consecutive points
    a curve from the first, through the second, to the midpoint of the
    second and third, and a line between the last two points.  A press
    released without a move paints nothing and sets no content flag; the
    release always ends the drawing and forgets the points. *)
Theorem X18_stroke_paints_its_segments (dom : SignaturePad.Dom)
    (press : MouseEvent) (moves : list MouseEvent) (st : SignaturePad.State) :
  SignaturePad.canvasReady st = true ->
  SignaturePad.context dom = true ->
  SignaturePad.stroke dom press moves st
  = SignaturePad.mkState false
      (SignaturePad.hasContent st || (0 <? List.length moves)%nat) true
      (SignaturePad.selectedColor st) (SignaturePad.signatureText st)
      (SignaturePad.activeTab st) None []
      (SignaturePad.bitmapWidth st) (SignaturePad.bitmapHeight st)
      (SignaturePad.painted st
       ++ SignaturePad.segments
            (List.map (SignaturePad.getCoordinates dom) (press :: moves)))%list
  /\ SignaturePad.stroke dom press [] st
     = SignaturePad.mkState false (SignaturePad.hasContent st) true
         (SignaturePad.selectedColor st) (SignaturePad.signatureText st)
         (SignaturePad.activeTab st) None []
         (SignaturePad.bitmapWidth st) (SignaturePad.bitmapHeight st)
         (SignaturePad.painted st).
Proof.
  intros Hready Hctx.
  assert (H : forall ms,
    SignaturePad.stroke dom press ms st
    = SignaturePad.mkState false
        (SignaturePad.hasContent st || (0 <? List.length ms)%nat) true
        (SignaturePad.selectedColor st) (SignaturePad.signatureText st)
        (SignaturePad.activeTab st) None []
        (SignaturePad.bitmapWidth st) (SignaturePad.bitmapHeight st)
        (SignaturePad.painted st
         ++ SignaturePad.segments
              (List.map (SignaturePad.getCoordinates dom) (press :: ms)))%list).
  { intros ms. unfold SignaturePad.stroke.
    rewrite (drawing_moves dom press ms st Hready Hctx).
    unfold SignaturePad.stopDrawing.
    cbn [SignaturePad.isDrawing SignaturePad.hasContent
         SignaturePad.canvasReady SignaturePad.selectedColor
         SignaturePad.signatureText SignaturePad.activeTab
         SignaturePad.points SignaturePad.bitmapWidth
         SignaturePad.bitmapHeight SignaturePad.painted].
    rewrite Hctx. set (pts := List.map _ (press :: ms)).
    replace (0 <? List.length pts)%nat with true
      by (symmetry; apply Nat.ltb_lt; subst pts; simpl; lia).
    cbn [andb]. rewrite final_segment, segments_outline.
    now rewrite <- app_assoc. }
  split; [apply H|]. rewrite (H []). simpl.
  now rewrite orb_false_r, app_nil_r.
Qed.

Lemma X18_stroke_paints_its_segments_witness :
  SignaturePad.painted
    (SignaturePad.stroke Demo.dom (Demo.pen 40 60) Demo.strokeMoves Demo.ready)
  = SignaturePad.segments
      (List.map (SignaturePad.getCoordinates Demo.dom)
         (Demo.pen 40 60 :: Demo.strokeMoves)).
Proof.
  destruct (X18_stroke_paints_its_segments Demo.dom (Demo.pen 40 60)
              Demo.strokeMoves Demo.ready eq_refl eq_refl) as [H _].
  now rewrite H.
Defined.

Lemma trimmed_length (txt : string) :
  JS.trim txt <> "" -> (1 <= SignaturePad.textLength txt)%Q.
Proof.
  destruct txt as [|c txt]; [intros H; now destruct H|]. intros _.
  unfold SignaturePad.textLength, Qle. simpl. lia.
Qed.

Lemma fontSize_bounds (w : Q) (txt : string) :
  (0 < w)%Q -> (1 <= SignaturePad.textLength txt)%Q ->
  (0 < SignaturePad.fontSize w txt)%Q
  /\ (SignaturePad.fontSize w txt <= 56)%Q
  /\ (SignaturePad.fontSize w txt * (SignaturePad.textLength txt * (1 # 2))
      <= w)%Q
  /\ ((SignaturePad.textLength txt * 28 <= w)%Q ->
      (SignaturePad.fontSize w txt == 56)%Q).
Proof.
  intros Hw Hn. unfold SignaturePad.fontSize, JS.Math_min.
  set (d := (SignaturePad.textLength txt * (1 # 2))%Q).
  assert (Hd : (0 < d)%Q) by (subst d; lra).
  assert (Hq : (w / d * d == w)%Q) by (field; lra).
  assert (Hpos : (0 < w / d)%Q) by (apply Qlt_shift_div_l; lra).
  destruct (Qle_bool (w / d) 56) eqn:E.
  - apply Qle_bool_iff in E. repeat split; try assumption.
    + rewrite Hq. apply Qle_refl.
    + intros Hfit. apply Qle_antisym; [exact E|].
      apply Qle_shift_div_l; [exact Hd | subst d; lra].
  - assert (Hlt : (56 < w / d)%Q).
    { apply Qnot_le_lt. intros H. apply Qle_bool_iff in H. congruence. }
    repeat split; try lra.
    rewrite <- Hq. apply Qmult_le_compat_r; lra.
Qed.

(** X19. Generating a typed signature on a pad whose canvas and container
    are there erases the surface and writes the text in the selected colour,
    and sets the content flag.  The font size is the container width
    divided by half the number of characters, capped at 56: it is positive,
    at most 56, half of it per character fits the width of the container,
    and it is 56 whenever 28 per character fit.  A text that is blank once
    trimmed generates nothing. *)
Theorem X19_typed_signature (dom : SignaturePad.Dom) (rect : ClientRect.t)
    (st : SignaturePad.State) :
  SignaturePad.canvas dom = Some true ->
  SignaturePad.container dom = Some rect ->
  JS.trim (SignaturePad.signatureText st) <> "" ->
  (0 < ClientRect.width rect)%Q ->
  let size :=
    SignaturePad.fontSize (ClientRect.width rect)
      (SignaturePad.signatureText st) in
  SignaturePad.painted (SignaturePad.generateCursiveSignature dom st)
  = (SignaturePad.painted st
     ++ [ SignaturePad.clearRect (ClientRect.width rect)
            (ClientRect.height rect);
          SignaturePad.handwritten (SignaturePad.signatureText st) size
            (SignaturePad.selectedColor st) ])%list
  /\ SignaturePad.hasContent (SignaturePad.generateCursiveSignature dom st)
     = true
  /\ (0 < size)%Q /\ (size <= 56)%Q
  /\ (size * (SignaturePad.textLength (SignaturePad.signatureText st) * (1 # 2))
      <= ClientRect.width rect)%Q
  /\ ((SignaturePad.textLength (SignaturePad.signatureText st) * 28
       <= ClientRect.width rect)%Q -> (size == 56)%Q)
  /\ forall blank,
       JS.trim (SignaturePad.signatureText blank) = "" ->
       SignaturePad.generateCursiveSignature dom blank = blank.
Proof.
  intros Hcanvas Hcont Htxt Hw size.
  destruct (fontSize_bounds (ClientRect.width rect)
              (SignaturePad.signatureText st) Hw (trimmed_length _ Htxt))
    as [H1 [H2 [H3 H4]]].
  assert (Hgo : JS.truthy_string (JS.trim (SignaturePad.signatureText st))
                = true).
  { unfold JS.truthy_string.
    now destruct (String.eqb_spec (JS.trim (SignaturePad.signatureText st)) ""). }
  unfold SignaturePad.generateCursiveSignature.
  rewrite Hgo, Hcanvas, Hcont. cbn [negb SignaturePad.painted
    SignaturePad.hasContent].
  repeat split; try assumption.
  intros blank Hblank. now rewrite Hblank.
Qed.

Lemma X19_typed_signature_witness :
  (SignaturePad.fontSize 448 "Ada Lovelace" == 56)%Q
  /\ SignaturePad.hasContent
       (SignaturePad.generateCursiveSignature Demo.dom Demo.named) = true.
Proof.
  destruct (X19_typed_signature Demo.dom (ClientRect.mk 10 20 448 192)
              Demo.named eq_refl eq_refl)
    as [_ [Hflag [_ [_ [_ [Hsize _]]]]]].
  - discriminate.
  - reflexivity.
  - split; [apply Hsize; vm_compute; discriminate | exact Hflag].
Defined.

Lemma setupCanvas_bitmap
    (rasterise : SignaturePad.CanvasOp -> SignatureCanvas.ImageData
                 -> SignatureCanvas.ImageData)
    (dom : SignaturePad.Dom) (rect : ClientRect.t) (st : SignaturePad.State) :
  SignaturePad.canvas dom = Some true ->
  SignaturePad.container dom = Some rect ->
  exists w h,
    SignaturePad.bitmap rasterise (SignaturePad.setupCanvas dom st)
    = SignatureCanvas.raster w h (fun _ _ => SignatureCanvas.mkRGBA 0 0 0 0)
    /\ SignaturePad.hasContent (SignaturePad.setupCanvas dom st)
       = SignaturePad.hasContent st.
Proof.
  intros Hcanvas Hcont. unfold SignaturePad.setupCanvas.
  rewrite Hcanvas, Hcont. eexists _, _. split; reflexivity.
Qed.

(** X20. Setting the canvas up again, as every resize of the window does,
    gives it a fresh bitmap: whatever the browser had rendered, no pixel of
    the surface is opaque any more.  The content flag is left as it was, so
    that after a drawing the save still hands an image to the editor, an
    empty one, as long as the bitmap has a pixel at all (the container
    rounds to at least one device pixel each way); after the clear button
    or a change of tab it hands over nothing. *)
Theorem X20_resize_erases_the_drawing
    (rasterise : SignaturePad.CanvasOp -> SignatureCanvas.ImageData
                 -> SignatureCanvas.ImageData)
    (dom : SignaturePad.Dom) (rect : ClientRect.t) (st : SignaturePad.State) :
  SignaturePad.canvas dom = Some true ->
  SignaturePad.container dom = Some rect ->
  SignaturePad.hasContent st = true ->
  (forall x y,
     SignatureCanvas.inside
       (SignaturePad.bitmap rasterise (SignaturePad.setupCanvas dom st)) x y ->
     SignatureCanvas.opaque
       (SignaturePad.bitmap rasterise (SignaturePad.setupCanvas dom st)) x y
     = false)
  /\ (0 < SignaturePad.bitmapWidth (SignaturePad.setupCanvas dom st) ->
      0 < SignaturePad.bitmapHeight (SignaturePad.setupCanvas dom st) ->
      SignaturePad.handleSave rasterise dom true
        (SignaturePad.setupCanvas dom st) <> None)
  /\ SignaturePad.handleSave rasterise dom true
       (SignaturePad.clearCanvas dom st) = None
  /\ forall tab,
       SignaturePad.handleSave rasterise dom true
         (SignaturePad.handleTabChange dom tab st) = None.
Proof.
  intros Hcanvas Hcont Hflag.
  destruct (setupCanvas_bitmap rasterise dom rect st Hcanvas Hcont)
    as [w [h [Hbitmap Hkept]]].
  split; [|split; [|split]].
  - intros x y [Hx Hy]. rewrite Hbitmap in *. simpl in Hx, Hy.
    now rewrite RasterProofs.opaque_raster.
  - intros Hw Hh.
    assert (Ew : SignatureCanvas.width
                   (SignaturePad.bitmap rasterise
                      (SignaturePad.setupCanvas dom st))
                 = SignaturePad.bitmapWidth (SignaturePad.setupCanvas dom st)).
    { unfold SignaturePad.setupCanvas. now rewrite Hcanvas, Hcont. }
    assert (Eh : SignatureCanvas.height
                   (SignaturePad.bitmap rasterise
                      (SignaturePad.setupCanvas dom st))
                 = SignaturePad.bitmapHeight (SignaturePad.setupCanvas dom st)).
    { unfold SignaturePad.setupCanvas. now rewrite Hcanvas, Hcont. }
    unfold SignaturePad.handleSave, SignatureCanvas.handleSave.
    rewrite Hcanvas, Hkept, Hflag.
    cbn [negb SignatureCanvas.context2d SignatureCanvas.imageData].
    rewrite Ew, Eh.
    replace (SignaturePad.bitmapWidth (SignaturePad.setupCanvas dom st) <=? 0)
      with false by (symmetry; apply Z.leb_gt; lia).
    replace (SignaturePad.bitmapHeight (SignaturePad.setupCanvas dom st) <=? 0)
      with false by (symmetry; apply Z.leb_gt; lia).
    discriminate.
  - unfold SignaturePad.handleSave, SignaturePad.clearCanvas,
      SignatureCanvas.handleSave.
    now rewrite Hcanvas, Hcont.
  - intros tab.
    unfold SignaturePad.handleSave, SignaturePad.handleTabChange,
      SignatureCanvas.handleSave.
    now rewrite Hcanvas.
Qed.

Lemma X20_resize_erases_the_drawing_witness :
  SignaturePad.handleSave Demo.noInk Demo.dom true
    (SignaturePad.setupCanvas Demo.dom Demo.drawn) <> None
  /\ SignaturePad.handleSave Demo.noInk Demo.dom true
       (SignaturePad.clearCanvas Demo.dom Demo.drawn) = None.
Proof.
  destruct (X20_resize_erases_the_drawing Demo.noInk Demo.dom
              (ClientRect.mk 10 20 448 192) Demo.drawn
              eq_refl eq_refl eq_refl) as [_ [H1 [H2 _]]].
  split; [apply H1; reflexivity | exact H2].
Defined.

(** ** The upload zone *)

Lemma accepted_pdf (files : list UploadZone.Upload) (f : UploadZone.Upload) :
  UploadZone.accepted files = Some f ->
  UploadZone.mediaType f = "application/pdf"
  /\ exists rest, files = f :: rest.
Proof.
  destruct files as [|g rest]; [discriminate|]. simpl.
  destruct (String.eqb_spec (UploadZone.mediaType g) "application/pdf")
    as [E|_]; [|discriminate].
  intros H. injection H as <-. split; [exact E | now exists rest].
Qed.

Lemma upload_step (ev : UploadZone.Event) (st : UploadZone.State) :
  (forall f, UploadZone.selectedFile st = Some f ->
             UploadZone.mediaType f = "application/pdf") ->
  forall f, UploadZone.selectedFile (UploadZone.step ev st) = Some f ->
            UploadZone.mediaType f = "application/pdf".
Proof.
  intros Hst f. unfold UploadZone.step.
  destruct (UploadZone.selectedFile st) as [g|] eqn:Hsel.
  - destruct ev; try (rewrite Hsel; exact (Hst f)). discriminate.
  - destruct ev as [n| |files|files|]; try (rewrite Hsel; discriminate).
    + unfold UploadZone.handleDragIn. destruct (0 <? n)%nat; simpl;
        rewrite Hsel; discriminate.
    + unfold UploadZone.handleDragOut. simpl. rewrite Hsel. discriminate.
    + unfold UploadZone.handleDrop.
      destruct (UploadZone.accepted files) as [g|] eqn:Hacc; simpl.
      * intros H. injection H as <-. now apply (accepted_pdf files).
      * rewrite Hsel. discriminate.
    + unfold UploadZone.handleFileInput.
      destruct (UploadZone.accepted files) as [g|] eqn:Hacc; simpl.
      * intros H. injection H as <-. now apply (accepted_pdf files).
      * rewrite Hsel. discriminate.
Qed.

(** X21. Only a file whose declared type is [application/pdf] is ever
    opened in the editor: whatever is dragged, dropped or picked, the
    selected file, if there is one, has that type.  Of several files dropped
    or picked only the first is looked at, and while a file is open nothing
    but closing the editor changes the selection. *)
Theorem X21_only_a_pdf_is_opened (evs : list UploadZone.Event)
    (st : UploadZone.State) :
  (forall f, UploadZone.selectedFile st = Some f ->
             UploadZone.mediaType f = "application/pdf") ->
  (forall f, UploadZone.selectedFile (UploadZone.run evs st) = Some f ->
             UploadZone.mediaType f = "application/pdf")
  /\ (forall g rest s,
        UploadZone.mediaType g <> "application/pdf" ->
        UploadZone.selectedFile (UploadZone.handleDrop (g :: rest) s)
        = UploadZone.selectedFile s
        /\ UploadZone.handleFileInput (g :: rest) s = s)
  /\ (forall ev s f,
        UploadZone.selectedFile s = Some f -> ev <> UploadZone.Close ->
        UploadZone.step ev s = s).
Proof.
  intros Hst. split; [|split].
  - revert st Hst. induction evs as [|ev evs IH]; intros st Hst; [exact Hst|].
    apply (IH (UploadZone.step ev st)). now apply upload_step.
  - intros g rest s Hg.
    unfold UploadZone.handleDrop, UploadZone.handleFileInput. simpl.
    now destruct (String.eqb_spec (UploadZone.mediaType g) "application/pdf").
  - intros ev s f Hsel Hev. unfold UploadZone.step. rewrite Hsel.
    destruct ev; try reflexivity. now destruct Hev.
Qed.

Lemma X21_only_a_pdf_is_opened_witness :
  UploadZone.selectedFile (UploadZone.run Demo.uploads UploadZone.initial)
  = Some Demo.pdf
  /\ UploadZone.mediaType Demo.pdf = "application/pdf".
Proof.
  split; [reflexivity|].
  destruct (X21_only_a_pdf_is_opened Demo.uploads UploadZone.initial)
    as [H _]; [discriminate|].
  apply H. reflexivity.
Defined.

(** ** Identifiers *)

Lemma map_if_key {A : Type} (key : A -> string) (c : A -> bool) (f : A -> A)
    (l : list A) :
  (forall x, key (f x) = key x) ->
  List.map key (List.map (fun x => if c x then f x else x) l) = List.map key l.
Proof.
  intros Hf. induction l as [|x l IH]; [reflexivity|]. simpl.
  rewrite IH. now destruct (c x); [rewrite Hf|].
Qed.

Lemma sublist_filter_key {A : Type} (key : A -> string) (p : A -> bool)
    (l : list A) :
  sublist (List.map key (List.filter p l)) (List.map key l).
Proof.
  induction l as [|x l IH]; [constructor|]. simpl.
  destruct (p x); simpl; now constructor.
Qed.

Lemma follow_same (g : option string) (old new : Annotation) :
  identifiers new = identifiers old ->
  idsFollow g (identifiers old) (identifiers new).
Proof. intros ->. now left. Qed.

Lemma ids_move (c : option DOMRect.t) (e : MouseEvent) (a : App) :
  identifiers (annotations (editor (handleMouseMove c e a)))
  = identifiers (annotations (editor a)).
Proof.
  unfold handleMouseMove. cbv zeta.
  split_matches; unfold identifiers; simpl; try reflexivity;
    now rewrite map_if_key.
Qed.

Lemma follow_release (g : string) (a : App) :
  idsFollow (Some g) (identifiers (annotations (editor a)))
    (identifiers (annotations (editor (handleMouseUp g a)))).
Proof.
  unfold handleMouseUp.
  destruct (tempHighlight (viewer a)) as [th|]; simpl; [|now left].
  destruct (JS.gt (rect_width th) 10 && JS.gt (rect_height th) 5);
    simpl; [|now left].
  right. exists g. split; [reflexivity|]. unfold identifiers. simpl.
  rewrite List.map_app, !app_assoc. simpl.
  symmetry. apply Permutation_cons_append.
Qed.

Lemma follow_click (c : option DOMRect.t) (g : string) (e : MouseEvent)
    (a : App) :
  idsFollow (Some g) (identifiers (annotations (editor a)))
    (identifiers (annotations (editor (handleClick c g e a)))).
Proof.
  unfold handleClick.
  destruct (_ || _); [now left|].
  destruct (_ && _).
  - right. exists g. split; [reflexivity|]. unfold identifiers. simpl.
    rewrite List.map_app, <- app_assoc. simpl.
    symmetry. apply Permutation_middle.
  - destruct (Tool_eqb _ text); [|now left].
    right. exists g. split; [reflexivity|]. unfold identifiers. simpl.
    rewrite List.map_app, <- (app_assoc (List.map TextAnnotation.id _)).
    simpl. rewrite app_assoc. symmetry.
    rewrite app_assoc. apply Permutation_middle.
Qed.

Lemma follow_delete_text (g : option string) (i : string) (a b : App) :
  annotations (editor b) = annotations (editor a) ->
  idsFollow g (identifiers (annotations (editor a)))
    (identifiers (annotations (editor (onDeleteText i b)))).
Proof.
  intros E. left. unfold identifiers. simpl. rewrite E.
  apply sublist_app; [reflexivity|].
  apply sublist_app; [apply sublist_filter_key | reflexivity].
Qed.

Lemma follow_uiStep (ev : UiEvent) (a : App) :
  idsFollow (generated ev) (identifiers (annotations (editor a)))
    (identifiers (annotations (editor (uiStep ev a)))).
Proof.
  destruct ev as [ev| | | | |n| |P file|url| |s|t|h|t|t v|t|t key];
    cbn [uiStep generated].
  - destruct ev as [t c e|c e|g|g|c g e|t]; cbn [dispatch].
    + apply follow_same.
      destruct t; unfold handleMouseDown, startDrag, startResize;
        split_matches; reflexivity.
    + apply follow_same, ids_move.
    + apply follow_release.
    + apply follow_release.
    + apply follow_click.
    + apply follow_same. unfold handleToolChange. simpl.
      now destruct (_ && _).
  - apply follow_same. unfold Toolbar.previousPage. simpl.
    now destruct (_ <=? _).
  - apply follow_same. unfold Toolbar.nextPage. simpl.
    now destruct (_ <=? _).
  - apply follow_same. unfold Toolbar.zoomOut. simpl.
    now destruct (Qle_bool _ _).
  - apply follow_same. unfold Toolbar.zoomIn. simpl.
    now destruct (Qle_bool _ _).
  - now apply follow_same.
  - left. apply sublist_nil_l.
  - apply follow_same. unfold Toolbar.download. simpl.
    now destruct (isProcessing _).
  - destruct (showSignatureModal _); now apply follow_same.
  - destruct (showSignatureModal _); now apply follow_same.
  - destruct (Tool_eqb _ select); [|now left].
    left. unfold identifiers. simpl.
    apply sublist_app; [apply sublist_filter_key | reflexivity].
  - destruct (_ && _); [|now left]. now apply follow_delete_text.
  - unfold highlightOnClick. destruct (Tool_eqb _ select); [|now left].
    left. unfold identifiers. simpl.
    apply sublist_app; [reflexivity|].
    apply sublist_app; [reflexivity | apply sublist_filter_key].
  - destruct (isEditing _ _); now apply follow_same.
  - destruct (isEditing _ _); [|now left].
    apply follow_same. unfold identifiers. simpl. now rewrite map_if_key.
  - destruct (isEditing _ _); [|now left]. unfold textOnBlur. cbv zeta.
    destruct (negb _); [now apply follow_delete_text | now apply follow_same].
  - destruct (isEditing _ _); [|now left]. unfold textOnKeyDown. cbv zeta.
    destruct (String.eqb key "Enter"); [|now left].
    destruct (negb _); [now apply follow_delete_text | now apply follow_same].
Qed.

Lemma key_injective {A : Type} (key : A -> string) (l : list A) :
  NoDup (List.map key l) ->
  forall x y, In x l -> In y l -> key x = key y -> x = y.
Proof.
  induction l as [|b l IH]; intros Hnd x y Hx Hy E; [destruct Hx|].
  simpl in Hnd. apply NoDup_cons in Hnd as [Hb Hnd].
  destruct Hx as [->|Hx], Hy as [->|Hy].
  - reflexivity.
  - exfalso. apply Hb. rewrite E. apply list_elem_of_In, in_map, Hy.
  - exfalso. apply Hb. rewrite <- E. apply list_elem_of_In, in_map, Hx.
  - now apply IH.
Qed.

Lemma filter_one {A : Type} (key : A -> string) (l : list A) (x : A) :
  NoDup (List.map key l) -> In x l ->
  S (List.length (List.filter (fun b => negb (String.eqb (key b) (key x))) l))
  = List.length l
  /\ forall y, In y l -> y <> x ->
       In y (List.filter (fun b => negb (String.eqb (key b) (key x))) l).
Proof.
  intros Hnd Hin. split.
  - induction l as [|b l IH]; [destruct Hin|]. simpl in Hnd.
    apply NoDup_cons in Hnd as [Hb Hnd]. simpl.
    destruct Hin as [->|Hin].
    + rewrite String.eqb_refl. simpl. f_equal.
      rewrite (filter_absent key (key x) l); [reflexivity|].
      intros y Hy E. apply Hb. rewrite <- E.
      apply list_elem_of_In, in_map, Hy.
    + destruct (String.eqb_spec (key b) (key x)) as [E|_]; simpl.
      * exfalso. apply Hb. rewrite E. apply list_elem_of_In, in_map, Hin.
      * f_equal. now apply IH.
  - intros y Hy Hne. apply filter_In. split; [exact Hy|].
    apply negb_true_iff, String.eqb_neq. intros E. apply Hne.
    exact (key_injective key l Hnd y x Hy Hin E).
Qed.

Lemma distinct_run (evs : list UiEvent) : forall a,
  NoDup (identifiers (annotations (editor a))) ->
  freshIds evs a ->
  NoDup (identifiers (annotations (editor (uiRun evs a)))).
Proof.
  induction evs as [|ev evs IH]; intros a Hnd Hfresh; [exact Hnd|].
  destruct Hfresh as [Hg Hrest]. apply (IH (uiStep ev a)); [|exact Hrest].
  destruct (follow_uiStep ev a) as [Hsub | [i [Hi Hperm]]].
  - exact (sublist_NoDup _ _ Hnd Hsub).
  - rewrite Hperm. apply NoDup_cons. split; [|exact Hnd].
    rewrite list_elem_of_In. now apply Hg.
Qed.

(** X22. As long as [generateId()] returns identifiers that are not in the
    store, the identifiers of the store stay pairwise distinct, across the
    three kinds, through every event of the editor screen.  Deleting an
    annotation then removes that one and no other, and an update of a
    signature leaves every other signature as it is. *)
Theorem X22_identifiers_stay_distinct (evs : list UiEvent) (a : App) :
  NoDup (identifiers (annotations (editor a))) ->
  freshIds evs a ->
  NoDup (identifiers (annotations (editor (uiRun evs a))))
  /\ (forall s,
        In s (signatures (annotations (editor (uiRun evs a)))) ->
        S (List.length
             (signatures (annotations (editor
                (onDeleteSignature (SignatureData.id s) (uiRun evs a))))))
        = List.length (signatures (annotations (editor (uiRun evs a))))
        /\ forall other u,
             In other (signatures (annotations (editor (uiRun evs a)))) ->
             other <> s ->
             In other
               (signatures (annotations (editor
                  (onDeleteSignature (SignatureData.id s) (uiRun evs a)))))
             /\ In other
                  (signatures (annotations (editor
                     (onUpdateSignature (SignatureData.id s) u
                        (uiRun evs a))))))
  /\ (forall t,
        In t (texts (annotations (editor (uiRun evs a)))) ->
        S (List.length
             (texts (annotations (editor
                (onDeleteText (TextAnnotation.id t) (uiRun evs a))))))
        = List.length (texts (annotations (editor (uiRun evs a)))))
  /\ (forall h,
        In h (highlights (annotations (editor (uiRun evs a)))) ->
        S (List.length
             (highlights (annotations (editor
                (onDeleteHighlight (HighlightAnnotation.id h)
                   (uiRun evs a))))))
        = List.length (highlights (annotations (editor (uiRun evs a))))).
Proof.
  intros Hnd Hfresh.
  pose proof (distinct_run evs a Hnd Hfresh) as H.
  split; [exact H|]. unfold identifiers in H.
  apply NoDup_app in H as [Hs [_ H]]. apply NoDup_app in H as [Ht [_ Hh]].
  split; [|split].
  - intros s Hin.
    destruct (filter_one SignatureData.id _ s Hs Hin) as [Hlen Hothers].
    split; [exact Hlen|]. intros other u Hother Hne.
    split; [now apply Hothers|]. simpl. apply in_map_iff. exists other.
    split; [|exact Hother].
    destruct (String.eqb_spec (SignatureData.id other) (SignatureData.id s))
      as [E|_]; [|reflexivity].
    now destruct (Hne (key_injective SignatureData.id _ Hs other s
                         Hother Hin E)).
  - intros t Hin. exact (proj1 (filter_one TextAnnotation.id _ t Ht Hin)).
  - intros h Hin. exact (proj1 (filter_one HighlightAnnotation.id _ h Hh Hin)).
Qed.

Lemma X22_identifiers_stay_distinct_witness :
  NoDup (identifiers (annotations (editor (uiRun Demo.session initialApp)))).
Proof.
  refine (proj1 (X22_identifiers_stay_distinct Demo.session initialApp _ _)).
  - constructor.
  - vm_compute. repeat split; intros g E; try discriminate E;
      injection E as <-; intuition discriminate.
Defined.

(** ** The theme *)

Lemma toggle_agrees (isDark : bool) (p : Theme.Page) :
  Theme.darkClass (snd (Theme.toggleTheme isDark p))
  = fst (Theme.toggleTheme isDark p)
  /\ Theme.stored (snd (Theme.toggleTheme isDark p))
     = Some (if fst (Theme.toggleTheme isDark p) then "dark" else "light")
  /\ fst (Theme.toggleTheme isDark p) = negb isDark.
Proof. now destruct isDark. Qed.

Lemma toggles_snoc (n : nat) : forall isDark p,
  Theme.toggles (S n) isDark p
  = Theme.toggleTheme (fst (Theme.toggles n isDark p))
      (snd (Theme.toggles n isDark p)).
Proof.
  induction n as [|n IH]; intros isDark p.
  - reflexivity.
  - change (Theme.toggles (S (S n)) isDark p)
      with (let (b, q) := Theme.toggleTheme isDark p in
            Theme.toggles (S n) b q).
    change (Theme.toggles (S n) isDark p)
      with (let (b, q) := Theme.toggleTheme isDark p in Theme.toggles n b q).
    destruct (Theme.toggleTheme isDark p) as [b q]. apply IH.
Qed.

(** X23. After at least one click on the theme toggle of a toolbar that
    mounted on the page, the class [dark] of the document, the flag of the
    toolbar and the theme kept in local storage agree, and the document is
    dark exactly when it was not at the mount and the number of clicks is
    odd, or was and the number is even.  The choice survives a reload: on
    any document with that local storage, whatever its class and whatever
    the colour scheme the system prefers, the effect [Index] runs on load
    sets the class to the choice. *)
Theorem X23_theme_is_remembered (n : nat) (p : Theme.Page) :
  (0 < n)%nat ->
  let after := Theme.toggles n (Theme.mount p) p in
  Theme.darkClass (snd after) = fst after
  /\ fst after = xorb (Theme.darkClass p) (Nat.odd n)
  /\ Theme.stored (snd after) = Some (if fst after then "dark" else "light")
  /\ forall class scheme,
       Theme.darkClass
         (Theme.initialize
            (Theme.mkPage class (Theme.stored (snd after)) scheme))
       = fst after.
Proof.
  intros Hn after.
  assert (Hflag : forall k isDark q,
            fst (Theme.toggles k isDark q) = xorb isDark (Nat.odd k)).
  { induction k as [|k IH]; intros isDark q.
    - simpl. now rewrite xorb_false_r.
    - rewrite toggles_snoc.
      destruct (toggle_agrees (fst (Theme.toggles k isDark q))
                  (snd (Theme.toggles k isDark q))) as [_ [_ ->]].
      rewrite IH, Nat.odd_succ, <- Nat.negb_odd.
      now destruct isDark, (Nat.odd k). }
  destruct n as [|k]; [lia|]. subst after.
  rewrite toggles_snoc.
  destruct (toggle_agrees (fst (Theme.toggles k (Theme.mount p) p))
              (snd (Theme.toggles k (Theme.mount p) p))) as [Hc [Hs Hf]].
  split; [exact Hc|]. split.
  - rewrite <- toggles_snoc. apply Hflag.
  - split; [exact Hs|]. intros class scheme. rewrite Hs.
    now destruct (fst (Theme.toggleTheme _ _)).
Qed.

Lemma X23_theme_is_remembered_witness :
  Theme.darkClass
    (Theme.initialize
       (Theme.mkPage false
          (Theme.stored
             (snd (Theme.toggles 3 false (Theme.mkPage false None false))))
          false))
  = true.
Proof.
  destruct (X23_theme_is_remembered 3 (Theme.mkPage false None false))
    as [_ [_ [_ H]]]; [lia|].
  exact (H false false).
Defined.
